(** * Witnessd text-input capture: a shallow embedding of the Windows sources

    The development follows three translation units of the repository:

    - [cmd/witnessd-tsf/tsf/tsf_text_service.cpp], the complete Text Services
      Framework (TSF) text service with its named-pipe client;
    - [cmd/witnessd-tsf/tsf/witnessd_tsf.cpp], the basic text service;
    - [witnessd-gui/windows/runner/utils.cpp], the runner's UTF-16 to UTF-8
      helper.

    C++ methods become functions in a small state-and-trace monad.  Every
    call that leaves the translation unit (Win32, TSF, the Go engine behind
    the [Witnessd*] exports) is recorded in the trace; what such a call
    answers is taken from an environment record, one per host callback, so
    that theorems quantify over every behaviour of the outside world. *)

From Stdlib Require Import ZArith List Bool String Ascii Lia.
Import ListNotations.
Local Open Scope string_scope.
Local Open Scope list_scope.
Local Open Scope Z_scope.

(** ** Machine integers and Win32 constants *)

Definition to_uint8 (x : Z) : Z := x mod 2 ^ 8.
Definition to_uint16 (x : Z) : Z := x mod 2 ^ 16.
Definition to_uint32 (x : Z) : Z := x mod 2 ^ 32.
Definition to_uint64 (x : Z) : Z := x mod 2 ^ 64.

(** Conversion to a signed type of [w] bits: wrap-around into
    [-2^(w-1), 2^(w-1)). *)
Definition to_signed (w : Z) (x : Z) : Z :=
  (x + 2 ^ (w - 1)) mod 2 ^ w - 2 ^ (w - 1).
Definition to_int32 : Z -> Z := to_signed 32.
Definition to_int64 : Z -> Z := to_signed 64.

Definition HANDLE := Z.
Definition HWND := Z.
Definition HRESULT := Z.
Definition BOOL := Z.
Definition DWORD := Z.
Definition ptr := Z.

Definition nullptr : Z := 0.
Definition INVALID_HANDLE_VALUE : HANDLE := -1.
Definition TRUE : BOOL := 1.
Definition FALSE : BOOL := 0.
Definition S_OK : HRESULT := 0.
Definition E_FAIL : HRESULT := to_int32 0x80004005.
Definition E_INVALIDARG : HRESULT := to_int32 0x80070057.
Definition TF_INVALID_COOKIE : DWORD := 0xFFFFFFFF.
Definition VK_BACK : Z := 0x08.

Definition FAILED (hr : HRESULT) : bool := hr <? 0.
Definition SUCCEEDED (hr : HRESULT) : bool := 0 <=? hr.

(** [std::wstring]: UTF-16 code units.  [std::string]: [string]. *)
Definition wstring := list Z.

Definition empty (s : string) : bool :=
  match s with EmptyString => true | _ => false end.

(** ** The 17-byte pipe message

    [WritePipe] fills a [#pragma pack(push, 1)] struct and hands its memory
    image to [WriteFile].  Windows targets are little-endian, so the image of
    a [w]-byte integer is its [w] low-order bytes, least significant first;
    on [Z], [mod] and [/] round towards minus infinity, which makes the image
    of a negative [int64_t] its two's complement. *)

Fixpoint le_bytes (n : nat) (x : Z) : list Z :=
  match n with
  | O => []
  | S k => x mod 256 :: le_bytes k (x / 256)
  end.

Fixpoint le_value (bs : list Z) : Z :=
  match bs with
  | [] => 0
  | b :: rest => b + 256 * le_value rest
  end.

Record PipeMsg := mkPipeMsg {
  msg_timestamp : Z;   (* int64_t  *)
  msg_vkCode : Z;      (* uint16_t *)
  msg_scanCode : Z;    (* uint16_t *)
  msg_flags : Z;       (* uint32_t *)
  msg_isDown : Z       (* uint8_t  *)
}.

(** The five assignments [msg.timestamp = timestamp; ...;
    msg.isDown = isDown ? 1 : 0;]. *)
Definition fill_msg (vkCode scanCode flags timestamp : Z) (isDown : bool)
  : PipeMsg :=
  {| msg_timestamp := timestamp;
     msg_vkCode := vkCode;
     msg_scanCode := scanCode;
     msg_flags := flags;
     msg_isDown := if isDown then 1 else 0 |}.

(** Memory image of the packed struct, [sizeof(msg)] bytes. *)
Definition msg_bytes (m : PipeMsg) : list Z :=
  le_bytes 8 (msg_timestamp m) ++ le_bytes 2 (msg_vkCode m) ++
  le_bytes 2 (msg_scanCode m) ++ le_bytes 4 (msg_flags m) ++
  le_bytes 1 (msg_isDown m).

(** The keystroke event of the data model, as [WritePipe] receives it in its
    five parameters. *)
Record KeystrokeEvent := mkKeystrokeEvent {
  timestampNanos : Z;
  virtualKeyCode : Z;
  scanCode : Z;
  flags : Z;
  isKeyDown : bool
}.

Definition KeystrokeEvent_in_range (e : KeystrokeEvent) : Prop :=
  - 2 ^ 63 <= timestampNanos e < 2 ^ 63 /\
  0 <= virtualKeyCode e < 2 ^ 16 /\
  0 <= scanCode e < 2 ^ 16 /\
  0 <= flags e < 2 ^ 32.

Definition encodeKeystroke (e : KeystrokeEvent) : list Z :=
  msg_bytes (fill_msg (virtualKeyCode e) (scanCode e) (flags e)
                      (timestampNanos e) (isKeyDown e)).

(** Modelled from the spec: the reader of the frame lives in the daemon,
    which is not among the sources.  It reads the layout
    [timestampNanos:i64 | virtualKeyCode:u16 | scanCode:u16 | flags:u32 |
    isKeyDown:u8], little-endian, from exactly 17 bytes. *)
Definition decodeKeystroke (frame : list Z) : option KeystrokeEvent :=
  if Z.of_nat (List.length frame) =? 17 then
    Some {| timestampNanos := to_int64 (le_value (firstn 8 frame));
            virtualKeyCode := le_value (firstn 2 (skipn 8 frame));
            scanCode := le_value (firstn 2 (skipn 10 frame));
            flags := le_value (firstn 4 (skipn 12 frame));
            isKeyDown := negb (le_value (firstn 1 (skipn 16 frame)) =? 0) |}
  else None.

(** ** Calls that leave the translation unit *)

Inductive Call :=
(* kernel32 *)
| Sys_CreateFileW (pipeName : string) (result : HANDLE)
| Sys_WriteFile (h : HANDLE) (buffer : list Z) (success : bool)
| Sys_CloseHandle (h : HANDLE)
(* the Go engine, [extern "C"] *)
| Go_StartSession (appID docID : string)
| Go_HasActiveSession
| Go_EndSession
| Go_FreeString
| Go_OnKeyDown (vkCode charCode : Z)
| Go_OnTextCommit (text : string)
| Go_OnTextDelete (count : Z)
| Go_OnFocusChange (appName docTitle : string)
(* TSF sinks *)
| Tsf_AdviseKeyEventSink (clientId : Z)
| Tsf_UnadviseKeyEventSink (clientId : Z)
| Tsf_AdviseSink (result : HRESULT)
| Tsf_UnadviseSink (cookie : DWORD).

Definition is_connect (c : Call) : bool :=
  match c with Sys_CreateFileW _ _ => true | _ => false end.

Definition is_write (c : Call) : bool :=
  match c with Sys_WriteFile _ _ _ => true | _ => false end.

Definition is_failed_write (c : Call) : bool :=
  match c with Sys_WriteFile _ _ false => true | _ => false end.

Definition is_engine_call (c : Call) : bool :=
  match c with
  | Go_StartSession _ _ | Go_HasActiveSession | Go_EndSession | Go_FreeString
  | Go_OnKeyDown _ _ | Go_OnTextCommit _ | Go_OnTextDelete _
  | Go_OnFocusChange _ _ => true
  | _ => false
  end.

Definition is_text_call (c : Call) : bool :=
  match c with Go_OnTextCommit _ | Go_OnTextDelete _ => true | _ => false end.

Definition is_key_call (c : Call) : bool :=
  match c with
  | Go_OnKeyDown _ _ | Go_OnTextCommit _ | Go_OnTextDelete _ => true
  | _ => false
  end.

Definition is_pipe_call (c : Call) : bool := is_connect c || is_write c.

Definition is_sink_call (c : Call) : bool :=
  match c with
  | Tsf_AdviseKeyEventSink _ | Tsf_UnadviseKeyEventSink _
  | Tsf_AdviseSink _ | Tsf_UnadviseSink _ => true
  | _ => false
  end.

Definition is_session_call (c : Call) : bool :=
  match c with Go_StartSession _ _ | Go_EndSession => true | _ => false end.


(** Reading a trace for its session calls: [Some o] when every
    [WitnessdEndSession] came after a [WitnessdStartSession] not yet ended,
    [o] telling whether a started session is pending at the end; [None]
    otherwise.  [pending] is the situation at the start. *)
Fixpoint sessions (pending : bool) (t : list Call) : option bool :=
  match t with
  | [] => Some pending
  | Go_StartSession _ _ :: rest => sessions true rest
  | Go_EndSession :: rest => if pending then sessions false rest else None
  | _ :: rest => sessions pending rest
  end.

Definition is_open (c : Call) : bool :=
  match c with
  | Sys_CreateFileW _ h => negb (h =? INVALID_HANDLE_VALUE)
  | _ => false
  end.

Definition is_close (c : Call) : bool :=
  match c with Sys_CloseHandle _ => true | _ => false end.

Definition handles_opened (t : list Call) : nat :=
  List.length (filter is_open t).

Definition handles_closed (t : list Call) : nat :=
  List.length (filter is_close t).

Definition connect_attempts (t : list Call) : nat :=
  List.length (filter is_connect t).

Definition write_attempts (t : list Call) : nat :=
  List.length (filter is_write t).

(** ** State-and-trace monad *)

Definition M (St A : Type) : Type := St -> A * St * list Call.

Definition ret {St A} (a : A) : M St A := fun s => (a, s, []).

Definition bind {St A B} (m : M St A) (f : A -> M St B) : M St B :=
  fun s =>
    let '(a, s1, t1) := m s in
    let '(b, s2, t2) := f a s1 in
    (b, s2, t1 ++ t2).

Definition gets {St A} (f : St -> A) : M St A := fun s => (f s, s, []).
Definition modify {St} (f : St -> St) : M St unit := fun s => (tt, f s, []).
Definition emit {St} (c : Call) : M St unit := fun s => (tt, s, [c]).

Definition result {St A} (r : A * St * list Call) : A := fst (fst r).
Definition state {St A} (r : A * St * list Call) : St := snd (fst r).
Definition trace {St A} (r : A * St * list Call) : list Call := snd r.

Declare Scope monad_scope.
Delimit Scope monad_scope with monad.
Notation "x <- m ;; k" := (bind m (fun x => k))
  (at level 61, m at next level, right associativity) : monad_scope.
Notation "m ;; k" := (bind m (fun _ => k))
  (at level 61, right associativity) : monad_scope.
Notation "'when' b 'then' m" := (if b then m else ret tt)
  (at level 60, b at level 9) : monad_scope.
Local Open Scope monad_scope.

(** ** The Go engine

    The [extern "C"] block of both headers declares the engine the text
    services call into.  Its implementation is Go code outside these
    translation units, so it is an interface here: an abstract engine state
    and one transformer per export.  [WitnessdFreeString] only releases
    memory and [WitnessdHasActiveSession] is a query. *)

Class WitnessdEngine := {
  engine : Type;
  WitnessdStartSession : string -> string -> engine -> Z * engine;
  WitnessdEndSession : engine -> option string * engine;
  WitnessdHasActiveSession : engine -> Z;
  WitnessdOnKeyDown : Z -> Z -> engine -> Z * engine;
  WitnessdOnTextCommit : string -> engine -> engine;
  WitnessdOnTextDelete : Z -> engine -> engine;
  WitnessdOnFocusChange : string -> string -> engine -> engine
}.

(** [char buf[2] = { (char)charCode, 0 }] as a C string. *)
Definition char_buf (charCode : Z) : string :=
  String (ascii_of_N (Z.to_N (to_uint8 charCode))) EmptyString.

(** [std::string utf8(n, 0)] overwritten from its first byte with [out]. *)
Fixpoint filled (n : nat) (out : string) : string :=
  match n with
  | O => EmptyString
  | S k =>
      match out with
      | EmptyString => String zero (filled k EmptyString)
      | String c rest => String c (filled k rest)
      end
  end.

(** The expression [(lParam >> 16) & 0xFF] of the key callbacks; [>>] on the
    signed [LPARAM] is an arithmetic shift, as [Z.shiftr] is. *)
Definition scan_code_of (lParam : Z) : Z := Z.land (Z.shiftr lParam 16) 0xFF.

(** The test [charCode >= 0x20 && charCode <= 0x7E] of both [OnKeyDown]. *)
Definition printable (charCode : Z) : bool :=
  (0x20 <=? charCode) && (charCode <=? 0x7E).

(** The text calls [OnKeyDown] makes for a key, in order. *)
Definition text_calls (wParam charCode : Z) : list Call :=
  (if printable charCode then [Go_OnTextCommit (char_buf charCode)] else []) ++
  (if wParam =? VK_BACK then [Go_OnTextDelete 1] else []).

(** ** Answers of the outside world, one record per host callback *)

Record PipeEnv := {
  GetUserNameW : string;
  CreateFileW : HANDLE;     (* INVALID_HANDLE_VALUE when the pipe is absent *)
  WriteFile : bool
}.

Record KeyEnv := {
  pipe : PipeEnv;
  GetTimestampNanos : Z;    (* int64_t; computed in floating point from the
                               performance counter, opaque here *)
  GetKeyboardState : bool;
  ToUnicode : Z -> Z -> Z * Z   (* vk, scan code |-> result, buffer[0] *)
}.

Record FocusEnv := {
  GetForegroundWindow : HWND;
  GetWindowTextW : wstring;     (* title[] after the call; empty on failure *)
  OpenProcess : HANDLE;
  QueryFullProcessImageNameW : option wstring;
  (* required size including the terminator (0 on failure), bytes written *)
  WideCharToMultiByte : wstring -> Z * string
}.

Record CleanupEnv := {
  QueryInterface_ITfSource_threadMgr : HRESULT;
  QueryInterface_ITfSource_context : HRESULT
}.

Record ActivateEnv := {
  QueryInterface_ITfKeystrokeMgr : HRESULT * ptr;
  AdviseKeyEventSink : HRESULT;
  QueryInterface_ITfSource : HRESULT;
  AdviseSink : HRESULT * option DWORD;   (* result, cookie written if any *)
  activate_focus : FocusEnv;
  activate_cleanup : CleanupEnv
}.

Record DocFocusEnv := {
  GetTop : HRESULT * ptr;
  doc_QueryInterface_ITfSource : HRESULT;
  doc_AdviseSink : HRESULT * option DWORD;
  doc_cleanup : CleanupEnv;
  doc_focus : FocusEnv
}.

(** ** The complete text service, [tsf_text_service.cpp] *)

Module Tsf.

(** Data members of [class WitnessdTextService].  The COM reference count
    and the keystroke queue, which no method modelled here reads, are left
    out; interface pointers are addresses, [nullptr] when unset. *)
Record WitnessdTextService := mkService {
  threadMgr_ : ptr;
  clientId_ : Z;
  activateFlags_ : DWORD;
  keystrokeMgr_ : ptr;
  threadMgrEventSinkCookie_ : DWORD;
  textEditSinkCookie_ : DWORD;
  compositionSinkCookie_ : DWORD;
  currentDocMgr_ : ptr;
  currentContext_ : ptr;
  currentComposition_ : ptr;
  isActivated_ : bool;
  isEnabled_ : bool;
  isComposing_ : bool;
  currentAppPath_ : wstring;
  currentWindowTitle_ : wstring;
  currentFocusWindow_ : HWND
}.

(** The constructor's member initialisers. *)
Definition new_WitnessdTextService : WitnessdTextService :=
  {| threadMgr_ := nullptr;
     clientId_ := 0;
     activateFlags_ := 0;
     keystrokeMgr_ := nullptr;
     threadMgrEventSinkCookie_ := TF_INVALID_COOKIE;
     textEditSinkCookie_ := TF_INVALID_COOKIE;
     compositionSinkCookie_ := TF_INVALID_COOKIE;
     currentDocMgr_ := nullptr;
     currentContext_ := nullptr;
     currentComposition_ := nullptr;
     isActivated_ := false;
     isEnabled_ := true;
     isComposing_ := false;
     currentAppPath_ := [];
     currentWindowTitle_ := [];
     currentFocusWindow_ := nullptr |}.

Definition set_threadMgr_ (v : ptr) (t : WitnessdTextService) :=
  let 'mkService _ b c d e f g h i j k l m n o p := t in
  mkService v b c d e f g h i j k l m n o p.
Definition set_clientId_ (v : Z) (t : WitnessdTextService) :=
  let 'mkService a _ c d e f g h i j k l m n o p := t in
  mkService a v c d e f g h i j k l m n o p.
Definition set_activateFlags_ (v : DWORD) (t : WitnessdTextService) :=
  let 'mkService a b _ d e f g h i j k l m n o p := t in
  mkService a b v d e f g h i j k l m n o p.
Definition set_keystrokeMgr_ (v : ptr) (t : WitnessdTextService) :=
  let 'mkService a b c _ e f g h i j k l m n o p := t in
  mkService a b c v e f g h i j k l m n o p.
Definition set_threadMgrEventSinkCookie_ (v : DWORD) (t : WitnessdTextService) :=
  let 'mkService a b c d _ f g h i j k l m n o p := t in
  mkService a b c d v f g h i j k l m n o p.
Definition set_textEditSinkCookie_ (v : DWORD) (t : WitnessdTextService) :=
  let 'mkService a b c d e _ g h i j k l m n o p := t in
  mkService a b c d e v g h i j k l m n o p.
Definition set_currentDocMgr_ (v : ptr) (t : WitnessdTextService) :=
  let 'mkService a b c d e f g _ i j k l m n o p := t in
  mkService a b c d e f g v i j k l m n o p.
Definition set_currentContext_ (v : ptr) (t : WitnessdTextService) :=
  let 'mkService a b c d e f g h _ j k l m n o p := t in
  mkService a b c d e f g h v j k l m n o p.
Definition set_isActivated_ (v : bool) (t : WitnessdTextService) :=
  let 'mkService a b c d e f g h i j _ l m n o p := t in
  mkService a b c d e f g h i j v l m n o p.
Definition set_isEnabled_ (v : bool) (t : WitnessdTextService) :=
  let 'mkService a b c d e f g h i j k _ m n o p := t in
  mkService a b c d e f g h i j k v m n o p.
Definition set_currentAppPath_ (v : wstring) (t : WitnessdTextService) :=
  let 'mkService a b c d e f g h i j k l m _ o p := t in
  mkService a b c d e f g h i j k l m v o p.
Definition set_currentWindowTitle_ (v : wstring) (t : WitnessdTextService) :=
  let 'mkService a b c d e f g h i j k l m n _ p := t in
  mkService a b c d e f g h i j k l m n v p.
Definition set_currentFocusWindow_ (v : HWND) (t : WitnessdTextService) :=
  let 'mkService a b c d e f g h i j k l m n o _ := t in
  mkService a b c d e f g h i j k l m n o v.

Section WithEngine.
Context {E : WitnessdEngine}.

(** What a callback can reach: the service object, the file-static pipe
    handle and the engine. *)
Record Process := mkProcess {
  this : WitnessdTextService;
  g_hPipe : HANDLE;
  go : engine
}.

Definition set_this (v : WitnessdTextService) (p : Process) : Process :=
  {| this := v; g_hPipe := g_hPipe p; go := go p |}.
Definition set_g_hPipe (v : HANDLE) (p : Process) : Process :=
  {| this := this p; g_hPipe := v; go := go p |}.
Definition set_go (v : engine) (p : Process) : Process :=
  {| this := this p; g_hPipe := g_hPipe p; go := v |}.

Definition member {A} (f : WitnessdTextService -> A) : M Process A :=
  gets (fun p => f (this p)).
Definition assign (f : WitnessdTextService -> WitnessdTextService)
  : M Process unit :=
  modify (fun p => set_this (f (this p)) p).

(** An engine call: recorded, and applied to the engine state. *)
Definition go_call {A} (c : Call) (f : engine -> A * engine) : M Process A :=
  fun p => let (a, e) := f (go p) in (a, set_go e p, [c]).
Definition go_call_ (c : Call) (f : engine -> engine) : M Process unit :=
  fun p => (tt, set_go (f (go p)) p, [c]).

(** *** IPC client (named pipe) *)

(** The channel is connected exactly while the handle is valid. *)
Definition Connected (p : Process) : bool :=
  negb (g_hPipe p =? INVALID_HANDLE_VALUE).

Definition pipeName (env : PipeEnv) : string :=
  ("\\.\pipe\witnessd-" ++ GetUserNameW env ++ "-tsf-ipc")%string.

Definition ConnectPipe (env : PipeEnv) : M Process unit :=
  h <- gets g_hPipe ;;
  if negb (h =? INVALID_HANDLE_VALUE) then ret tt else
  emit (Sys_CreateFileW (pipeName env) (CreateFileW env)) ;;
  modify (set_g_hPipe (CreateFileW env)).

Definition DisconnectPipe : M Process unit :=
  h <- gets g_hPipe ;;
  when (negb (h =? INVALID_HANDLE_VALUE)) then
    (emit (Sys_CloseHandle h) ;;
     modify (set_g_hPipe INVALID_HANDLE_VALUE)).

Definition WritePipe (env : PipeEnv)
  (vkCode scanCode flags timestamp : Z) (isDown : bool) : M Process unit :=
  h <- gets g_hPipe ;;
  (when (h =? INVALID_HANDLE_VALUE) then ConnectPipe env) ;;
  h <- gets g_hPipe ;;
  if h =? INVALID_HANDLE_VALUE then ret tt else
  let msg := fill_msg vkCode scanCode flags timestamp isDown in
  let success := WriteFile env in
  emit (Sys_WriteFile h (msg_bytes msg) success) ;;
  when (negb success) then DisconnectPipe.

(** A run of sends, each with the answers the outside world gives it. *)
Fixpoint WritePipe_each (sends : list (PipeEnv * KeystrokeEvent))
  : M Process unit :=
  match sends with
  | [] => ret tt
  | (env, e) :: rest =>
      WritePipe env (virtualKeyCode e) (scanCode e) (flags e)
                (timestampNanos e) (isKeyDown e) ;;
      WritePipe_each rest
  end.

(** *** ITfKeyEventSink

    [BOOL* pfEaten] is an out-parameter the host always supplies; each
    callback returns the [HRESULT] together with the value stored there. *)

Definition VKToChar (env : KeyEnv) (vk lParam : Z) : Z :=
  if negb (GetKeyboardState env) then 0 else
  let scanCode := to_uint32 (scan_code_of lParam) in
  let '(result, buffer0) := ToUnicode env (to_uint32 vk) scanCode in
  if result =? 1 then to_uint16 buffer0 else 0.

Definition OnTestKeyDown (wParam lParam : Z) : M Process (HRESULT * BOOL) :=
  let pfEaten := FALSE in
  ret (S_OK, pfEaten).

Definition OnTestKeyUp (wParam lParam : Z) : M Process (HRESULT * BOOL) :=
  let pfEaten := FALSE in
  ret (S_OK, pfEaten).

Definition OnKeyDown (env : KeyEnv) (wParam lParam : Z)
  : M Process (HRESULT * BOOL) :=
  let pfEaten := FALSE in
  enabled <- member isEnabled_ ;;
  if negb enabled then ret (S_OK, pfEaten) else
  let timestamp := GetTimestampNanos env in
  WritePipe (pipe env) (to_uint16 wParam)
            (to_uint16 (scan_code_of lParam))
            (to_uint32 lParam) timestamp true ;;
  let charCode := VKToChar env wParam lParam in
  _ <- go_call (Go_OnKeyDown (to_uint16 wParam) (to_int32 charCode))
               (WitnessdOnKeyDown (to_uint16 wParam) (to_int32 charCode)) ;;
  (when (printable charCode) then
     go_call_ (Go_OnTextCommit (char_buf charCode))
              (WitnessdOnTextCommit (char_buf charCode))) ;;
  (when (wParam =? VK_BACK) then
     go_call_ (Go_OnTextDelete 1) (WitnessdOnTextDelete 1)) ;;
  ret (S_OK, pfEaten).

Definition OnKeyUp (env : KeyEnv) (wParam lParam : Z)
  : M Process (HRESULT * BOOL) :=
  let pfEaten := FALSE in
  enabled <- member isEnabled_ ;;
  if negb enabled then ret (S_OK, pfEaten) else
  let timestamp := GetTimestampNanos env in
  WritePipe (pipe env) (to_uint16 wParam)
            (to_uint16 (scan_code_of lParam))
            (to_uint32 lParam) timestamp false ;;
  ret (S_OK, pfEaten).

Definition OnPreservedKey : M Process (HRESULT * BOOL) :=
  let pfEaten := FALSE in
  ret (S_OK, pfEaten).

(** *** Focus tracking *)

Definition UpdateFocusInfo (env : FocusEnv) : M Process unit :=
  let hwnd := GetForegroundWindow env in
  current <- member currentFocusWindow_ ;;
  if hwnd =? current then ret tt else
  assign (set_currentFocusWindow_ hwnd) ;;
  if hwnd =? nullptr then
    assign (set_currentAppPath_ []) ;;
    assign (set_currentWindowTitle_ [])
  else
  assign (set_currentWindowTitle_ (GetWindowTextW env)) ;;
  let hProcess := OpenProcess env in
  when (negb (hProcess =? nullptr)) then
    ((match QueryFullProcessImageNameW env with
      | Some path => assign (set_currentAppPath_ path)
      | None => ret tt
      end) ;;
     emit (Sys_CloseHandle hProcess)).

Definition WideToUTF8 (env : FocusEnv) (wide : wstring) : string :=
  match wide with
  | [] => EmptyString
  | _ =>
      let '(len, out) := WideCharToMultiByte env wide in
      if len <=? 0 then EmptyString else filled (Z.to_nat (len - 1)) out
  end.

Definition NotifyFocusChange (env : FocusEnv) : M Process unit :=
  appPath <- member currentAppPath_ ;;
  docTitle <- member currentWindowTitle_ ;;
  go_call_ (Go_OnFocusChange (WideToUTF8 env appPath) (WideToUTF8 env docTitle))
           (WitnessdOnFocusChange (WideToUTF8 env appPath)
                                  (WideToUTF8 env docTitle)).

(** [OnSetFocus(BOOL fForeground)] of ITfKeyEventSink. *)
Definition OnSetFocus (env : FocusEnv) (fForeground : BOOL)
  : M Process HRESULT :=
  UpdateFocusInfo env ;;
  ret S_OK.

(** *** Sinks *)

Definition SetupKeystrokeSink (env : ActivateEnv) : M Process HRESULT :=
  threadMgr <- member threadMgr_ ;;
  if threadMgr =? nullptr then ret E_FAIL else
  let '(hr, mgr) := QueryInterface_ITfKeystrokeMgr env in
  assign (set_keystrokeMgr_ mgr) ;;
  if FAILED hr then ret hr else
  clientId <- member clientId_ ;;
  let hr := AdviseKeyEventSink env in
  emit (Tsf_AdviseKeyEventSink clientId) ;;
  if FAILED hr then
    assign (set_keystrokeMgr_ nullptr) ;;
    ret hr
  else ret S_OK.

Definition CleanupKeystrokeSink : M Process unit :=
  mgr <- member keystrokeMgr_ ;;
  when (negb (mgr =? nullptr)) then
    (clientId <- member clientId_ ;;
     emit (Tsf_UnadviseKeyEventSink clientId) ;;
     assign (set_keystrokeMgr_ nullptr)).

Definition SetupThreadMgrEventSink (env : ActivateEnv) : M Process HRESULT :=
  threadMgr <- member threadMgr_ ;;
  if threadMgr =? nullptr then ret E_FAIL else
  let hr := QueryInterface_ITfSource env in
  if FAILED hr then ret hr else
  let '(hr, cookie) := AdviseSink env in
  emit (Tsf_AdviseSink hr) ;;
  (match cookie with
   | Some c => assign (set_threadMgrEventSinkCookie_ c)
   | None => ret tt
   end) ;;
  ret hr.

Definition CleanupThreadMgrEventSink (env : CleanupEnv) : M Process unit :=
  threadMgr <- member threadMgr_ ;;
  cookie <- member threadMgrEventSinkCookie_ ;;
  when (negb (threadMgr =? nullptr) && negb (cookie =? TF_INVALID_COOKIE)) then
    ((when (SUCCEEDED (QueryInterface_ITfSource_threadMgr env)) then
        emit (Tsf_UnadviseSink cookie)) ;;
     assign (set_threadMgrEventSinkCookie_ TF_INVALID_COOKIE)).

Definition SetupTextEditSink (env : DocFocusEnv) (pContext : ptr)
  : M Process HRESULT :=
  if pContext =? nullptr then ret E_INVALIDARG else
  let hr := doc_QueryInterface_ITfSource env in
  if FAILED hr then ret hr else
  let '(hr, cookie) := doc_AdviseSink env in
  emit (Tsf_AdviseSink hr) ;;
  (match cookie with
   | Some c => assign (set_textEditSinkCookie_ c)
   | None => ret tt
   end) ;;
  ret hr.

Definition CleanupTextEditSink (env : CleanupEnv) (pContext : ptr)
  : M Process unit :=
  cookie <- member textEditSinkCookie_ ;;
  when (negb (pContext =? nullptr) && negb (cookie =? TF_INVALID_COOKIE)) then
    ((when (SUCCEEDED (QueryInterface_ITfSource_context env)) then
        emit (Tsf_UnadviseSink cookie)) ;;
     assign (set_textEditSinkCookie_ TF_INVALID_COOKIE)).

Definition SetupSinks (env : ActivateEnv) : M Process HRESULT :=
  hr <- SetupKeystrokeSink env ;;
  if FAILED hr then ret hr else
  hr <- SetupThreadMgrEventSink env ;;
  if FAILED hr then
    CleanupKeystrokeSink ;;
    ret hr
  else ret S_OK.

Definition CleanupSinks (env : CleanupEnv) : M Process unit :=
  CleanupKeystrokeSink ;;
  CleanupThreadMgrEventSink env ;;
  context <- member currentContext_ ;;
  (when (negb (context =? nullptr)) then
     (CleanupTextEditSink env context ;;
      assign (set_currentContext_ nullptr))) ;;
  docMgr <- member currentDocMgr_ ;;
  when (negb (docMgr =? nullptr)) then
    assign (set_currentDocMgr_ nullptr).

(** The two-document-manager overload of [OnSetFocus], from
    ITfThreadMgrEventSink. *)
Definition OnSetFocus_DocumentMgr (env : DocFocusEnv) (pDocMgrFocus : ptr)
  : M Process HRESULT :=
  context <- member currentContext_ ;;
  (when (negb (context =? nullptr)) then
     (CleanupTextEditSink (doc_cleanup env) context ;;
      assign (set_currentContext_ nullptr))) ;;
  docMgr <- member currentDocMgr_ ;;
  (when (negb (docMgr =? nullptr)) then
     assign (set_currentDocMgr_ nullptr)) ;;
  (when (negb (pDocMgrFocus =? nullptr)) then
     (assign (set_currentDocMgr_ pDocMgrFocus) ;;
      let '(hr, top) := GetTop env in
      assign (set_currentContext_ top) ;;
      when (SUCCEEDED hr && negb (top =? nullptr)) then
        (_ <- SetupTextEditSink env top ;; ret tt))) ;;
  UpdateFocusInfo (doc_focus env) ;;
  NotifyFocusChange (doc_focus env) ;;
  ret S_OK.

(** *** ITfTextInputProcessor *)

Definition Deactivate (env : CleanupEnv) : M Process HRESULT :=
  activated <- member isActivated_ ;;
  if negb activated then ret S_OK else
  active <- go_call (Go_HasActiveSession)
                    (fun e => (WitnessdHasActiveSession e, e)) ;;
  (when (negb (active =? 0)) then
     (evidence <- go_call Go_EndSession WitnessdEndSession ;;
      match evidence with
      | Some _ => emit Go_FreeString
      | None => ret tt
      end)) ;;
  CleanupSinks env ;;
  threadMgr <- member threadMgr_ ;;
  (when (negb (threadMgr =? nullptr)) then
     assign (set_threadMgr_ nullptr)) ;;
  assign (set_clientId_ 0) ;;
  assign (set_isActivated_ false) ;;
  ret S_OK.

(** Right after storing the pointer, [ActivateEx] calls
    [threadMgr_->AddRef()].  The count is the host object's and no part of
    the state here, so the call leaves no mark below; but it goes through
    the pointer, and with a null [pThreadMgr] the method does not get past
    it.  The definition describes [ActivateEx] for a live thread manager;
    [live_call] below is that condition on a call of the host. *)
Definition ActivateEx (env : ActivateEnv) (pThreadMgr : ptr)
  (tfClientId : Z) (dwFlags : DWORD) : M Process HRESULT :=
  activated <- member isActivated_ ;;
  if activated then ret S_OK else
  assign (set_threadMgr_ pThreadMgr) ;;
  assign (set_clientId_ tfClientId) ;;
  assign (set_activateFlags_ dwFlags) ;;
  hr <- SetupSinks env ;;
  if FAILED hr then
    _ <- Deactivate (activate_cleanup env) ;;
    ret hr
  else
  UpdateFocusInfo (activate_focus env) ;;
  appPath <- member currentAppPath_ ;;
  windowTitle <- member currentWindowTitle_ ;;
  let appId := WideToUTF8 (activate_focus env) appPath in
  let docId := WideToUTF8 (activate_focus env) windowTitle in
  let appId := if empty appId then "windows.tsf" else appId in
  let docId := if empty docId then "default" else docId in
  _ <- go_call (Go_StartSession appId docId)
               (WitnessdStartSession appId docId) ;;
  assign (set_isActivated_ true) ;;
  ret S_OK.

Definition Activate (env : ActivateEnv) (pThreadMgr : ptr) (tfClientId : Z)
  : M Process HRESULT :=
  ActivateEx env pThreadMgr tfClientId 0.

(** *** The host driving the lifecycle *)

Inductive HostCall :=
| Call_Activate (env : ActivateEnv) (pThreadMgr : ptr) (tfClientId : Z)
| Call_ActivateEx (env : ActivateEnv) (pThreadMgr : ptr) (tfClientId : Z)
                  (dwFlags : DWORD)
| Call_Deactivate (env : CleanupEnv).

Definition host_call (c : HostCall) : M Process HRESULT :=
  match c with
  | Call_Activate env pThreadMgr tfClientId =>
      Activate env pThreadMgr tfClientId
  | Call_ActivateEx env pThreadMgr tfClientId dwFlags =>
      ActivateEx env pThreadMgr tfClientId dwFlags
  | Call_Deactivate env => Deactivate env
  end.

Fixpoint host_calls (cs : list HostCall) : M Process unit :=
  match cs with
  | [] => ret tt
  | c :: rest => _ <- host_call c ;; host_calls rest
  end.

(** The host passes a thread manager that exists: what [ActivateEx] needs
    to call [AddRef] through the pointer. *)
Definition live_call (c : HostCall) : bool :=
  match c with
  | Call_Activate _ pThreadMgr _ | Call_ActivateEx _ pThreadMgr _ _ =>
      negb (pThreadMgr =? nullptr)
  | Call_Deactivate _ => true
  end.

(** The service once [ActivateEx] has stored its three arguments. *)
Definition with_arguments (pThreadMgr : ptr) (tfClientId : Z) (dwFlags : DWORD)
  (p : Process) : Process :=
  set_this (set_activateFlags_ dwFlags
             (set_clientId_ tfClientId
               (set_threadMgr_ pThreadMgr (this p)))) p.

(** The identifiers [ActivateEx] computes from the focus information
    stored in the service. *)
Definition session_target (env : FocusEnv) (p : Process) : string * string :=
  let appId := WideToUTF8 env (currentAppPath_ (this p)) in
  let docId := WideToUTF8 env (currentWindowTitle_ (this p)) in
  (if empty appId then "windows.tsf" else appId,
   if empty docId then "default" else docId).

(** Whether the engine reports an active session, as [Deactivate] tests
    it. *)
Definition HasSession (p : Process) : bool :=
  negb (WitnessdHasActiveSession (go p) =? 0).

(** The engine has a session only while the service is activated. *)
Definition session_needs_activation (p : Process) : Prop :=
  HasSession p = true -> isActivated_ (this p) = true.

(** What the lifecycle is about: the activation flag and the engine. *)
Definition lifecycle_view (p : Process) : bool * engine :=
  (isActivated_ (this p), go p).

(** [m] leaves the view [f] of the process as it found it. *)
Definition keeps {X A} (f : Process -> X) (m : M Process A) : Prop :=
  forall p, f (state (m p)) = f p.

(** [m] neither connects nor writes, and leaves the pipe handle as it
    found it. *)
Definition leaves_pipe_alone {A} (m : M Process A) : Prop :=
  forall p,
    g_hPipe (state (m p)) = g_hPipe p /\
    filter is_pipe_call (trace (m p)) = [].

(** Every call [m] makes satisfies [P]. *)
Definition emits_only {A} (P : Call -> bool) (m : M Process A) : Prop :=
  forall p c, In c (trace (m p)) -> P c = true.

(** [m] neither reads nor writes the enabled flag. *)
Definition ignores_enabled {A} (m : M Process A) : Prop :=
  forall enabled p,
    m (set_this (set_isEnabled_ enabled (this p)) p) =
    let '(a, p', t) := m p in
    (a, set_this (set_isEnabled_ enabled (this p')) p', t).

(** *** Public methods *)

Definition IsActivated (p : Process) : bool := isActivated_ (this p).
Definition IsEnabled (p : Process) : bool := isEnabled_ (this p).
Definition SetEnabled (enabled : bool) (p : Process) : Process :=
  set_this (set_isEnabled_ enabled (this p)) p.

End WithEngine.
End Tsf.

(** ** The basic text service, [witnessd_tsf.cpp] *)

Module Basic.

Record WitnessdTextService := mkService {
  threadMgr_ : ptr;
  clientId_ : Z;
  keystrokeMgr_ : ptr;
  keystrokeSinkCookie_ : DWORD;
  isActivated_ : bool
}.

Definition new_WitnessdTextService : WitnessdTextService :=
  {| threadMgr_ := nullptr;
     clientId_ := 0;
     keystrokeMgr_ := nullptr;
     keystrokeSinkCookie_ := 0;
     isActivated_ := false |}.

Section WithEngine.
Context {E : WitnessdEngine}.

Record Process := mkProcess {
  this : WitnessdTextService;
  go : engine
}.

Definition set_go (v : engine) (p : Process) : Process :=
  {| this := this p; go := v |}.

Definition go_call {A} (c : Call) (f : engine -> A * engine) : M Process A :=
  fun p => let (a, e) := f (go p) in (a, set_go e p, [c]).
Definition go_call_ (c : Call) (f : engine -> engine) : M Process unit :=
  fun p => (tt, set_go (f (go p)) p, [c]).

Definition VKToChar (env : KeyEnv) (vk lParam : Z) : Z :=
  if negb (GetKeyboardState env) then 0 else
  let scanCode := to_uint32 (scan_code_of lParam) in
  let '(result, buffer0) := ToUnicode env (to_uint32 vk) scanCode in
  if result =? 1 then to_uint16 buffer0 else 0.

Definition OnKeyDown (env : KeyEnv) (wParam lParam : Z)
  : M Process (HRESULT * BOOL) :=
  let pfEaten := FALSE in
  let charCode := VKToChar env wParam lParam in
  _ <- go_call (Go_OnKeyDown (to_uint16 wParam) (to_int32 charCode))
               (WitnessdOnKeyDown (to_uint16 wParam) (to_int32 charCode)) ;;
  (when (printable charCode) then
     go_call_ (Go_OnTextCommit (char_buf charCode))
              (WitnessdOnTextCommit (char_buf charCode))) ;;
  ret (S_OK, pfEaten).

Definition set_this (v : WitnessdTextService) (p : Process) : Process :=
  {| this := v; go := go p |}.

Definition set_threadMgr_ (v : ptr) (t : WitnessdTextService) :=
  let 'mkService _ b c d e := t in mkService v b c d e.
Definition set_clientId_ (v : Z) (t : WitnessdTextService) :=
  let 'mkService a _ c d e := t in mkService a v c d e.
Definition set_keystrokeMgr_ (v : ptr) (t : WitnessdTextService) :=
  let 'mkService a b _ d e := t in mkService a b v d e.
Definition set_isActivated_ (v : bool) (t : WitnessdTextService) :=
  let 'mkService a b c d _ := t in mkService a b c d v.

Definition member {A} (f : WitnessdTextService -> A) : M Process A :=
  gets (fun p => f (this p)).
Definition assign (f : WitnessdTextService -> WitnessdTextService)
  : M Process unit :=
  modify (fun p => set_this (f (this p)) p).

(** Of the environment only the keystroke-manager query and the advise
    result are consulted.  Unlike the complete service this one does not
    test the thread manager before using it. *)
Definition SetupKeySinks (env : ActivateEnv) : M Process HRESULT :=
  let '(hr, mgr) := QueryInterface_ITfKeystrokeMgr env in
  assign (set_keystrokeMgr_ mgr) ;;
  if FAILED hr then ret hr else
  clientId <- member clientId_ ;;
  let hr := AdviseKeyEventSink env in
  emit (Tsf_AdviseKeyEventSink clientId) ;;
  if FAILED hr then
    assign (set_keystrokeMgr_ nullptr) ;;
    ret hr
  else ret S_OK.

Definition CleanupKeySinks : M Process unit :=
  mgr <- member keystrokeMgr_ ;;
  when (negb (mgr =? nullptr)) then
    (clientId <- member clientId_ ;;
     emit (Tsf_UnadviseKeyEventSink clientId) ;;
     assign (set_keystrokeMgr_ nullptr)).

Definition Deactivate : M Process HRESULT :=
  activated <- member isActivated_ ;;
  if negb activated then ret S_OK else
  evidence <- go_call Go_EndSession WitnessdEndSession ;;
  (match evidence with
   | Some _ => emit Go_FreeString
   | None => ret tt
   end) ;;
  CleanupKeySinks ;;
  threadMgr <- member threadMgr_ ;;
  (when (negb (threadMgr =? nullptr)) then
     assign (set_threadMgr_ nullptr)) ;;
  assign (set_clientId_ 0) ;;
  assign (set_isActivated_ false) ;;
  ret S_OK.

(** As in the complete service, [threadMgr_->AddRef()] follows the store
    of the pointer and changes nothing of the state here; the definition
    describes the method for a thread manager that exists. *)
Definition ActivateEx (env : ActivateEnv) (pThreadMgr : ptr)
  (tfClientId : Z) (dwFlags : DWORD) : M Process HRESULT :=
  activated <- member isActivated_ ;;
  if activated then ret S_OK else
  assign (set_threadMgr_ pThreadMgr) ;;
  assign (set_clientId_ tfClientId) ;;
  hr <- SetupKeySinks env ;;
  if FAILED hr then
    _ <- Deactivate ;;
    ret hr
  else
  _ <- go_call (Go_StartSession "windows.tsf" "default")
               (WitnessdStartSession "windows.tsf" "default") ;;
  assign (set_isActivated_ true) ;;
  ret S_OK.

Definition Activate (env : ActivateEnv) (pThreadMgr : ptr) (tfClientId : Z)
  : M Process HRESULT :=
  ActivateEx env pThreadMgr tfClientId 0.

Inductive HostCall :=
| Call_Activate (env : ActivateEnv) (pThreadMgr : ptr) (tfClientId : Z)
| Call_ActivateEx (env : ActivateEnv) (pThreadMgr : ptr) (tfClientId : Z)
                  (dwFlags : DWORD)
| Call_Deactivate.

Definition host_call (c : HostCall) : M Process HRESULT :=
  match c with
  | Call_Activate env pThreadMgr tfClientId =>
      Activate env pThreadMgr tfClientId
  | Call_ActivateEx env pThreadMgr tfClientId dwFlags =>
      ActivateEx env pThreadMgr tfClientId dwFlags
  | Call_Deactivate => Deactivate
  end.

Fixpoint host_calls (cs : list HostCall) : M Process unit :=
  match cs with
  | [] => ret tt
  | c :: rest => _ <- host_call c ;; host_calls rest
  end.

End WithEngine.
End Basic.

(** ** The runner's string helper, [utils.cpp] *)

Module Utils.

Record ConvertEnv := {
  (* first call, no output buffer: required size with the terminator,
     0 when the input is rejected *)
  WideCharToMultiByte_size : wstring -> Z;
  (* whether [resize(n)] obtains its storage; [std::bad_alloc] otherwise *)
  allocate : Z -> bool;
  (* second call: input, cchWideChar, cbMultiByte |-> result, bytes written *)
  WideCharToMultiByte_convert : wstring -> Z -> Z -> Z * string
}.

Inductive Outcome :=
| Returned (utf8_string : string)
| Thrown_bad_alloc.

Inductive StringOp :=
| Resize (n : Z).

Definition UINT_MAX : Z := 2 ^ 32 - 1.

(** [max_size] is [std::string::max_size()], a constant of the standard
    library the runner is built with; [utf16_string] is [None] for
    [nullptr]. *)
Definition Utf8FromUtf16 (max_size : Z) (env : ConvertEnv)
  (utf16_string : option wstring) : Outcome * list StringOp :=
  match utf16_string with
  | None => (Returned EmptyString, [])
  | Some utf16 =>
      let target_length := to_uint32 (WideCharToMultiByte_size env utf16 - 1) in
      let input_length := to_int32 (Z.of_nat (List.length utf16)) in
      if (target_length =? 0) || (target_length >? max_size) then
        (Returned EmptyString, [])
      else if negb (allocate env target_length) then
        (Thrown_bad_alloc, [Resize target_length])
      else
        let '(converted_length, out) :=
          WideCharToMultiByte_convert env utf16 input_length
                                      (to_int32 target_length) in
        if converted_length =? 0 then
          (Returned EmptyString, [Resize target_length])
        else
          (Returned (filled (Z.to_nat target_length) out),
           [Resize target_length])
  end.

(** [max_size()] of the MSVC standard library on the 64-bit targets the
    runner is built for: [min(PTRDIFF_MAX, SIZE_MAX - 1)]. *)
Definition max_size_64 : Z := 2 ^ 63 - 1.

(** The same bound on a 32-bit target. *)
Definition max_size_32 : Z := 2 ^ 31 - 1.

(** The loop of [GetCommandLineArguments]: one [push_back] per argument,
    abandoned when a conversion throws. *)
Fixpoint convert_each (max_size : Z) (env : ConvertEnv) (args : list wstring)
  : option (list string) :=
  match args with
  | [] => Some []
  | arg :: rest =>
      match fst (Utf8FromUtf16 max_size env (Some arg)) with
      | Thrown_bad_alloc => None
      | Returned utf8 =>
          match convert_each max_size env rest with
          | Some converted => Some (utf8 :: converted)
          | None => None
          end
      end
  end.

Inductive Arguments_outcome :=
| Arguments_returned (command_line_arguments : list string)
| Arguments_bad_alloc.

(** [argv] is what [CommandLineToArgvW] returned, [None] for [nullptr];
    [argc] is its length.  The second component tells whether
    [LocalFree(argv)] was reached. *)
Definition GetCommandLineArguments (max_size : Z) (env : ConvertEnv)
  (argv : option (list wstring)) : Arguments_outcome * bool :=
  match argv with
  | None => (Arguments_returned [], false)
  | Some argv =>
      (* for (int i = 1; i < argc; i++) *)
      match convert_each max_size env (skipn 1 argv) with
      | Some command_line_arguments =>
          (Arguments_returned command_line_arguments, true)
      | None => (Arguments_bad_alloc, false)
      end
  end.

End Utils.

(** ** COM plumbing of [tsf_text_service.cpp]

    Reference counts are [std::atomic<LONG>]: 32 bits, wrapping.  An object
    is its reference count; [delete this] leaves none.  The class factory
    is reached through the global [g_classFactory], which its [Release]
    does not reset when it deletes the factory: the pointer then dangles,
    and using it is undefined, which the functions below answer with
    [None]. *)

Module Com.

Definition S_FALSE : HRESULT := 1.
Definition E_NOINTERFACE : HRESULT := to_int32 0x80004002.
Definition E_OUTOFMEMORY : HRESULT := to_int32 0x8007000E.
Definition CLASS_E_NOAGGREGATION : HRESULT := to_int32 0x80040110.
Definition CLASS_E_CLASSNOTAVAILABLE : HRESULT := to_int32 0x80040111.

(** {A1B2C3D4-E5F6-7890-ABCD-EF1234567890} *)
Definition CLSID_WitnessdTextService : Z :=
  0xA1B2C3D4E5F67890ABCDEF1234567890.

(** The interface identifiers the two [QueryInterface] compare with, and
    any other. *)
Inductive IID :=
| IID_IUnknown
| IID_IClassFactory
| IID_ITfTextInputProcessor
| IID_ITfTextInputProcessorEx
| IID_ITfKeyEventSink
| IID_ITfThreadMgrEventSink
| IID_ITfTextEditSink
| IID_ITfCompositionSink
| IID_ITfDisplayAttributeProvider
| IID_other (guid : Z).

(** The base the pointer stored in [*ppvObject] is cast to. *)
Inductive Interface :=
| as_ITfTextInputProcessorEx
| as_ITfKeyEventSink
| as_ITfThreadMgrEventSink
| as_ITfTextEditSink
| as_ITfCompositionSink
| as_ITfDisplayAttributeProvider
| as_IClassFactory.

Inductive FactoryPtr :=
| Null
| Live (refCount_ : Z)
| Dangling.

Record Dll := mkDll {
  g_dllRefCount : Z;
  g_classFactory : FactoryPtr
}.

Definition incr (n : Z) : Z := to_int32 (n + 1).
Definition decr (n : Z) : Z := to_int32 (n - 1).

Definition DllCanUnloadNow (d : Dll) : HRESULT :=
  if g_dllRefCount d =? 0 then S_OK else S_FALSE.

(** *** WitnessdTextService *)

Definition Service_cast (riid : IID) : option Interface :=
  match riid with
  | IID_IUnknown | IID_ITfTextInputProcessor | IID_ITfTextInputProcessorEx =>
      Some as_ITfTextInputProcessorEx
  | IID_ITfKeyEventSink => Some as_ITfKeyEventSink
  | IID_ITfThreadMgrEventSink => Some as_ITfThreadMgrEventSink
  | IID_ITfTextEditSink => Some as_ITfTextEditSink
  | IID_ITfCompositionSink => Some as_ITfCompositionSink
  | IID_ITfDisplayAttributeProvider => Some as_ITfDisplayAttributeProvider
  | _ => None
  end.

(** [ppvObject] tells whether the out-pointer is non-null; the result is
    the [HRESULT], what [*ppvObject] holds, and the reference count. *)
Definition Service_QueryInterface (riid : IID) (ppvObject : bool)
  (refCount_ : Z) : HRESULT * option Interface * Z :=
  if negb ppvObject then (E_INVALIDARG, None, refCount_) else
  match Service_cast riid with
  | Some iface => (S_OK, Some iface, incr refCount_)
  | None => (E_NOINTERFACE, None, refCount_)
  end.

Definition Service_AddRef (refCount_ : Z) : Z * Z :=
  (to_uint32 (incr refCount_), incr refCount_).

(** Returns the count as [ULONG], the object if it survives, and the
    module state, which the destructor changes. *)
Definition Service_Release (refCount_ : Z) (d : Dll)
  : Z * option Z * Dll :=
  let count := decr refCount_ in
  if count =? 0 then
    (to_uint32 count, None,
     {| g_dllRefCount := decr (g_dllRefCount d);
        g_classFactory := g_classFactory d |})
  else (to_uint32 count, Some count, d).

(** What a call did to [*ppvObject]: nothing, so that it holds what the
    caller had there, or a store, of a null pointer ([None]) or of the
    object cast to an interface. *)
Inductive OutPointer :=
| Untouched
| Stored (p : option Interface).

(** [allocated] tells whether [new (std::nothrow)] returned an object.
    [*ppvObject = nullptr] comes after the test of [ppvObject] and before
    every other return; [QueryInterface] then stores again. *)
Definition Service_CreateInstance (pUnkOuter : ptr) (riid : IID)
  (ppvObject : bool) (allocated : bool) (d : Dll)
  : HRESULT * OutPointer * option Z * Dll :=
  if negb ppvObject then (E_INVALIDARG, Untouched, None, d) else
  if negb (pUnkOuter =? nullptr) then
    (CLASS_E_NOAGGREGATION, Stored None, None, d)
  else
  if negb allocated then (E_OUTOFMEMORY, Stored None, None, d) else
  (* the constructor: refCount_(1), g_dllRefCount++ *)
  let d := {| g_dllRefCount := incr (g_dllRefCount d);
              g_classFactory := g_classFactory d |} in
  let '(hr, out, refCount) := Service_QueryInterface riid ppvObject 1 in
  let '(_, pService, d) := Service_Release refCount d in
  (hr, Stored out, pService, d).

(** *** WitnessdClassFactory *)

Definition Factory_cast (riid : IID) : option Interface :=
  match riid with
  | IID_IUnknown | IID_IClassFactory => Some as_IClassFactory
  | _ => None
  end.

Definition Factory_QueryInterface (riid : IID) (ppvObject : bool)
  (refCount_ : Z) : HRESULT * option Interface * Z :=
  if negb ppvObject then (E_INVALIDARG, None, refCount_) else
  match Factory_cast riid with
  | Some iface => (S_OK, Some iface, incr refCount_)
  | None => (E_NOINTERFACE, None, refCount_)
  end.

(** What a call on the module comes to: it returns, [new] throws, or it
    goes through a pointer to a deleted object. *)
Inductive Answer (A : Type) :=
| Returns (a : A)
| Throws_bad_alloc
| Undefined.
Arguments Returns {A} a.
Arguments Throws_bad_alloc {A}.
Arguments Undefined {A}.

(** A client releasing a reference to the factory. *)
Definition Factory_Release (d : Dll) : Answer (Z * Dll) :=
  match g_classFactory d with
  | Live refCount_ =>
      let count := decr refCount_ in
      if count =? 0 then
        Returns (to_uint32 count,
                 {| g_dllRefCount := decr (g_dllRefCount d);
                    g_classFactory := Dangling |})
      else
        Returns (to_uint32 count,
                 {| g_dllRefCount := g_dllRefCount d;
                    g_classFactory := Live count |})
  | _ => Undefined
  end.

(** The factory tests [pUnkOuter] itself and returns before anything is
    stored through [ppvObject]. *)
Definition Factory_CreateInstance (pUnkOuter : ptr) (riid : IID)
  (ppvObject : bool) (allocated : bool) (d : Dll)
  : HRESULT * OutPointer * option Z * Dll :=
  if negb (pUnkOuter =? nullptr) then
    (CLASS_E_NOAGGREGATION, Untouched, None, d)
  else Service_CreateInstance pUnkOuter riid ppvObject allocated d.

Definition Factory_LockServer (fLock : BOOL) (d : Dll) : HRESULT * Dll :=
  (S_OK,
   {| g_dllRefCount :=
        if negb (fLock =? 0) then incr (g_dllRefCount d)
        else decr (g_dllRefCount d);
      g_classFactory := g_classFactory d |}).

(** *** DLL entry points *)

(** [allocated] tells whether the plain [new] finds memory; it throws
    otherwise. *)
Definition DllGetClassObject (rclsid : Z) (riid : IID) (ppvObject : bool)
  (allocated : bool) (d : Dll) : Answer (HRESULT * option Interface * Dll) :=
  if negb ppvObject then Returns (E_INVALIDARG, None, d) else
  if negb (rclsid =? CLSID_WitnessdTextService) then
    Returns (CLASS_E_CLASSNOTAVAILABLE, None, d)
  else
  match g_classFactory d with
  | Dangling => Undefined
  | Null =>
      if negb allocated then Throws_bad_alloc else
      (* new WitnessdClassFactory(): refCount_(1), g_dllRefCount++ *)
      let '(hr, out, refCount) := Factory_QueryInterface riid ppvObject 1 in
      Returns (hr, out, {| g_dllRefCount := incr (g_dllRefCount d);
                           g_classFactory := Live refCount |})
  | Live refCount_ =>
      let '(hr, out, refCount) :=
        Factory_QueryInterface riid ppvObject refCount_ in
      Returns (hr, out, {| g_dllRefCount := g_dllRefCount d;
                           g_classFactory := Live refCount |})
  end.

(** *** Clients

    What a client does with the class factory.  It releases only
    references it was given, and unlocks only what it locked: [held] and
    [locks] count them.  [LockServer] is called through a reference. *)
Inductive ClientCall :=
| Client_DllGetClassObject (rclsid : Z) (riid : IID) (ppvObject : bool)
    (allocated : bool)
| Client_Release
| Client_LockServer (fLock : BOOL).

Definition client_call (c : ClientCall) (st : Dll * nat * nat)
  : Answer (Dll * nat * nat) :=
  let '(d, held, locks) := st in
  match c with
  | Client_DllGetClassObject rclsid riid ppvObject allocated =>
      match DllGetClassObject rclsid riid ppvObject allocated d with
      | Returns (hr, Some _, d') => Returns (d', S held, locks)
      | Returns (hr, None, d') => Returns (d', held, locks)
      | Throws_bad_alloc => Throws_bad_alloc
      | Undefined => Undefined
      end
  | Client_Release =>
      match held with
      | O => Returns st
      | S held' =>
          match Factory_Release d with
          | Returns (_, d') => Returns (d', held', locks)
          | Throws_bad_alloc => Throws_bad_alloc
          | Undefined => Undefined
          end
      end
  | Client_LockServer fLock =>
      match held, g_classFactory d with
      | O, _ => Returns st
      | S _, Live _ =>
          let d' := snd (Factory_LockServer fLock d) in
          if negb (fLock =? 0) then Returns (d', held, S locks)
          else
            match locks with
            | O => Returns st
            | S locks' => Returns (d', held, locks')
            end
      | S _, _ => Undefined
      end
  end.

Fixpoint client_calls (cs : list ClientCall) (st : Dll * nat * nat)
  : Answer (Dll * nat * nat) :=
  match cs with
  | [] => Returns st
  | c :: rest =>
      match client_call c st with
      | Returns st' => client_calls rest st'
      | Throws_bad_alloc => Throws_bad_alloc
      | Undefined => Undefined
      end
  end.

(** What the holder of references to a text service object does with it.
    The state is the object, if it still exists, the module state, and
    the number of references held; nothing is called through a reference
    that has been given back. *)
Inductive ObjectCall :=
| Object_QueryInterface (riid : IID) (ppvObject : bool)
| Object_AddRef
| Object_Release.

Definition object_call (c : ObjectCall) (st : option Z * Dll * nat)
  : option Z * Dll * nat :=
  let '(obj, d, held) := st in
  match obj, held with
  | Some refCount_, S held' =>
      match c with
      | Object_QueryInterface riid ppvObject =>
          let '(_, out, refCount) :=
            Service_QueryInterface riid ppvObject refCount_ in
          (Some refCount, d, match out with Some _ => S held | None => held end)
      | Object_AddRef => (Some (snd (Service_AddRef refCount_)), d, S held)
      | Object_Release =>
          let '(_, obj', d') := Service_Release refCount_ d in
          (obj', d', held')
      end
  | _, _ => st
  end.

Definition object_calls (cs : list ObjectCall) (st : option Z * Dll * nat)
  : option Z * Dll * nat :=
  fold_left (fun st c => object_call c st) cs st.

(** The module as loaded: no object, no factory. *)
Definition loaded : Dll := {| g_dllRefCount := 0; g_classFactory := Null |}.

(** What holds of the module between the calls of a client of the class
    factory: the factory's count is one more than the references held,
    and the module counts the factory and the locks. *)
Definition factory_accounted (st : Dll * nat * nat) : Prop :=
  let '(d, held, locks) := st in
  match g_classFactory d with
  | Null => held = 0%nat /\ locks = 0%nat /\ g_dllRefCount d = 0
  | Live refCount_ =>
      refCount_ = 1 + Z.of_nat held /\
      g_dllRefCount d = 1 + Z.of_nat locks /\
      DllCanUnloadNow d = S_FALSE
  | Dangling => False
  end.

(** What holds of a text service object between the calls of the holder of
    its references; [n] is the module count without the object. *)
Definition object_accounted (n : Z) (st : option Z * Dll * nat) : Prop :=
  let '(obj, d, held) := st in
  match obj with
  | Some refCount_ =>
      (0 < held)%nat /\ refCount_ = Z.of_nat held /\
      g_dllRefCount d = n + 1
  | None => held = 0%nat /\ g_dllRefCount d = n
  end.

End Com.

(** ** Registration, [tsf_text_service.cpp]

    The registry and the TSF profile objects are outside the program: the
    functions return their [HRESULT] and the calls they made, in order. *)

Module Registration.

Definition FAILED (hr : HRESULT) : bool := hr <? 0.
Definition SUCCEEDED (hr : HRESULT) : bool := 0 <=? hr.

Inductive ComClass :=
| CLSID_TF_InputProcessorProfiles
| CLSID_TF_CategoryMgr.

Inductive RegCall :=
| Reg_CreateKey (path : string) (hKey : option Z)
| Reg_SetValue (hKey : Z) (name : option string) (data : string)
| Reg_CloseKey (hKey : Z)
| Reg_SHDeleteKey (path : string)
| Co_CreateInstance (clsid : ComClass) (hr : HRESULT)
| Profiles_Register (hr : HRESULT)
| Profiles_AddLanguageProfile (description dllPath : string) (hr : HRESULT)
| Profiles_Unregister
| Profiles_Release
| CategoryMgr_RegisterCategory
| CategoryMgr_UnregisterCategory
| CategoryMgr_Release.

(** [StringFromGUID2(CLSID_WitnessdTextService)] *)
Definition clsidStr : string := "{A1B2C3D4-E5F6-7890-ABCD-EF1234567890}".
Definition keyPath : string := "CLSID\" ++ clsidStr.
Definition inprocPath : string := keyPath ++ "\InProcServer32".

(** The answers [RegisterCOMServer] gets: the module's path, unless
    [GetModuleFileNameW] returns 0, in which case [last_error] is
    [HRESULT_FROM_WIN32(GetLastError())]; and for a key path the handle
    [RegCreateKeyExW] stores, if it answers [ERROR_SUCCESS]. *)
Record ComEnv := {
  com_GetModuleFileNameW : option string;
  com_last_error : HRESULT;
  RegCreateKeyExW : string -> option Z
}.

Record TextEnv := {
  text_GetModuleFileNameW : option string;
  text_last_error : HRESULT;
  CoCreate_profiles : HRESULT;
  Register : HRESULT;
  AddLanguageProfile : HRESULT;
  CoCreate_category : HRESULT
}.

Record UnregisterEnv := {
  un_CoCreate_profiles : HRESULT;
  un_CoCreate_category : HRESULT
}.

Definition RegisterCOMServer (env : ComEnv) : HRESULT * list RegCall :=
  match com_GetModuleFileNameW env with
  | None => (com_last_error env, [])
  | Some dllPath =>
      match RegCreateKeyExW env keyPath with
      | None => (E_FAIL, [Reg_CreateKey keyPath None])
      | Some hKey =>
          let tr := [Reg_CreateKey keyPath (Some hKey);
                     Reg_SetValue hKey None "Witnessd Text Service"] in
          match RegCreateKeyExW env inprocPath with
          | None =>
              (E_FAIL,
               tr ++ [Reg_CreateKey inprocPath None; Reg_CloseKey hKey])
          | Some hInprocKey =>
              (S_OK,
               tr ++ [Reg_CreateKey inprocPath (Some hInprocKey);
                      Reg_SetValue hInprocKey None dllPath;
                      Reg_SetValue hInprocKey (Some "ThreadingModel")
                        "Apartment";
                      Reg_CloseKey hInprocKey;
                      Reg_CloseKey hKey])
          end
      end
  end.

Definition UnregisterCOMServer : HRESULT * list RegCall :=
  (S_OK, [Reg_SHDeleteKey keyPath]).

Definition RegisterTextService (env : TextEnv) : HRESULT * list RegCall :=
  match text_GetModuleFileNameW env with
  | None => (text_last_error env, [])
  | Some dllPath =>
      let hr := CoCreate_profiles env in
      let tr := [Co_CreateInstance CLSID_TF_InputProcessorProfiles hr] in
      if FAILED hr then (hr, tr) else
      let hr := Register env in
      let tr := tr ++ [Profiles_Register hr] in
      if FAILED hr then (hr, tr ++ [Profiles_Release]) else
      let hr := AddLanguageProfile env in
      let tr :=
        tr ++ [Profiles_AddLanguageProfile "Witnessd Authorship Witness"
                 dllPath hr;
               Profiles_Release] in
      if FAILED hr then (hr, tr) else
      let hr := CoCreate_category env in
      let tr := tr ++ [Co_CreateInstance CLSID_TF_CategoryMgr hr] in
      if SUCCEEDED hr then
        (S_OK, tr ++ [CategoryMgr_RegisterCategory; CategoryMgr_Release])
      else (S_OK, tr)
  end.

Definition UnregisterTextService (env : UnregisterEnv)
  : HRESULT * list RegCall :=
  let hr := un_CoCreate_profiles env in
  let tr := [Co_CreateInstance CLSID_TF_InputProcessorProfiles hr] in
  let tr :=
    if SUCCEEDED hr then tr ++ [Profiles_Unregister; Profiles_Release]
    else tr in
  let hr := un_CoCreate_category env in
  let tr := tr ++ [Co_CreateInstance CLSID_TF_CategoryMgr hr] in
  let tr :=
    if SUCCEEDED hr then
      tr ++ [CategoryMgr_UnregisterCategory; CategoryMgr_Release]
    else tr in
  (S_OK, tr).

Definition DllRegisterServer (com : ComEnv) (text : TextEnv)
  : HRESULT * list RegCall :=
  let '(hr, tr) := RegisterCOMServer com in
  if FAILED hr then (hr, tr) else
  let '(hr, tr') := RegisterTextService text in
  if FAILED hr then (hr, tr ++ tr' ++ snd UnregisterCOMServer) else
  (S_OK, tr ++ tr').

Definition DllUnregisterServer (env : UnregisterEnv)
  : HRESULT * list RegCall :=
  (S_OK, snd (UnregisterTextService env) ++ snd UnregisterCOMServer).

(** *** The basic service, [witnessd_tsf.cpp]

    It registers the same class, in one function; [com] answers for the
    module path and the registry, [text] for the profile objects. *)

Definition Basic_DllRegisterServer (com : ComEnv) (text : TextEnv)
  : HRESULT * list RegCall :=
  match com_GetModuleFileNameW com with
  | None => (com_last_error com, [])
  | Some dllPath =>
      match RegCreateKeyExW com keyPath with
      | None => (E_FAIL, [Reg_CreateKey keyPath None])
      | Some hKey =>
          let tr := [Reg_CreateKey keyPath (Some hKey);
                     Reg_SetValue hKey None "Witnessd TSF"] in
          match RegCreateKeyExW com inprocPath with
          | None =>
              (E_FAIL,
               tr ++ [Reg_CreateKey inprocPath None; Reg_CloseKey hKey])
          | Some hInprocKey =>
              let tr :=
                tr ++ [Reg_CreateKey inprocPath (Some hInprocKey);
                       Reg_SetValue hInprocKey None dllPath;
                       Reg_SetValue hInprocKey (Some "ThreadingModel")
                         "Apartment";
                       Reg_CloseKey hInprocKey;
                       Reg_CloseKey hKey] in
              let hr := CoCreate_profiles text in
              let tr :=
                tr ++ [Co_CreateInstance CLSID_TF_InputProcessorProfiles hr] in
              if FAILED hr then (hr, tr) else
              let hr := Register text in
              let tr := tr ++ [Profiles_Register hr] in
              if FAILED hr then (hr, tr ++ [Profiles_Release]) else
              let hr := AddLanguageProfile text in
              let tr :=
                tr ++ [Profiles_AddLanguageProfile "Witnessd" dllPath hr;
                       Profiles_Release] in
              let hr := CoCreate_category text in
              let tr := tr ++ [Co_CreateInstance CLSID_TF_CategoryMgr hr] in
              if SUCCEEDED hr then
                (S_OK,
                 tr ++ [CategoryMgr_RegisterCategory; CategoryMgr_Release])
              else (S_OK, tr)
          end
      end
  end.

Definition Basic_DllUnregisterServer (env : UnregisterEnv)
  : HRESULT * list RegCall :=
  let hr := un_CoCreate_profiles env in
  let tr := [Co_CreateInstance CLSID_TF_InputProcessorProfiles hr] in
  let tr :=
    if SUCCEEDED hr then tr ++ [Profiles_Unregister; Profiles_Release]
    else tr in
  (S_OK, tr ++ [Reg_SHDeleteKey keyPath]).

Definition is_delete (c : RegCall) : bool :=
  match c with
  | Reg_SHDeleteKey _ => true
  | _ => false
  end.

(** Reading a trace: the key handles obtained and closed, the interfaces
    obtained and released, in order. *)
Definition opened_keys (tr : list RegCall) : list Z :=
  flat_map (fun c => match c with
                     | Reg_CreateKey _ (Some hKey) => [hKey]
                     | _ => []
                     end) tr.

Definition closed_keys (tr : list RegCall) : list Z :=
  flat_map (fun c => match c with
                     | Reg_CloseKey hKey => [hKey]
                     | _ => []
                     end) tr.

Definition obtained (tr : list RegCall) : list ComClass :=
  flat_map (fun c => match c with
                     | Co_CreateInstance clsid hr =>
                         if SUCCEEDED hr then [clsid] else []
                     | _ => []
                     end) tr.

Definition released (tr : list RegCall) : list ComClass :=
  flat_map (fun c => match c with
                     | Profiles_Release => [CLSID_TF_InputProcessorProfiles]
                     | CategoryMgr_Release => [CLSID_TF_CategoryMgr]
                     | _ => []
                     end) tr.

(** The key paths a trace creates or writes under, and those it deletes. *)
Definition created_paths (tr : list RegCall) : list string :=
  flat_map (fun c => match c with
                     | Reg_CreateKey path (Some _) => [path]
                     | _ => []
                     end) tr.

Definition is_profile_registration (c : RegCall) : bool :=
  match c with
  | Profiles_Register _ | Profiles_AddLanguageProfile _ _ _
  | CategoryMgr_RegisterCategory => true
  | _ => false
  end.

End Registration.

(** ** Concrete inputs used to instantiate the statements below *)

(** An engine that only remembers whether a session is open. *)
Definition flag_engine : WitnessdEngine :=
  {| engine := bool;
     WitnessdStartSession := fun _ _ _ => (0, true);
     WitnessdEndSession := fun _ => (Some "{}", false);
     WitnessdHasActiveSession := fun open => if open then 1 else 0;
     WitnessdOnKeyDown := fun _ _ open => (0, open);
     WitnessdOnTextCommit := fun _ open => open;
     WitnessdOnTextDelete := fun _ open => open;
     WitnessdOnFocusChange := fun _ _ open => open |}.

(** A service object just constructed, before any activation: no session
    was ever started, the pipe was never opened. *)
Definition fresh_process : Tsf.Process (E := flag_engine) :=
  Tsf.mkProcess (E := flag_engine)
    Tsf.new_WitnessdTextService INVALID_HANDLE_VALUE false.

Definition fresh_basic_process : Basic.Process (E := flag_engine) :=
  Basic.mkProcess (E := flag_engine) Basic.new_WitnessdTextService false.

(** The daemon listens and accepts the write / accepts the connection but
    the write fails / is not listening. *)
Definition pipe_up : PipeEnv :=
  {| GetUserNameW := "alice"; CreateFileW := 100; WriteFile := true |}.
Definition pipe_broken : PipeEnv :=
  {| GetUserNameW := "alice"; CreateFileW := 100; WriteFile := false |}.
Definition pipe_down : PipeEnv :=
  {| GetUserNameW := "alice";
     CreateFileW := INVALID_HANDLE_VALUE;
     WriteFile := false |}.

(** The same service with the pipe already open on handle 100. *)
Definition connected_process : Tsf.Process (E := flag_engine) :=
  Tsf.mkProcess (E := flag_engine)
    Tsf.new_WitnessdTextService 100 false.

(** A foreground window about which nothing can be found out: no title,
    the owning process can not be opened, no conversion succeeds. *)
Definition focus_unresolved : FocusEnv :=
  {| GetForegroundWindow := 0x1234;
     GetWindowTextW := [];
     OpenProcess := nullptr;
     QueryFullProcessImageNameW := None;
     WideCharToMultiByte := fun _ => (0, EmptyString) |}.

Definition cleanup_ok : CleanupEnv :=
  {| QueryInterface_ITfSource_threadMgr := S_OK;
     QueryInterface_ITfSource_context := S_OK |}.

(** Every sink registers. *)
Definition activate_ok (focus : FocusEnv) : ActivateEnv :=
  {| QueryInterface_ITfKeystrokeMgr := (S_OK, 0x7000);
     AdviseKeyEventSink := S_OK;
     QueryInterface_ITfSource := S_OK;
     AdviseSink := (S_OK, Some 7);
     activate_focus := focus;
     activate_cleanup := cleanup_ok |}.

(** A focus change to a document whose top context can be obtained, in
    that same window. *)
Definition doc_focus_unresolved : DocFocusEnv :=
  {| GetTop := (S_OK, 0x6100);
     doc_QueryInterface_ITfSource := S_OK;
     doc_AdviseSink := (S_OK, Some 9);
     doc_cleanup := cleanup_ok;
     doc_focus := focus_unresolved |}.

(** An unpaired high surrogate, which the conversion rejects under
    [WC_ERR_INVALID_CHARS]: both calls answer 0. *)
Definition lone_surrogate : wstring := [0xD800].

Definition rejecting (allocation_succeeds : bool) : Utils.ConvertEnv :=
  {| Utils.WideCharToMultiByte_size := fun _ => 0;
     Utils.allocate := fun _ => allocation_succeeds;
     Utils.WideCharToMultiByte_convert := fun _ _ _ => (0, EmptyString) |}.

(** The host activates twice in a row, as hosts do. *)
Definition activate_twice : list (Tsf.HostCall) :=
  [Tsf.Call_Activate (activate_ok focus_unresolved) 0x5000 1;
   Tsf.Call_ActivateEx (activate_ok focus_unresolved) 0x5000 1 0].

(** Activations and deactivations in excess of each other. *)
Definition restless_host : list (Tsf.HostCall) :=
  activate_twice ++
  [Tsf.Call_Deactivate cleanup_ok; Tsf.Call_Deactivate cleanup_ok;
   Tsf.Call_Activate (activate_ok focus_unresolved) 0x5000 2;
   Tsf.Call_Deactivate cleanup_ok].

(** A dead key: the layout answers -1 and stores the accent. *)
Definition dead_key_env : KeyEnv :=
  {| pipe := pipe_up;
     GetTimestampNanos := 1234567890;
     GetKeyboardState := true;
     ToUnicode := fun _ _ => (-1, 0x60) |}.

(** A US keyboard with no modifier held, as far as the keys used below go:
    the letter A gives "a" (0x61), backspace gives the control character
    0x08. *)
Definition us_layout (vk scan : Z) : Z * Z :=
  if vk =? 0x41 then (1, 0x61)
  else if vk =? VK_BACK then (1, 0x08)
  else (0, 0).

Definition typing_env (pipe_env : PipeEnv) : KeyEnv :=
  {| pipe := pipe_env;
     GetTimestampNanos := 1234567890;
     GetKeyboardState := true;
     ToUnicode := us_layout |}.

(** [lParam] of a key-down message: repeat count 1, scan code in bits
    16-23. *)
Definition lParam_A : Z := 0x001E0001.
Definition lParam_BACK : Z := 0x000E0001.

(** The letter A going down: virtual key 0x41, scan code 0x1E. *)
Definition key_A_event : KeystrokeEvent :=
  {| timestampNanos := 1234567890;
     virtualKeyCode := 0x41;
     scanCode := 0x1E;
     flags := 0;
     isKeyDown := true |}.

(** The same window as [focus_unresolved], now with a title and a
    readable process. *)
Definition focus_resolved : FocusEnv :=
  {| GetForegroundWindow := 0x1234;
     GetWindowTextW := [0x41];
     OpenProcess := 0x77;
     QueryFullProcessImageNameW := Some [0x42];
     WideCharToMultiByte := fun w =>
       match w with
       | [0x41] => (2, "A")
       | [0x42] => (2, "B")
       | _ => (0, EmptyString)
       end |}.

(** The thread manager does not expose ITfSource. *)
Definition activate_no_source : ActivateEnv :=
  {| QueryInterface_ITfKeystrokeMgr := (S_OK, 0x7000);
     AdviseKeyEventSink := S_OK;
     QueryInterface_ITfSource := E_FAIL;
     AdviseSink := (E_FAIL, None);
     activate_focus := focus_unresolved;
     activate_cleanup := cleanup_ok |}.

(** A conversion that knows the one-letter strings A and B and rejects
    everything else; storage is always available. *)
Definition letters : Utils.ConvertEnv :=
  {| Utils.WideCharToMultiByte_size := fun w =>
       match w with [0x41] | [0x42] => 2 | _ => 0 end;
     Utils.allocate := fun _ => true;
     Utils.WideCharToMultiByte_convert := fun w _ _ =>
       match w with
       | [0x41] => (1, "A")
       | [0x42] => (1, "B")
       | _ => (0, EmptyString)
       end |}.

(** A command line: the program name, then A, an unpaired surrogate
    and B. *)
Definition sample_argv : list wstring :=
  [[0x57]; [0x41]; [0xD800]; [0x42]].

(** A client that asks for the class object three times, once for an
    interface the factory does not have, locks the server and unlocks it,
    and gives its references back. *)
Definition class_object_client : list Com.ClientCall :=
  [Com.Client_DllGetClassObject Com.CLSID_WitnessdTextService
     Com.IID_IClassFactory true true;
   Com.Client_DllGetClassObject Com.CLSID_WitnessdTextService
     Com.IID_ITfKeyEventSink true true;
   Com.Client_LockServer 1;
   Com.Client_DllGetClassObject Com.CLSID_WitnessdTextService
     Com.IID_IUnknown true true;
   Com.Client_Release; Com.Client_LockServer 0; Com.Client_Release;
   Com.Client_Release].

(** The holder of a new text service asks for two more interfaces, one of
    them unknown to the object, and releases what it holds. *)
Definition object_client : list Com.ObjectCall :=
  [Com.Object_QueryInterface Com.IID_ITfKeyEventSink true;
   Com.Object_QueryInterface (Com.IID_other 7) true;
   Com.Object_AddRef;
   Com.Object_Release; Com.Object_Release; Com.Object_Release].

(** A registry that grants every key, and a profile manager that refuses
    the language profile. *)
Definition registry_ok : Registration.ComEnv :=
  {| Registration.com_GetModuleFileNameW := Some "C:\witnessd\witnessd_tsf.dll";
     Registration.com_last_error := 0;
     Registration.RegCreateKeyExW :=
       fun path => Some (Z.of_nat (String.length path)) |}.

Definition profile_refused : Registration.TextEnv :=
  {| Registration.text_GetModuleFileNameW :=
       Some "C:\witnessd\witnessd_tsf.dll";
     Registration.text_last_error := 0;
     Registration.CoCreate_profiles := S_OK;
     Registration.Register := S_OK;
     Registration.AddLanguageProfile := E_FAIL;
     Registration.CoCreate_category := S_OK |}.

(** Three sends during which the daemon goes away and comes back. *)
Definition flaky_sends : list (PipeEnv * KeystrokeEvent) :=
  [(pipe_up, key_A_event); (pipe_broken, key_A_event);
   (pipe_down, key_A_event); (pipe_up, key_A_event)].

(** * Properties *)

(** ** The pipe message *)

Lemma le_bytes_length (n : nat) (x : Z) : List.length (le_bytes n x) = n.
Proof.
  revert x; induction n as [|n IH]; intros x; simpl; [reflexivity|].
  now rewrite IH.
Qed.

Lemma le_bytes_range (n : nat) (x : Z) :
  Forall (fun b => 0 <= b < 256) (le_bytes n x).
Proof.
  revert x; induction n as [|n IH]; intros x; simpl; constructor.
  - apply Z.mod_pos_bound; lia.
  - apply IH.
Qed.

Lemma le_value_le_bytes (n : nat) (x : Z) :
  le_value (le_bytes n x) = x mod 256 ^ Z.of_nat n.
Proof.
  revert x; induction n as [|n IH]; intros x.
  - simpl. now rewrite Z.mod_1_r.
  - cbn [le_bytes le_value]. rewrite IH.
    rewrite Nat2Z.inj_succ, Z.pow_succ_r by lia.
    rewrite Z.rem_mul_r; [reflexivity | lia | ].
    apply Z.pow_pos_nonneg; lia.
Qed.

Lemma to_int64_of_image (x : Z) :
  - 2 ^ 63 <= x < 2 ^ 63 -> to_int64 (x mod 2 ^ 64) = x.
Proof.
  intros Hx. unfold to_int64, to_signed.
  replace (64 - 1) with 63 by reflexivity.
  rewrite Zplus_mod_idemp_l.
  rewrite Z.mod_small; lia.
Qed.

Lemma decode_msg_bytes (m : PipeMsg) :
  decodeKeystroke (msg_bytes m) =
  Some {| timestampNanos := to_int64 (le_value (le_bytes 8 (msg_timestamp m)));
          virtualKeyCode := le_value (le_bytes 2 (msg_vkCode m));
          scanCode := le_value (le_bytes 2 (msg_scanCode m));
          flags := le_value (le_bytes 4 (msg_flags m));
          isKeyDown := negb (le_value (le_bytes 1 (msg_isDown m)) =? 0) |}.
Proof.
  destruct m as [ts vk sc fl dn]. reflexivity.
Qed.

Lemma msg_bytes_length (m : PipeMsg) : List.length (msg_bytes m) = 17%nat.
Proof.
  unfold msg_bytes. rewrite !length_app, !le_bytes_length. reflexivity.
Qed.

(** ** The transport *)

Arguments msg_bytes : simpl never.
Arguments scan_code_of : simpl never.
Arguments printable : simpl never.
Arguments Tsf.WritePipe : simpl never.
Arguments Tsf.pipeName : simpl never.
Arguments INVALID_HANDLE_VALUE : simpl never.
Arguments to_uint16 : simpl never.
Arguments to_uint32 : simpl never.
Arguments to_int32 : simpl never.
Arguments char_buf : simpl never.

Ltac run_monad :=
  unfold bind, gets, modify, emit, ret, result, state, trace; cbn.

Section TransportCases.
Context {E : WitnessdEngine}.
Import Tsf.

Lemma Connected_false (p : Process) :
  Connected p = false <-> g_hPipe p = INVALID_HANDLE_VALUE.
Proof.
  unfold Connected. rewrite negb_false_iff. apply Z.eqb_eq.
Qed.

Lemma set_g_hPipe_same (p : Process) : set_g_hPipe (g_hPipe p) p = p.
Proof. now destruct p. Qed.

(** What one [WritePipe] does, case by case. *)
Lemma WritePipe_cases (env : PipeEnv) (vk sc fl ts : Z) (d : bool)
  (p : Process) :
  let frame := msg_bytes (fill_msg vk sc fl ts d) in
  let connect := Sys_CreateFileW (pipeName env) (CreateFileW env) in
  WritePipe env vk sc fl ts d p =
  if Connected p then
    if WriteFile env then
      (tt, p, [Sys_WriteFile (g_hPipe p) frame true])
    else
      (tt, set_g_hPipe INVALID_HANDLE_VALUE p,
       [Sys_WriteFile (g_hPipe p) frame false; Sys_CloseHandle (g_hPipe p)])
  else
    if CreateFileW env =? INVALID_HANDLE_VALUE then
      (tt, p, [connect])
    else if WriteFile env then
      (tt, set_g_hPipe (CreateFileW env) p,
       [connect; Sys_WriteFile (CreateFileW env) frame true])
    else
      (tt, set_g_hPipe INVALID_HANDLE_VALUE p,
       [connect; Sys_WriteFile (CreateFileW env) frame false;
        Sys_CloseHandle (CreateFileW env)]).
Proof.
  intros frame connect. unfold WritePipe, ConnectPipe, DisconnectPipe, Connected.
  run_monad.
  destruct (g_hPipe p =? INVALID_HANDLE_VALUE) eqn:Hp; cbn; rewrite ?Hp; cbn.
  - destruct (CreateFileW env =? INVALID_HANDLE_VALUE) eqn:Hc; cbn.
    + apply Z.eqb_eq in Hp, Hc. subst connect.
      rewrite Hc, <- Hp, set_g_hPipe_same. reflexivity.
    + destruct (WriteFile env); cbn; rewrite ?Hc; cbn; reflexivity.
  - destruct (WriteFile env); cbn; rewrite ?Hp; cbn; reflexivity.
Qed.

End TransportCases.

Ltac WritePipe_by_cases env p :=
  rewrite ?WritePipe_cases; unfold Tsf.Connected in *;
  destruct (Tsf.g_hPipe p =? INVALID_HANDLE_VALUE) eqn:?Hp;
  destruct (CreateFileW env =? INVALID_HANDLE_VALUE) eqn:?Hc;
  destruct (WriteFile env) eqn:?Hw;
  cbn in *.

Section Transport.
Context {E : WitnessdEngine}.
Import Tsf.

Lemma WritePipe_frame (env : PipeEnv) (vk sc fl ts : Z) (d : bool)
  (p : Process) (h : HANDLE) (buffer : list Z) (ok : bool) :
  In (Sys_WriteFile h buffer ok) (trace (WritePipe env vk sc fl ts d p)) ->
  buffer = msg_bytes (fill_msg vk sc fl ts d).
Proof.
  WritePipe_by_cases env p; intuition congruence.
Qed.

(** C2. Every keystroke event is written as one message of exactly 17
    bytes, laid out little-endian as timestamp (8 bytes), virtual key (2),
    scan code (2), flags (4), key-down flag (1); this is the buffer
    [WritePipe] hands to [WriteFile]; and reading the 17 bytes back by that
    layout returns the event, for every event whose fields fit their
    types. *)
Theorem keystroke_frame_roundtrip (e : KeystrokeEvent) :
  (List.length (encodeKeystroke e) = 17%nat /\
   encodeKeystroke e =
     le_bytes 8 (timestampNanos e) ++ le_bytes 2 (virtualKeyCode e) ++
     le_bytes 2 (scanCode e) ++ le_bytes 4 (flags e) ++
     [if isKeyDown e then 1 else 0] /\
   Forall (fun b => 0 <= b < 256) (encodeKeystroke e) /\
   forall env p h buffer ok,
     In (Sys_WriteFile h buffer ok)
        (trace (WritePipe env (virtualKeyCode e) (scanCode e) (flags e)
                          (timestampNanos e) (isKeyDown e) p)) ->
     buffer = encodeKeystroke e) /\
  (KeystrokeEvent_in_range e ->
   decodeKeystroke (encodeKeystroke e) = Some e).
Proof.
  split; [split; [|split; [|split]]|].
  - apply msg_bytes_length.
  - unfold encodeKeystroke, msg_bytes, fill_msg; cbn [msg_timestamp msg_vkCode
      msg_scanCode msg_flags msg_isDown].
    do 4 f_equal. destruct (isKeyDown e); reflexivity.
  - unfold encodeKeystroke, msg_bytes.
    repeat (apply Forall_app; split); apply le_bytes_range.
  - intros env p h buffer ok. apply WritePipe_frame.
  - intros (Hts & Hvk & Hsc & Hfl).
    unfold encodeKeystroke. rewrite decode_msg_bytes.
    destruct e as [ts vk sc fl dn]; cbn [fill_msg msg_timestamp msg_vkCode
      msg_scanCode msg_flags msg_isDown timestampNanos virtualKeyCode scanCode
      flags isKeyDown] in *.
    rewrite !le_value_le_bytes.
    change (256 ^ Z.of_nat 8) with (2 ^ 64).
    change (256 ^ Z.of_nat 2) with (2 ^ 16).
    change (256 ^ Z.of_nat 4) with (2 ^ 32).
    rewrite to_int64_of_image by assumption.
    rewrite (Z.mod_small vk), (Z.mod_small sc), (Z.mod_small fl) by assumption.
    destruct dn; reflexivity.
Qed.

Example key_A_frame :
  encodeKeystroke key_A_event =
  [0xD2; 0x02; 0x96; 0x49; 0; 0; 0; 0; 0x41; 0; 0x1E; 0; 0; 0; 0; 0; 1].
Proof. reflexivity. Qed.

End Transport.

(** ** Key callbacks *)

Lemma keystroke_frame_roundtrip_key_A :
  KeystrokeEvent_in_range key_A_event /\
  decodeKeystroke (encodeKeystroke key_A_event) = Some key_A_event.
Proof.
  assert (R : KeystrokeEvent_in_range key_A_event)
    by (unfold KeystrokeEvent_in_range; cbn; lia).
  split; [exact R|].
  exact (proj2 (keystroke_frame_roundtrip (E := flag_engine) key_A_event) R).
Defined.

Section KeyCallbacks.
Context {E : WitnessdEngine}.
Import Tsf.

Lemma WritePipe_this (env : PipeEnv) (vk sc fl ts : Z) (d : bool)
  (p : Process) :
  this (state (WritePipe env vk sc fl ts d p)) = this p /\
  go (state (WritePipe env vk sc fl ts d p)) = go p.
Proof.
  WritePipe_by_cases env p; split; reflexivity.
Qed.

Lemma WritePipe_no_engine_call (env : PipeEnv) (vk sc fl ts : Z) (d : bool)
  (p : Process) :
  filter is_engine_call (trace (WritePipe env vk sc fl ts d p)) = [].
Proof.
  WritePipe_by_cases env p; reflexivity.
Qed.

Lemma OnKeyDown_disabled (env : KeyEnv) (wParam lParam : Z) (p : Process) :
  IsEnabled p = false ->
  OnKeyDown env wParam lParam p = ((S_OK, FALSE), p, []).
Proof.
  unfold IsEnabled, OnKeyDown, member. intros H. run_monad. now rewrite H.
Qed.

Lemma OnKeyUp_disabled (env : KeyEnv) (wParam lParam : Z) (p : Process) :
  IsEnabled p = false ->
  OnKeyUp env wParam lParam p = ((S_OK, FALSE), p, []).
Proof.
  unfold IsEnabled, OnKeyUp, member. intros H. run_monad. now rewrite H.
Qed.

Lemma OnKeyDown_enabled (env : KeyEnv) (wParam lParam : Z) (p : Process) :
  IsEnabled p = true ->
  let charCode := VKToChar env wParam lParam in
  let sent :=
    WritePipe (pipe env) (to_uint16 wParam)
              (to_uint16 (scan_code_of lParam))
              (to_uint32 lParam) (GetTimestampNanos env) true p in
  result (OnKeyDown env wParam lParam p) = (S_OK, FALSE) /\
  this (state (OnKeyDown env wParam lParam p)) = this p /\
  g_hPipe (state (OnKeyDown env wParam lParam p)) = g_hPipe (state sent) /\
  trace (OnKeyDown env wParam lParam p) =
    trace sent ++
    Go_OnKeyDown (to_uint16 wParam) (to_int32 charCode) ::
    text_calls wParam charCode.
Proof.
  intros H charCode sent. unfold IsEnabled in H.
  pose proof (WritePipe_this (pipe env) (to_uint16 wParam)
    (to_uint16 (scan_code_of lParam)) (to_uint32 lParam)
    (GetTimestampNanos env) true p) as [Hthis _].
  fold sent in Hthis. unfold state in Hthis.
  unfold OnKeyDown, member, go_call, go_call_, text_calls.
  fold charCode. run_monad. rewrite H; cbn. fold sent.
  destruct sent as [[[] p1] t1]; cbn in *.
  destruct (WitnessdOnKeyDown (to_uint16 wParam) (to_int32 charCode) (go p1))
    as [r e1]; cbn.
  destruct (printable charCode); destruct (wParam =? VK_BACK); cbn;
    rewrite ?app_nil_r; auto.
Qed.

Lemma OnKeyUp_enabled (env : KeyEnv) (wParam lParam : Z) (p : Process) :
  IsEnabled p = true ->
  let sent :=
    WritePipe (pipe env) (to_uint16 wParam)
              (to_uint16 (scan_code_of lParam))
              (to_uint32 lParam) (GetTimestampNanos env) false p in
  OnKeyUp env wParam lParam p = ((S_OK, FALSE), state sent, trace sent).
Proof.
  intros H sent. unfold IsEnabled in H.
  unfold OnKeyUp, member. run_monad. rewrite H; cbn. fold sent.
  destruct sent as [[[] p1] t1]; cbn. now rewrite app_nil_r.
Qed.

Lemma WritePipe_only_kernel_calls (env : PipeEnv) (vk sc fl ts : Z) (d : bool)
  (p : Process) (c : Call) :
  In c (trace (WritePipe env vk sc fl ts d p)) -> is_engine_call c = false.
Proof.
  WritePipe_by_cases env p; intuition; subst; reflexivity.
Qed.

Lemma WritePipe_trace_depends_on_handle (env : PipeEnv) (vk sc fl ts : Z)
  (d : bool) (p p' : Process) :
  g_hPipe p = g_hPipe p' ->
  trace (WritePipe env vk sc fl ts d p) =
  trace (WritePipe env vk sc fl ts d p').
Proof.
  intros H. rewrite !WritePipe_cases. unfold Connected. rewrite H.
  destruct (negb (g_hPipe p' =? INVALID_HANDLE_VALUE));
    [destruct (WriteFile env); reflexivity|].
  destruct (CreateFileW env =? INVALID_HANDLE_VALUE); [reflexivity|].
  destruct (WriteFile env); reflexivity.
Qed.

Lemma WritePipe_write_attempts (env : PipeEnv) (vk sc fl ts : Z) (d : bool)
  (p : Process) :
  write_attempts (trace (WritePipe env vk sc fl ts d p)) =
  if Connected p || negb (CreateFileW env =? INVALID_HANDLE_VALUE)
  then 1%nat else 0%nat.
Proof.
  WritePipe_by_cases env p; reflexivity.
Qed.

Lemma printable_iff (charCode : Z) :
  printable charCode = true <-> 0x20 <= charCode <= 0x7E.
Proof.
  unfold printable. rewrite andb_true_iff, !Z.leb_le. reflexivity.
Qed.

Lemma text_calls_filter (wParam charCode : Z) :
  filter is_text_call (text_calls wParam charCode) =
  text_calls wParam charCode.
Proof.
  unfold text_calls.
  destruct (printable charCode); destruct (wParam =? VK_BACK); reflexivity.
Qed.

Lemma filter_nil_of_all_false {A} (f : A -> bool) (l : list A) :
  (forall x, In x l -> f x = false) -> filter f l = [].
Proof.
  induction l as [|a l IH]; intros H; [reflexivity|].
  cbn. rewrite (H a) by now left. apply IH. intros x Hx. apply H. now right.
Qed.

Lemma WritePipe_no_text_call (env : PipeEnv) (vk sc fl ts : Z) (d : bool)
  (p : Process) :
  filter is_text_call (trace (WritePipe env vk sc fl ts d p)) = [].
Proof.
  WritePipe_by_cases env p; reflexivity.
Qed.

(** C10. The five key-event callbacks store FALSE in the eaten flag and
    return S_OK, whatever the key, the service state and the outside world
    do. *)
Theorem key_callbacks_never_eat_never_fail
  (env : KeyEnv) (wParam lParam : Z) (p : Process) :
  result (OnTestKeyDown wParam lParam p) = (S_OK, FALSE) /\
  result (OnTestKeyUp wParam lParam p) = (S_OK, FALSE) /\
  result (OnKeyDown env wParam lParam p) = (S_OK, FALSE) /\
  result (OnKeyUp env wParam lParam p) = (S_OK, FALSE) /\
  result (OnPreservedKey p) = (S_OK, FALSE) /\
  FAILED S_OK = false.
Proof.
  split; [reflexivity|]. split; [reflexivity|].
  destruct (IsEnabled p) eqn:He.
  - split; [apply (OnKeyDown_enabled env wParam lParam p He)|].
    split; [now rewrite (OnKeyUp_enabled env wParam lParam p He)|].
    split; reflexivity.
  - rewrite (OnKeyDown_disabled env wParam lParam p He).
    rewrite (OnKeyUp_disabled env wParam lParam p He).
    repeat split.
Qed.

(** C5. For a key-down processed by the enabled service, with [charCode]
    the character the layout translates the key to: a text commit is made
    exactly when 0x20 <= charCode <= 0x7E, and it commits that one
    character; a text delete is made exactly when the key is VK_BACK, and
    it deletes one character; a key that is neither makes no text call. *)
Theorem key_to_text_mapping
  (env : KeyEnv) (wParam lParam : Z) (p : Process) :
  IsEnabled p = true ->
  let charCode := VKToChar env wParam lParam in
  let t := trace (OnKeyDown env wParam lParam p) in
  (forall text, In (Go_OnTextCommit text) t <->
     0x20 <= charCode <= 0x7E /\ text = char_buf charCode) /\
  (forall count, In (Go_OnTextDelete count) t <->
     wParam = VK_BACK /\ count = 1) /\
  (~ 0x20 <= charCode <= 0x7E -> wParam <> VK_BACK ->
     filter is_text_call t = []) /\
  filter is_text_call t = text_calls wParam charCode.
Proof.
  intros He charCode t. subst t.
  destruct (OnKeyDown_enabled env wParam lParam p He) as (_ & _ & _ & ->).
  fold charCode.
  set (sent := WritePipe _ _ _ _ _ _ _).
  assert (Hsys : forall c, In c (trace sent) -> is_engine_call c = false)
    by (intro c; apply WritePipe_only_kernel_calls).
  assert (Hfilter :
    filter is_text_call
      (trace sent ++ Go_OnKeyDown (to_uint16 wParam) (to_int32 charCode)
         :: text_calls wParam charCode) = text_calls wParam charCode).
  { rewrite filter_app. subst sent. rewrite WritePipe_no_text_call.
    cbn. apply text_calls_filter. }
  split; [|split; [|split]].
  - intros text. rewrite <- printable_iff, in_app_iff. unfold text_calls.
    split.
    + intros [Hin | [Hin | Hin]];
        [apply Hsys in Hin; discriminate | discriminate |].
      destruct (printable charCode); destruct (wParam =? VK_BACK);
        cbn in Hin; repeat destruct Hin as [Hin | Hin];
        try discriminate; try contradiction;
        injection Hin as <-; split; reflexivity.
    + intros [Hp ->]. right; right. rewrite Hp. now left.
  - intros count. rewrite in_app_iff. unfold text_calls.
    split.
    + intros [Hin | [Hin | Hin]];
        [apply Hsys in Hin; discriminate | discriminate |].
      destruct (printable charCode); destruct (wParam =? VK_BACK) eqn:Hb;
        cbn in Hin; repeat destruct Hin as [Hin | Hin];
        try discriminate; try contradiction;
        injection Hin as <-; (split; [now apply Z.eqb_eq | reflexivity]).
    + intros [-> ->]. right; right. rewrite Z.eqb_refl.
      apply in_or_app. right. now left.
  - intros Hnp Hnb. rewrite Hfilter. unfold text_calls.
    rewrite <- printable_iff in Hnp. apply not_true_is_false in Hnp.
    apply Z.eqb_neq in Hnb. now rewrite Hnp, Hnb.
  - exact Hfilter.
Qed.

(** C1, as the code has it.  While the service is enabled a key event is
    forwarded whether or not a session is open: the calls [OnKeyDown] makes
    do not depend on the activation flag or on the engine's state; it always
    calls [WitnessdOnKeyDown] and the text calls of the key; [OnKeyDown] and
    [OnKeyUp] write the frame whenever the pipe is connected or the connect
    attempt succeeds.  The frame is left out only when the pipe can not be
    connected, and then the service object is unchanged: the omission is not
    counted anywhere. *)
Theorem key_events_forwarded_whenever_enabled
  (env : KeyEnv) (wParam lParam : Z) (p : Process) :
  IsEnabled p = true ->
  let down := OnKeyDown env wParam lParam p in
  let up := OnKeyUp env wParam lParam p in
  let reachable :=
    Connected p || negb (CreateFileW (pipe env) =? INVALID_HANDLE_VALUE) in
  (forall activated e,
     trace (OnKeyDown env wParam lParam
              (set_go e (set_this (set_isActivated_ activated (this p)) p))) =
     trace down) /\
  filter is_key_call (trace down) =
    Go_OnKeyDown (to_uint16 wParam) (to_int32 (VKToChar env wParam lParam)) ::
    text_calls wParam (VKToChar env wParam lParam) /\
  write_attempts (trace down) = (if reachable then 1 else 0)%nat /\
  write_attempts (trace up) = (if reachable then 1 else 0)%nat /\
  this (state down) = this p /\
  this (state up) = this p.
Proof.
  intros He down up reachable. subst down up reachable.
  destruct (OnKeyDown_enabled env wParam lParam p He) as (_ & Hthis & _ & Ht).
  rewrite (OnKeyUp_enabled env wParam lParam p He). cbv zeta. cbn [trace state snd fst].
  rewrite Ht, Hthis.
  split; [|split; [|split; [|split; [|split]]]].
  - intros activated e.
    set (p' := set_go e (set_this (set_isActivated_ activated (this p)) p)).
    assert (He' : IsEnabled p' = true).
    { unfold IsEnabled in *. subst p'. cbn.
      destruct (this p); cbn in *. exact He. }
    destruct (OnKeyDown_enabled env wParam lParam p' He') as (_ & _ & _ & ->).
    f_equal. apply WritePipe_trace_depends_on_handle. reflexivity.
  - rewrite filter_app.
    rewrite (filter_nil_of_all_false is_key_call).
    + cbn. f_equal. unfold text_calls.
      destruct (printable _); destruct (wParam =? VK_BACK); reflexivity.
    + intros c Hc. apply WritePipe_only_kernel_calls in Hc.
      destruct c; try reflexivity; discriminate.
  - unfold write_attempts. rewrite filter_app, length_app.
    fold (write_attempts (trace (WritePipe (pipe env) (to_uint16 wParam)
      (to_uint16 (scan_code_of lParam)) (to_uint32 lParam)
      (GetTimestampNanos env) true p))).
    rewrite WritePipe_write_attempts.
    replace (List.length (filter is_write _)) with 0%nat; [lia|].
    cbn. unfold text_calls.
    destruct (printable _); destruct (wParam =? VK_BACK); reflexivity.
  - fold (trace (WritePipe (pipe env) (to_uint16 wParam)
      (to_uint16 (scan_code_of lParam)) (to_uint32 lParam)
      (GetTimestampNanos env) false p)).
    apply WritePipe_write_attempts.
  - reflexivity.
  - apply WritePipe_this.
Qed.

End KeyCallbacks.

Lemma key_to_text_mapping_key_A :
  Tsf.IsEnabled fresh_process = true /\
  In (Go_OnTextCommit "a")
     (trace (Tsf.OnKeyDown (typing_env pipe_up) 0x41 lParam_A fresh_process)) /\
  In (Go_OnTextDelete 1)
     (trace (Tsf.OnKeyDown (typing_env pipe_up) VK_BACK lParam_BACK
                           fresh_process)) /\
  filter is_text_call
    (trace (Tsf.OnKeyDown (typing_env pipe_up) 0x70 0x003B0001
                          fresh_process)) = [].
Proof.
  split; [reflexivity|].
  split; [|split].
  - apply (key_to_text_mapping (typing_env pipe_up) 0x41 lParam_A
             fresh_process eq_refl).
    split; [vm_compute; split; discriminate | reflexivity].
  - apply (key_to_text_mapping (typing_env pipe_up) VK_BACK lParam_BACK
             fresh_process eq_refl).
    split; reflexivity.
  - apply (proj1 (proj2 (proj2
      (key_to_text_mapping (typing_env pipe_up) 0x70 0x003B0001
         fresh_process eq_refl)))).
    + vm_compute. intros [H _]. now apply H.
    + discriminate.
Defined.

Lemma key_events_forwarded_whenever_enabled_pipe_up :
  Tsf.IsEnabled fresh_process = true /\
  write_attempts
    (trace (Tsf.OnKeyDown (typing_env pipe_up) 0x41 lParam_A fresh_process)) =
  1%nat.
Proof.
  split; [reflexivity|].
  exact (proj1 (proj2 (proj2
    (key_events_forwarded_whenever_enabled
       (typing_env pipe_up) 0x41 lParam_A fresh_process eq_refl)))).
Defined.

(** C1 as stated fails.  On a service that was never activated, with no
    session in the engine, a key-down is written to the pipe and reaches
    the engine, and a backspace reaches [WitnessdOnTextDelete]. *)
Lemma keystroke_without_session_is_forwarded :
  Tsf.IsActivated fresh_process = false /\
  WitnessdHasActiveSession (Tsf.go fresh_process) = 0 /\
  trace (Tsf.OnKeyDown (typing_env pipe_up) 0x41 lParam_A fresh_process) =
    [Sys_CreateFileW "\\.\pipe\witnessd-alice-tsf-ipc" 100;
     Sys_WriteFile 100
       [0xD2; 0x02; 0x96; 0x49; 0; 0; 0; 0; 0x41; 0; 0x1E; 0;
        0x01; 0x00; 0x1E; 0x00; 1] true;
     Go_OnKeyDown 0x41 0x61;
     Go_OnTextCommit "a"] /\
  filter is_key_call
    (trace (Tsf.OnKeyDown (typing_env pipe_up) VK_BACK lParam_BACK
                          fresh_process)) =
    [Go_OnKeyDown 0x08 0x08; Go_OnTextDelete 1].
Proof.
  repeat split.
Qed.

(** With the daemon not listening the frame is left out after the one
    connect attempt, the engine is still called, and the service object is
    as it was. *)
Example frame_left_out_when_pipe_is_down :
  trace (Tsf.OnKeyDown (typing_env pipe_down) 0x41 lParam_A fresh_process) =
    [Sys_CreateFileW "\\.\pipe\witnessd-alice-tsf-ipc" INVALID_HANDLE_VALUE;
     Go_OnKeyDown 0x41 0x61;
     Go_OnTextCommit "a"] /\
  Tsf.this (state (Tsf.OnKeyDown (typing_env pipe_down) 0x41 lParam_A
                                 fresh_process)) =
    Tsf.new_WitnessdTextService.
Proof. split; reflexivity. Qed.

(** ** The two [OnKeyDown] *)

Section TwoServices.
Context {E : WitnessdEngine}.

Lemma Basic_OnKeyDown_trace (env : KeyEnv) (wParam lParam : Z)
  (q : Basic.Process) :
  trace (Basic.OnKeyDown env wParam lParam q) =
  Go_OnKeyDown (to_uint16 wParam)
               (to_int32 (Basic.VKToChar env wParam lParam)) ::
  (if printable (Basic.VKToChar env wParam lParam)
   then [Go_OnTextCommit (char_buf (Basic.VKToChar env wParam lParam))]
   else []).
Proof.
  unfold Basic.OnKeyDown, Basic.go_call, Basic.go_call_. run_monad.
  destruct (WitnessdOnKeyDown _ _ _) as [r e1]; cbn.
  destruct (printable _); reflexivity.
Qed.

Lemma VKToChar_agree (env : KeyEnv) (vk lParam : Z) :
  Basic.VKToChar env vk lParam = Tsf.VKToChar env vk lParam.
Proof. reflexivity. Qed.

(** C8, as the code has it.  The engine calls of the complete
    [OnKeyDown] are those of the basic one followed by
    [WitnessdOnTextDelete(1)] when the key is VK_BACK, provided the complete
    service is enabled; when it is disabled it makes no engine call.  So the
    two sequences coincide exactly for an enabled service and a key other
    than VK_BACK. *)
Theorem complete_OnKeyDown_extends_basic
  (env : KeyEnv) (wParam lParam : Z) (p : Tsf.Process) (q : Basic.Process) :
  filter is_engine_call (trace (Tsf.OnKeyDown env wParam lParam p)) =
  if Tsf.IsEnabled p then
    filter is_engine_call (trace (Basic.OnKeyDown env wParam lParam q)) ++
    (if wParam =? VK_BACK then [Go_OnTextDelete 1] else [])
  else [].
Proof.
  destruct (Tsf.IsEnabled p) eqn:He.
  - destruct (OnKeyDown_enabled env wParam lParam p He) as (_ & _ & _ & ->).
    rewrite filter_app, WritePipe_no_engine_call.
    rewrite Basic_OnKeyDown_trace.
    change (Basic.VKToChar env wParam lParam)
      with (Tsf.VKToChar env wParam lParam).
    unfold text_calls.
    destruct (printable _); destruct (wParam =? VK_BACK); reflexivity.
  - now rewrite (OnKeyDown_disabled env wParam lParam p He).
Qed.

End TwoServices.

(** C8 as stated fails: for a backspace the complete service calls
    [WitnessdOnTextDelete], the basic one does not. *)
Lemma OnKeyDown_implementations_differ_on_backspace :
  filter is_engine_call
    (trace (Tsf.OnKeyDown (typing_env pipe_up) VK_BACK lParam_BACK
                          fresh_process)) =
    [Go_OnKeyDown 0x08 0x08; Go_OnTextDelete 1] /\
  filter is_engine_call
    (trace (Basic.OnKeyDown (typing_env pipe_up) VK_BACK lParam_BACK
                            fresh_basic_process)) =
    [Go_OnKeyDown 0x08 0x08] /\
  filter is_engine_call
    (trace (Tsf.OnKeyDown (typing_env pipe_up) VK_BACK lParam_BACK
                          fresh_process)) <>
  filter is_engine_call
    (trace (Basic.OnKeyDown (typing_env pipe_up) VK_BACK lParam_BACK
                            fresh_basic_process)).
Proof.
  split; [reflexivity|]. split; [reflexivity|]. discriminate.
Qed.

(** ** Frame lemmas: what a method leaves alone *)

Arguments Tsf.CleanupSinks : simpl never.
Arguments Tsf.SetupSinks : simpl never.
Arguments Tsf.UpdateFocusInfo : simpl never.
Arguments Tsf.Deactivate : simpl never.
Arguments Tsf.WideToUTF8 : simpl never.

Section Frames.
Context {E : WitnessdEngine}.
Import Tsf.
Context {X : Type} (f : Process -> X).

Lemma keeps_ret {A} (a : A) : keeps f (ret a).
Proof. intros p. reflexivity. Qed.

Lemma keeps_emit (c : Call) : keeps f (emit c).
Proof. intros p. reflexivity. Qed.

Lemma keeps_member {A} (g : WitnessdTextService -> A) : keeps f (member g).
Proof. intros p. reflexivity. Qed.

Lemma keeps_bind {A B} (m : M Process A) (k : A -> M Process B) :
  keeps f m -> (forall a, keeps f (k a)) -> keeps f (bind m k).
Proof.
  intros Hm Hk p. unfold bind, state in *.
  specialize (Hm p). destruct (m p) as [[a p1] t1]. cbn in Hm.
  specialize (Hk a p1). destruct (k a p1) as [[b p2] t2]. cbn in *.
  congruence.
Qed.

Lemma keeps_assign (g : WitnessdTextService -> WitnessdTextService) :
  (forall p, f (set_this (g (this p)) p) = f p) -> keeps f (assign g).
Proof. intros H p. apply H. Qed.

End Frames.

Ltac keeps_step :=
  first
    [ apply keeps_ret | apply keeps_emit | apply keeps_member
    | apply keeps_bind; [|intros ?]
    | apply keeps_assign; intros [[] ? ?]; reflexivity
    | match goal with
      | |- Tsf.keeps _ (if ?c then _ else _) => destruct c
      | |- Tsf.keeps _ (match ?x with _ => _ end) => destruct x
      end ].

Section LifecycleFrames.
Context {E : WitnessdEngine}.
Import Tsf.

Lemma CleanupKeystrokeSink_keeps : keeps lifecycle_view CleanupKeystrokeSink.
Proof. unfold CleanupKeystrokeSink. repeat keeps_step. Qed.

Lemma CleanupThreadMgrEventSink_keeps (env : CleanupEnv) :
  keeps lifecycle_view (CleanupThreadMgrEventSink env).
Proof. unfold CleanupThreadMgrEventSink. repeat keeps_step. Qed.

Lemma CleanupTextEditSink_keeps (env : CleanupEnv) (pContext : ptr) :
  keeps lifecycle_view (CleanupTextEditSink env pContext).
Proof. unfold CleanupTextEditSink. repeat keeps_step. Qed.

Lemma CleanupSinks_keeps (env : CleanupEnv) :
  keeps lifecycle_view (CleanupSinks env).
Proof.
  unfold CleanupSinks.
  repeat first [ apply CleanupKeystrokeSink_keeps
               | apply CleanupThreadMgrEventSink_keeps
               | apply CleanupTextEditSink_keeps
               | keeps_step ].
Qed.

Lemma SetupKeystrokeSink_keeps (env : ActivateEnv) :
  keeps lifecycle_view (SetupKeystrokeSink env).
Proof. unfold SetupKeystrokeSink. repeat keeps_step. Qed.

Lemma SetupThreadMgrEventSink_keeps (env : ActivateEnv) :
  keeps lifecycle_view (SetupThreadMgrEventSink env).
Proof. unfold SetupThreadMgrEventSink. repeat keeps_step. Qed.

Lemma SetupSinks_keeps (env : ActivateEnv) :
  keeps lifecycle_view (SetupSinks env).
Proof.
  unfold SetupSinks.
  repeat first [ apply SetupKeystrokeSink_keeps
               | apply SetupThreadMgrEventSink_keeps
               | apply CleanupKeystrokeSink_keeps
               | keeps_step ].
Qed.

Lemma UpdateFocusInfo_keeps (env : FocusEnv) :
  keeps lifecycle_view (UpdateFocusInfo env).
Proof. unfold UpdateFocusInfo. repeat keeps_step. Qed.

End LifecycleFrames.

(** ** Activation and deactivation *)

Section Lifecycle.
Context {E : WitnessdEngine}.
Import Tsf.

Lemma Deactivate_inactive (env : CleanupEnv) (p : Process) :
  IsActivated p = false -> Deactivate env p = (S_OK, p, []).
Proof.
  unfold IsActivated, Deactivate, member. intros H. run_monad. now rewrite H.
Qed.

Lemma Deactivate_active (env : CleanupEnv) (p : Process) :
  IsActivated p = true ->
  let r := Deactivate env p in
  result r = S_OK /\
  IsActivated (state r) = false /\
  go (state r) =
    (if HasSession p then snd (WitnessdEndSession (go p)) else go p) /\
  exists rest,
    trace r =
    Go_HasActiveSession ::
    (if HasSession p then Go_EndSession :: rest else rest).
Proof.
  intros H r. subst r. unfold IsActivated in H. unfold HasSession.
  unfold Deactivate, member, go_call, assign. run_monad. rewrite H; cbn.
  destruct (WitnessdHasActiveSession (go p) =? 0) eqn:Ha; cbn.
  - pose proof (CleanupSinks_keeps env (set_go (go p) p)) as K.
    unfold lifecycle_view, state in K.
    destruct (CleanupSinks env (set_go (go p) p)) as [[[] p2] t2]; cbn in *.
    injection K as _ Kgo.
    destruct p2 as [[] ? ?]; cbn in *.
    repeat split; eauto.
    all: destruct (negb (_ =? nullptr)); cbn; eauto.
  - destruct (WitnessdEndSession (go p)) as [evidence e1]; cbn.
    destruct evidence; cbn.
    all: pose proof (CleanupSinks_keeps env (set_go e1 (set_go (go p) p))) as K;
      unfold lifecycle_view, state in K;
      destruct (CleanupSinks env (set_go e1 (set_go (go p) p)))
        as [[[] p2] t2]; cbn in *;
      injection K as _ Kgo;
      destruct p2 as [[] ? ?]; cbn in *.
    all: repeat split; eauto.
    all: destruct (negb (_ =? nullptr)); cbn; eauto.
Qed.

Lemma ActivateEx_active (env : ActivateEnv) (pThreadMgr : ptr)
  (tfClientId : Z) (dwFlags : DWORD) (p : Process) :
  IsActivated p = true ->
  ActivateEx env pThreadMgr tfClientId dwFlags p = (S_OK, p, []).
Proof.
  unfold IsActivated, ActivateEx, member. intros H. run_monad. now rewrite H.
Qed.

Lemma ActivateEx_inactive (env : ActivateEnv) (pThreadMgr : ptr)
  (tfClientId : Z) (dwFlags : DWORD) (p : Process) :
  IsActivated p = false ->
  let setup := SetupSinks env (with_arguments pThreadMgr tfClientId dwFlags p) in
  let r := ActivateEx env pThreadMgr tfClientId dwFlags p in
  if FAILED (result setup) then
    r = (result setup, state setup, trace setup)
  else
    let focus := UpdateFocusInfo (activate_focus env) (state setup) in
    let target := session_target (activate_focus env) (state focus) in
    result r = S_OK /\
    IsActivated (state r) = true /\
    go (state r) =
      snd (WitnessdStartSession (fst target) (snd target) (go p)) /\
    trace r =
      trace setup ++ trace focus ++
      [Go_StartSession (fst target) (snd target)].
Proof.
  intros H setup r. subst setup r. unfold IsActivated in H.
  destruct p as [svc h e]. destruct svc; cbn in H. subst.
  unfold with_arguments, ActivateEx, member, assign, go_call, session_target.
  run_monad. unfold set_this, set_go; cbn.
  match goal with |- context [SetupSinks env ?q] =>
    pose proof (SetupSinks_keeps env q) as K;
    destruct (SetupSinks env q) as [[hr p1] t1] end.
  unfold lifecycle_view, state in K; cbn in *. injection K as Kact Kgo.
  destruct (FAILED hr) eqn:Hf; cbn.
  - rewrite Deactivate_inactive by exact Kact. cbn. now rewrite app_nil_r.
  - match goal with |- context [UpdateFocusInfo ?fe ?q] =>
      pose proof (UpdateFocusInfo_keeps fe q) as K';
      destruct (UpdateFocusInfo fe q) as [[[] p2] t2] end.
    unfold lifecycle_view, state in K'; cbn in *. injection K' as _ Kgo'.
    destruct (WitnessdStartSession _ _ (go p2)) as [sid e'] eqn:Hstart; cbn.
    rewrite Kgo', Kgo in Hstart.
    destruct p2 as [[] ? ?]; cbn in *. rewrite Hstart. cbn.
    repeat split.
Qed.

Lemma lifecycle_view_with_arguments (pThreadMgr : ptr) (tfClientId : Z)
  (dwFlags : DWORD) (p : Process) :
  lifecycle_view (with_arguments pThreadMgr tfClientId dwFlags p) =
  lifecycle_view p.
Proof. destruct p as [[] ? ?]. reflexivity. Qed.

Lemma invariant_of_view (p q : Process) :
  lifecycle_view q = lifecycle_view p ->
  session_needs_activation p -> session_needs_activation q.
Proof.
  unfold lifecycle_view, session_needs_activation, HasSession.
  intros H. injection H as -> ->. auto.
Qed.

(** The assumption on the engine: ending a session leaves none active. *)
Hypothesis EndSession_closes :
  forall e, WitnessdHasActiveSession (snd (WitnessdEndSession e)) = 0.

Lemma Deactivate_closes (env : CleanupEnv) (p : Process) :
  session_needs_activation p ->
  let r := Deactivate env p in
  result r = S_OK /\
  IsActivated (state r) = false /\
  HasSession (state r) = false.
Proof.
  intros Hinv r. subst r. destruct (IsActivated p) eqn:Ha.
  - destruct (Deactivate_active env p Ha) as (Hr & Hact & Hgo & _).
    split; [exact Hr|]. split; [exact Hact|].
    unfold HasSession in *. rewrite Hgo.
    destruct (negb (WitnessdHasActiveSession (go p) =? 0)) eqn:Hs.
    + now rewrite EndSession_closes.
    + exact Hs.
  - rewrite (Deactivate_inactive env p Ha). cbn.
    split; [reflexivity|]. split; [exact Ha|].
    destruct (HasSession p) eqn:Hs; [|reflexivity].
    unfold IsActivated in Ha. rewrite (Hinv Hs) in Ha. discriminate.
Qed.

Lemma host_call_invariant (c : HostCall) (p : Process) :
  session_needs_activation p ->
  session_needs_activation (state (host_call c p)).
Proof.
  intros Hinv.
  assert (HA : forall env pThreadMgr tfClientId dwFlags,
    session_needs_activation
      (state (ActivateEx env pThreadMgr tfClientId dwFlags p))).
  { intros env pThreadMgr tfClientId dwFlags.
    destruct (IsActivated p) eqn:Ha.
    - now rewrite ActivateEx_active.
    - pose proof (ActivateEx_inactive env pThreadMgr tfClientId dwFlags p Ha)
        as H. cbv zeta in H.
      destruct (FAILED _).
      + rewrite H. cbn [state fst snd].
        apply (invariant_of_view p); [|exact Hinv].
        rewrite (SetupSinks_keeps env). apply lifecycle_view_with_arguments.
      + destruct H as (_ & Hact & _). intros _. exact Hact. }
  destruct c as [env pt id | env pt id fl | env]; cbn [host_call].
  - apply HA.
  - apply HA.
  - destruct (Deactivate_closes env p Hinv) as (_ & _ & Hs).
    intros Hs'. rewrite Hs in Hs'. discriminate.
Qed.

Lemma host_calls_invariant (cs : list HostCall) (p : Process) :
  session_needs_activation p ->
  session_needs_activation (state (host_calls cs p)).
Proof.
  revert p; induction cs as [|c cs IH]; intros p Hinv; [exact Hinv|].
  cbn [host_calls]. unfold bind, state.
  pose proof (host_call_invariant c p Hinv) as Hc. unfold state in Hc.
  destruct (host_call c p) as [[hr p1] t1]. cbn in Hc.
  specialize (IH p1 Hc). unfold state in IH.
  destruct (host_calls cs p1) as [[[] p2] t2]. exact IH.
Qed.

(** C4. Starting from a service that is not activated and an engine with
    no session, after any sequence of [Activate], [ActivateEx] and
    [Deactivate] calls, each activation with a thread manager that
    exists, a [Deactivate] returns S_OK and leaves the service
    not activated and the engine without an active session; if a session
    was open, ending it is the first thing [Deactivate] does after asking
    the engine; and a further [Deactivate] returns S_OK, changes nothing
    and calls nothing. *)
Theorem deactivate_leaves_no_session
  (cs : list HostCall) (env env' : CleanupEnv) (p : Process) :
  forallb live_call cs = true ->
  IsActivated p = false ->
  HasSession p = false ->
  let before := state (host_calls cs p) in
  let r := Deactivate env before in
  result r = S_OK /\
  IsActivated (state r) = false /\
  HasSession (state r) = false /\
  (HasSession before = true ->
   exists rest, trace r = Go_HasActiveSession :: Go_EndSession :: rest) /\
  Deactivate env' (state r) = (S_OK, state r, []).
Proof.
  intros _ Ha Hs before r.
  assert (Hinv : session_needs_activation before).
  { apply host_calls_invariant. intros Hs'. rewrite Hs in Hs'. discriminate. }
  destruct (Deactivate_closes env before Hinv) as (Hr & Hact & Hno).
  fold r in Hr, Hact, Hno.
  split; [exact Hr|]. split; [exact Hact|]. split; [exact Hno|]. split.
  - intros Hopen. pose proof (Hinv Hopen) as Hact'.
    destruct (Deactivate_active env before Hact') as (_ & _ & _ & rest & Ht).
    fold r in Ht. rewrite Hopen in Ht. now exists rest.
  - now apply Deactivate_inactive.
Qed.

End Lifecycle.

Lemma deactivate_leaves_no_session_witness :
  forallb Tsf.live_call activate_twice = true /\
  Tsf.IsActivated fresh_process = false /\
  Tsf.HasSession fresh_process = false /\
  Tsf.HasSession (state (Tsf.host_calls activate_twice fresh_process)) = true /\
  Tsf.HasSession
    (state (Tsf.Deactivate cleanup_ok
              (state (Tsf.host_calls activate_twice fresh_process)))) = false /\
  exists rest,
    trace (Tsf.Deactivate cleanup_ok
             (state (Tsf.host_calls activate_twice fresh_process))) =
    Go_HasActiveSession :: Go_EndSession :: rest.
Proof.
  pose proof (deactivate_leaves_no_session (E := flag_engine)
                (fun e => eq_refl) activate_twice cleanup_ok cleanup_ok
                fresh_process eq_refl eq_refl eq_refl) as H.
  cbv zeta in H. destruct H as (_ & _ & Hno & Hfirst & _).
  split; [reflexivity|].
  split; [reflexivity|]. split; [reflexivity|]. split; [reflexivity|].
  split; [exact Hno | exact (Hfirst eq_refl)].
Defined.

(** ** The enabled flag *)

Section EnabledFrames.
Context {E : WitnessdEngine}.
Import Tsf.

Lemma ignores_ret {A} (a : A) : ignores_enabled (ret a).
Proof. intros b p. reflexivity. Qed.

Lemma ignores_emit (c : Call) : ignores_enabled (emit c).
Proof. intros b p. reflexivity. Qed.

Lemma ignores_member {A} (g : WitnessdTextService -> A) :
  (forall b t, g (set_isEnabled_ b t) = g t) ->
  ignores_enabled (member g).
Proof.
  intros H b p. unfold member, gets. cbn. now rewrite H.
Qed.

Lemma ignores_assign (g : WitnessdTextService -> WitnessdTextService) :
  (forall b t, g (set_isEnabled_ b t) = set_isEnabled_ b (g t)) ->
  ignores_enabled (assign g).
Proof.
  intros H b p. unfold assign, modify. cbn. now rewrite H.
Qed.

Lemma ignores_go_call {A} (c : Call) (k : engine -> A * engine) :
  ignores_enabled (go_call c k).
Proof.
  intros b p. unfold go_call. cbn. now destruct (k (go p)).
Qed.

Lemma ignores_go_call_ (c : Call) (k : engine -> engine) :
  ignores_enabled (go_call_ c k).
Proof. intros b p. reflexivity. Qed.

Lemma ignores_bind {A B} (m : M Process A) (k : A -> M Process B) :
  ignores_enabled m -> (forall a, ignores_enabled (k a)) ->
  ignores_enabled (bind m k).
Proof.
  intros Hm Hk b p. unfold bind. rewrite Hm.
  destruct (m p) as [[a p1] t1]. rewrite Hk.
  now destruct (k a p1) as [[c p2] t2].
Qed.

End EnabledFrames.

Ltac ignores_step :=
  first
    [ apply ignores_ret | apply ignores_emit
    | apply ignores_go_call | apply ignores_go_call_
    | apply ignores_member; intros ? []; reflexivity
    | apply ignores_assign; intros ? []; reflexivity
    | apply ignores_bind; [|intros ?]
    | match goal with
      | |- Tsf.ignores_enabled (if ?c then _ else _) => destruct c
      | |- Tsf.ignores_enabled (match ?x with _ => _ end) => destruct x
      end ].

Section Enabled.
Context {E : WitnessdEngine}.
Import Tsf.

Lemma UpdateFocusInfo_ignores_enabled (env : FocusEnv) :
  ignores_enabled (UpdateFocusInfo env).
Proof. unfold UpdateFocusInfo. repeat ignores_step. Qed.

Lemma NotifyFocusChange_ignores_enabled (env : FocusEnv) :
  ignores_enabled (NotifyFocusChange env).
Proof. unfold NotifyFocusChange. repeat ignores_step. Qed.

Lemma OnSetFocus_ignores_enabled (env : FocusEnv) (fForeground : BOOL) :
  ignores_enabled (OnSetFocus env fForeground).
Proof.
  unfold OnSetFocus.
  repeat first [apply UpdateFocusInfo_ignores_enabled | ignores_step].
Qed.

Lemma CleanupSinks_ignores_enabled (env : CleanupEnv) :
  ignores_enabled (CleanupSinks env).
Proof.
  unfold CleanupSinks, CleanupKeystrokeSink, CleanupThreadMgrEventSink,
    CleanupTextEditSink.
  repeat ignores_step.
Qed.

Lemma SetupSinks_ignores_enabled (env : ActivateEnv) :
  ignores_enabled (SetupSinks env).
Proof.
  unfold SetupSinks, SetupKeystrokeSink, SetupThreadMgrEventSink,
    CleanupKeystrokeSink.
  repeat ignores_step.
Qed.

Lemma Deactivate_ignores_enabled (env : CleanupEnv) :
  ignores_enabled (Deactivate env).
Proof.
  unfold Deactivate.
  repeat first [apply CleanupSinks_ignores_enabled | ignores_step].
Qed.

Lemma ActivateEx_ignores_enabled (env : ActivateEnv) (pThreadMgr : ptr)
  (tfClientId : Z) (dwFlags : DWORD) :
  ignores_enabled (ActivateEx env pThreadMgr tfClientId dwFlags).
Proof.
  unfold ActivateEx.
  repeat first [ apply SetupSinks_ignores_enabled
               | apply Deactivate_ignores_enabled
               | apply UpdateFocusInfo_ignores_enabled
               | ignores_step ].
Qed.

Lemma OnSetFocus_DocumentMgr_ignores_enabled (env : DocFocusEnv)
  (pDocMgrFocus : ptr) :
  ignores_enabled (OnSetFocus_DocumentMgr env pDocMgrFocus).
Proof.
  unfold OnSetFocus_DocumentMgr, CleanupTextEditSink, SetupTextEditSink.
  repeat first [ apply UpdateFocusInfo_ignores_enabled
               | apply NotifyFocusChange_ignores_enabled
               | ignores_step ].
Qed.

(** C7. While the enabled flag is false, [OnKeyDown] and [OnKeyUp] return
    at once: no frame is written, no engine function is called, and the
    process (service, pipe handle, engine) is left exactly as it was.
    Focus tracking and the lifecycle neither read nor write the flag: both
    overloads of [OnSetFocus], [ActivateEx] and [Deactivate] do the same
    calls and reach the same state whatever the flag holds. *)
Theorem disabled_key_callbacks_are_noops
  (env : KeyEnv) (wParam lParam : Z) (p : Process) :
  IsEnabled p = false ->
  OnKeyDown env wParam lParam p = ((S_OK, FALSE), p, []) /\
  OnKeyUp env wParam lParam p = ((S_OK, FALSE), p, []) /\
  (forall fenv fForeground, ignores_enabled (OnSetFocus fenv fForeground)) /\
  (forall denv pDocMgrFocus,
     ignores_enabled (OnSetFocus_DocumentMgr denv pDocMgrFocus)) /\
  (forall aenv pThreadMgr tfClientId dwFlags,
     ignores_enabled (ActivateEx aenv pThreadMgr tfClientId dwFlags)) /\
  (forall cenv, ignores_enabled (Deactivate cenv)).
Proof.
  intros He.
  split; [now apply OnKeyDown_disabled|].
  split; [now apply OnKeyUp_disabled|].
  split; [intros; apply OnSetFocus_ignores_enabled|].
  split; [intros; apply OnSetFocus_DocumentMgr_ignores_enabled|].
  split; [intros; apply ActivateEx_ignores_enabled|].
  intros; apply Deactivate_ignores_enabled.
Qed.

End Enabled.

Lemma disabled_key_callbacks_are_noops_witness :
  Tsf.IsEnabled (Tsf.SetEnabled false fresh_process) = false /\
  Tsf.OnKeyDown (typing_env pipe_up) 0x41 lParam_A
                (Tsf.SetEnabled false fresh_process) =
    ((S_OK, FALSE), Tsf.SetEnabled false fresh_process, []).
Proof.
  split; [reflexivity|].
  exact (proj1 (disabled_key_callbacks_are_noops
                  (typing_env pipe_up) 0x41 lParam_A
                  (Tsf.SetEnabled false fresh_process) eq_refl)).
Defined.

(** ** Focus information and the session target *)

Section Focus.
Context {E : WitnessdEngine}.
Import Tsf.

Lemma UpdateFocusInfo_unchanged (env : FocusEnv) (p : Process) :
  GetForegroundWindow env = currentFocusWindow_ (this p) ->
  UpdateFocusInfo env p = (tt, p, []).
Proof.
  intros H. unfold UpdateFocusInfo, member. run_monad.
  now rewrite H, Z.eqb_refl.
Qed.

Lemma UpdateFocusInfo_changed (env : FocusEnv) (p : Process) :
  GetForegroundWindow env <> currentFocusWindow_ (this p) ->
  let after := this (state (UpdateFocusInfo env p)) in
  currentFocusWindow_ after = GetForegroundWindow env /\
  currentWindowTitle_ after =
    (if GetForegroundWindow env =? nullptr then [] else GetWindowTextW env) /\
  currentAppPath_ after =
    (if GetForegroundWindow env =? nullptr then []
     else if OpenProcess env =? nullptr then currentAppPath_ (this p)
     else match QueryFullProcessImageNameW env with
          | Some path => path
          | None => currentAppPath_ (this p)
          end).
Proof.
  intros H after. subst after. apply Z.eqb_neq in H.
  unfold UpdateFocusInfo, member, assign. run_monad. rewrite H; cbn.
  destruct p as [[] ? ?]; cbn.
  destruct (GetForegroundWindow env =? nullptr); cbn; [auto|].
  destruct (OpenProcess env =? nullptr); cbn; [auto|].
  destruct (QueryFullProcessImageNameW env); cbn; auto.
Qed.

Lemma UpdateFocusInfo_stores_handle (env : FocusEnv) (p : Process) :
  currentFocusWindow_ (this (state (UpdateFocusInfo env p))) =
  GetForegroundWindow env.
Proof.
  destruct (Z.eq_dec (GetForegroundWindow env) (currentFocusWindow_ (this p)))
    as [Heq | Hne].
  - rewrite (UpdateFocusInfo_unchanged env p Heq). now rewrite Heq.
  - apply (UpdateFocusInfo_changed env p Hne).
Qed.

Lemma WideToUTF8_empty (env : FocusEnv) : WideToUTF8 env [] = EmptyString.
Proof. reflexivity. Qed.

(** C6, as the code has it.  [UpdateFocusInfo] always leaves the stored
    window handle equal to the foreground window, and a change to a window
    without title stores the empty title.  [ActivateEx] on a service that
    is not activated and whose sinks register succeeds whatever the focus
    lookups answer, and starts the session with the stored application path
    and window title converted to UTF-8, where an empty application
    identifier is replaced by "windows.tsf" and an empty document
    identifier by "default". *)
Theorem activation_target_falls_back
  (env : ActivateEnv) (pThreadMgr : ptr) (tfClientId : Z) (dwFlags : DWORD)
  (p : Process) :
  IsActivated p = false ->
  let setup :=
    SetupSinks env (with_arguments pThreadMgr tfClientId dwFlags p) in
  FAILED (result setup) = false ->
  let fenv := activate_focus env in
  let focused := state (UpdateFocusInfo fenv (state setup)) in
  let r := ActivateEx env pThreadMgr tfClientId dwFlags p in
  (forall q, currentFocusWindow_ (this (state (UpdateFocusInfo fenv q))) =
             GetForegroundWindow fenv) /\
  (forall q, GetForegroundWindow fenv <> currentFocusWindow_ (this q) ->
             GetWindowTextW fenv = [] ->
             currentWindowTitle_ (this (state (UpdateFocusInfo fenv q))) = []) /\
  result r = S_OK /\
  IsActivated (state r) = true /\
  exists calls appId docId,
    trace r = calls ++ [Go_StartSession appId docId] /\
    (appId, docId) = session_target fenv focused /\
    (WideToUTF8 fenv (currentAppPath_ (this focused)) = EmptyString ->
     appId = "windows.tsf") /\
    (WideToUTF8 fenv (currentWindowTitle_ (this focused)) = EmptyString ->
     docId = "default") /\
    (currentAppPath_ (this focused) = [] -> appId = "windows.tsf") /\
    (currentWindowTitle_ (this focused) = [] -> docId = "default").
Proof.
  intros Ha setup Hok fenv focused r.
  pose proof (ActivateEx_inactive env pThreadMgr tfClientId dwFlags p Ha) as H.
  cbv zeta in H. fold setup in H. rewrite Hok in H.
  fold fenv in H. fold focused in H. fold r in H.
  destruct H as (Hr & Hact & _ & Ht).
  split; [intro q; apply UpdateFocusInfo_stores_handle|].
  split.
  { intros q Hne Htitle.
    destruct (UpdateFocusInfo_changed fenv q Hne) as (_ & -> & _).
    rewrite Htitle. now destruct (_ =? nullptr). }
  split; [exact Hr|]. split; [exact Hact|].
  exists (trace setup ++ trace (UpdateFocusInfo fenv (state setup))),
    (fst (session_target fenv focused)), (snd (session_target fenv focused)).
  split; [now rewrite Ht, app_assoc|].
  split; [now destruct (session_target fenv focused)|].
  unfold session_target; cbn [fst snd].
  split; [now intros ->|]. split; [now intros ->|].
  split; now intros ->.
Qed.

End Focus.

Lemma activation_target_falls_back_witness :
  Tsf.IsActivated fresh_process = false /\
  FAILED (result (Tsf.SetupSinks (activate_ok focus_unresolved)
                    (Tsf.with_arguments 0x5000 1 0 fresh_process))) = false /\
  result (Tsf.ActivateEx (activate_ok focus_unresolved) 0x5000 1 0
                         fresh_process) = S_OK.
Proof.
  split; [reflexivity|]. split; [reflexivity|].
  exact (proj1 (proj2 (proj2
    (activation_target_falls_back (activate_ok focus_unresolved) 0x5000 1 0
       fresh_process eq_refl eq_refl)))).
Defined.

(** C6 as stated fails.  For a foreground window with no title and a
    process that can not be opened, activation starts the session as
    "windows.tsf" / "default", not "unknown" / "default"; and the focus
    notification hands the engine two empty strings. *)
Lemma unresolved_focus_is_not_reported_as_unknown :
  GetWindowTextW focus_unresolved = [] /\
  OpenProcess focus_unresolved = nullptr /\
  trace (Tsf.ActivateEx (activate_ok focus_unresolved) 0x5000 1 0
                        fresh_process) =
    [Tsf_AdviseKeyEventSink 1; Tsf_AdviseSink S_OK;
     Go_StartSession "windows.tsf" "default"] /\
  Go_StartSession "windows.tsf" "default" <>
    Go_StartSession "unknown" "default" /\
  filter is_engine_call
    (trace (Tsf.OnSetFocus_DocumentMgr doc_focus_unresolved 0x6000
                                       fresh_process)) =
    [Go_OnFocusChange EmptyString EmptyString].
Proof.
  split; [reflexivity|]. split; [reflexivity|]. split; [reflexivity|].
  split; [discriminate | reflexivity].
Qed.

(** ** [Utf8FromUtf16] *)

Section Utf8FromUtf16.
Import Utils.
Variable max_size : Z.
Variable env : ConvertEnv.

Lemma Utf8FromUtf16_null :
  Utf8FromUtf16 max_size env None = (Returned EmptyString, []).
Proof. reflexivity. Qed.

(** Whatever is resized to passed the guard: it is positive and within
    [max_size]. *)
Lemma Utf8FromUtf16_resize_within_max_size (utf16_string : option wstring)
  (n : Z) :
  In (Resize n) (snd (Utf8FromUtf16 max_size env utf16_string)) ->
  0 < n <= max_size.
Proof.
  destruct utf16_string as [utf16|]; cbn; [|tauto].
  set (target_length := to_uint32 (WideCharToMultiByte_size env utf16 - 1)).
  assert (Hnn : 0 <= target_length)
    by (apply Z.mod_pos_bound; reflexivity).
  destruct (target_length =? 0) eqn:H0; cbn; [tauto|].
  destruct (target_length >? max_size) eqn:Hmax; cbn; [tauto|].
  apply Z.eqb_neq in H0. rewrite Z.gtb_ltb in Hmax. apply Z.ltb_ge in Hmax.
  destruct (allocate env target_length); cbn;
    [destruct (WideCharToMultiByte_convert _ _ _ _) as [len out];
     destruct (len =? 0); cbn|];
    intros [Hn | []]; injection Hn as <-; lia.
Qed.

(** When the first conversion call reports failure, the length wraps to
    [UINT_MAX]; the guard stops it exactly when [max_size] is smaller. *)
Lemma Utf8FromUtf16_failure_guard (utf16 : wstring) :
  WideCharToMultiByte_size env utf16 = 0 ->
  snd (Utf8FromUtf16 max_size env (Some utf16)) =
  if UINT_MAX <=? max_size then [Resize UINT_MAX] else [].
Proof.
  intros H. unfold Utf8FromUtf16. rewrite H.
  change (to_uint32 (0 - 1)) with 4294967295.
  change UINT_MAX with 4294967295.
  change (4294967295 =? 0) with false. cbn [orb].
  rewrite Z.gtb_ltb, Z.leb_antisym.
  destruct (max_size <? 4294967295); cbn; [reflexivity|].
  destruct (allocate env 4294967295); cbn; [|reflexivity].
  destruct (WideCharToMultiByte_convert _ _ _ _) as [len out].
  destruct (len =? 0); reflexivity.
Qed.

End Utf8FromUtf16.

(** C9 on a 64-bit build.  For a string the conversion rejects, the
    wrapped length 4294967295 is below [max_size()] and passes the guard:
    the string is resized to it before the second call fails and the empty
    string is returned, or [std::bad_alloc] leaves the function when the
    4 GiB are not available.  The null pointer does return the empty
    string. *)
Theorem Utf8FromUtf16_wrapped_length_passes_guard_64 :
  Utils.Utf8FromUtf16 Utils.max_size_64 (rejecting true) (Some lone_surrogate) =
    (Utils.Returned EmptyString, [Utils.Resize 4294967295]) /\
  Utils.Utf8FromUtf16 Utils.max_size_64 (rejecting false)
                      (Some lone_surrogate) =
    (Utils.Thrown_bad_alloc, [Utils.Resize 4294967295]) /\
  Utils.Utf8FromUtf16 Utils.max_size_64 (rejecting true) None =
    (Utils.Returned EmptyString, []).
Proof.
  repeat split.
Qed.

(** ** Who touches the pipe *)

Section PipeFrames.
Context {E : WitnessdEngine}.
Import Tsf.

Lemma alone_ret {A} (a : A) : leaves_pipe_alone (ret a).
Proof. intros p. split; reflexivity. Qed.

Lemma alone_emit (c : Call) :
  is_pipe_call c = false -> leaves_pipe_alone (emit c).
Proof. intros H p. split; [reflexivity|]. cbn. now rewrite H. Qed.

Lemma alone_member {A} (g : WitnessdTextService -> A) :
  leaves_pipe_alone (member g).
Proof. intros p. split; reflexivity. Qed.

Lemma alone_assign (g : WitnessdTextService -> WitnessdTextService) :
  leaves_pipe_alone (assign g).
Proof. intros p. split; reflexivity. Qed.

Lemma alone_go_call {A} (c : Call) (k : engine -> A * engine) :
  is_pipe_call c = false -> leaves_pipe_alone (go_call c k).
Proof.
  intros H p. unfold go_call, state, trace.
  destruct (k (go p)) as [a e]. cbn. now rewrite H.
Qed.

Lemma alone_go_call_ (c : Call) (k : engine -> engine) :
  is_pipe_call c = false -> leaves_pipe_alone (go_call_ c k).
Proof. intros H p. split; [reflexivity|]. cbn. now rewrite H. Qed.

Lemma alone_bind {A B} (m : M Process A) (k : A -> M Process B) :
  leaves_pipe_alone m -> (forall a, leaves_pipe_alone (k a)) ->
  leaves_pipe_alone (bind m k).
Proof.
  intros Hm Hk p. unfold bind, state, trace in *.
  destruct (Hm p) as [Hh Ht]. destruct (m p) as [[a p1] t1]. cbn in Hh, Ht.
  destruct (Hk a p1) as [Hh' Ht']. destruct (k a p1) as [[b p2] t2].
  cbn in *. split; [congruence|].
  now rewrite filter_app, Ht, Ht'.
Qed.

End PipeFrames.

Ltac alone_step :=
  first
    [ apply alone_ret | apply alone_member | apply alone_assign
    | apply alone_emit; reflexivity
    | apply alone_go_call; reflexivity
    | apply alone_go_call_; reflexivity
    | apply alone_bind; [|intros ?]
    | match goal with
      | |- Tsf.leaves_pipe_alone (if ?c then _ else _) => destruct c
      | |- Tsf.leaves_pipe_alone (match ?x with _ => _ end) => destruct x
      end ].

Section Reconnection.
Context {E : WitnessdEngine}.
Import Tsf.

Lemma UpdateFocusInfo_leaves_pipe_alone (env : FocusEnv) :
  leaves_pipe_alone (UpdateFocusInfo env).
Proof. unfold UpdateFocusInfo. repeat alone_step. Qed.

Lemma OnSetFocus_leaves_pipe_alone (env : FocusEnv) (fForeground : BOOL) :
  leaves_pipe_alone (OnSetFocus env fForeground).
Proof.
  unfold OnSetFocus.
  repeat first [apply UpdateFocusInfo_leaves_pipe_alone | alone_step].
Qed.

Lemma OnSetFocus_DocumentMgr_leaves_pipe_alone (env : DocFocusEnv)
  (pDocMgrFocus : ptr) :
  leaves_pipe_alone (OnSetFocus_DocumentMgr env pDocMgrFocus).
Proof.
  unfold OnSetFocus_DocumentMgr, CleanupTextEditSink, SetupTextEditSink,
    NotifyFocusChange.
  repeat first [apply UpdateFocusInfo_leaves_pipe_alone | alone_step].
Qed.

Lemma Deactivate_leaves_pipe_alone (env : CleanupEnv) :
  leaves_pipe_alone (Deactivate env).
Proof.
  unfold Deactivate, CleanupSinks, CleanupKeystrokeSink,
    CleanupThreadMgrEventSink, CleanupTextEditSink.
  repeat alone_step.
Qed.

Lemma ActivateEx_leaves_pipe_alone (env : ActivateEnv) (pThreadMgr : ptr)
  (tfClientId : Z) (dwFlags : DWORD) :
  leaves_pipe_alone (ActivateEx env pThreadMgr tfClientId dwFlags).
Proof.
  unfold ActivateEx, SetupSinks, SetupKeystrokeSink, SetupThreadMgrEventSink,
    CleanupKeystrokeSink.
  repeat first [ apply Deactivate_leaves_pipe_alone
               | apply UpdateFocusInfo_leaves_pipe_alone
               | alone_step ].
Qed.

Lemma host_call_leaves_pipe_alone (c : HostCall) :
  leaves_pipe_alone (host_call c).
Proof.
  destruct c; cbn [host_call]; unfold Activate;
    auto using ActivateEx_leaves_pipe_alone, Deactivate_leaves_pipe_alone.
Qed.

(** C3. A write is attempted only on a valid (connected) handle; a failed
    write leaves the channel disconnected; a send that finds the channel
    disconnected makes exactly one connect attempt, first, and writes only if
    that attempt produced a handle; no send connects or writes more than
    once, and a send on a connected channel does not connect at all.  In
    particular the send that follows a failed write starts with its one
    connect attempt.  Nothing reconnects in between: activation,
    deactivation, focus callbacks and the callbacks that only test a key
    neither connect nor write and leave the handle as it is. *)
Theorem send_connects_once_and_disconnects_on_failure
  (env : PipeEnv) (vk sc fl ts : Z) (d : bool) (p : Process) :
  let r := WritePipe env vk sc fl ts d p in
  let frame := msg_bytes (fill_msg vk sc fl ts d) in
  let connect := Sys_CreateFileW (pipeName env) (CreateFileW env) in
  (forall h buffer ok, In (Sys_WriteFile h buffer ok) (trace r) ->
     h <> INVALID_HANDLE_VALUE /\
     h = (if Connected p then g_hPipe p else CreateFileW env)) /\
  (existsb is_failed_write (trace r) = true -> Connected (state r) = false) /\
  (Connected p = false ->
     exists rest, trace r = connect :: rest /\
       connect_attempts rest = 0%nat /\
       filter is_write rest =
         if CreateFileW env =? INVALID_HANDLE_VALUE then []
         else [Sys_WriteFile (CreateFileW env) frame (WriteFile env)]) /\
  (Connected p = true ->
     connect_attempts (trace r) = 0%nat /\
     filter is_write (trace r) =
       [Sys_WriteFile (g_hPipe p) frame (WriteFile env)]) /\
  (connect_attempts (trace r) <= 1)%nat /\
  (write_attempts (trace r) <= 1)%nat /\
  (Connected p = true -> WriteFile env = false ->
   forall env' vk' sc' fl' ts' d',
     exists rest,
       trace (WritePipe env' vk' sc' fl' ts' d' (state r)) =
         Sys_CreateFileW (pipeName env') (CreateFileW env') :: rest /\
       connect_attempts rest = 0%nat) /\
  ((forall c, leaves_pipe_alone (host_call c)) /\
   (forall fenv fForeground, leaves_pipe_alone (OnSetFocus fenv fForeground)) /\
   (forall denv pDocMgrFocus,
      leaves_pipe_alone (OnSetFocus_DocumentMgr denv pDocMgrFocus)) /\
   (forall wParam lParam, leaves_pipe_alone (OnTestKeyDown wParam lParam)) /\
   (forall wParam lParam, leaves_pipe_alone (OnTestKeyUp wParam lParam)) /\
   leaves_pipe_alone OnPreservedKey).
Proof.
  intros r frame connect. subst r frame connect.
  split; [|split; [|split; [|split; [|split; [|split; [|split]]]]]].
  - intros h buffer ok.
    WritePipe_by_cases env p; intuition; try congruence;
      match goal with H : Sys_WriteFile _ _ _ = Sys_WriteFile _ _ _ |- _ =>
        injection H as <- _ _ end;
      try reflexivity;
      match goal with H : (_ =? _) = false |- _ =>
        apply Z.eqb_neq in H; contradiction end.
  - WritePipe_by_cases env p; try discriminate; intros _; unfold Connected;
      cbn; now rewrite ?Z.eqb_refl.
  - intros Hd. WritePipe_by_cases env p; try discriminate;
      eexists; (split; [reflexivity|]); split; reflexivity.
  - intros Hd. WritePipe_by_cases env p; try discriminate; split; reflexivity.
  - WritePipe_by_cases env p; unfold connect_attempts; cbn; lia.
  - WritePipe_by_cases env p; unfold write_attempts; cbn; lia.
  - intros Hc Hw env' vk' sc' fl' ts' d'.
    assert (Hs : Connected (state (WritePipe env vk sc fl ts d p)) = false).
    { rewrite WritePipe_cases, Hc, Hw. unfold Connected; cbn.
      now rewrite Z.eqb_refl. }
    rewrite (WritePipe_cases env'), Hs.
    destruct (CreateFileW env' =? INVALID_HANDLE_VALUE);
      [|destruct (WriteFile env')]; eexists; split; reflexivity.
  - split; [exact host_call_leaves_pipe_alone|].
    split; [exact OnSetFocus_leaves_pipe_alone|].
    split; [exact OnSetFocus_DocumentMgr_leaves_pipe_alone|].
    split; [intros; apply alone_ret|].
    split; [intros; apply alone_ret|]. apply alone_ret.
Qed.

End Reconnection.

Lemma send_connects_once_and_disconnects_on_failure_witness :
  (Tsf.Connected fresh_process = false /\
   exists rest,
     trace (Tsf.WritePipe pipe_up 0x41 0x1E 0 1234567890 true fresh_process) =
       Sys_CreateFileW (Tsf.pipeName pipe_up) 100 :: rest /\
     connect_attempts rest = 0%nat /\
     filter is_write rest =
       [Sys_WriteFile 100 (encodeKeystroke key_A_event) true]) /\
  (Tsf.Connected connected_process = true /\
   connect_attempts
     (trace (Tsf.WritePipe pipe_broken 0x41 0x1E 0 1234567890 true
                           connected_process)) = 0%nat /\
   WriteFile pipe_broken = false /\
   Tsf.Connected
     (state (Tsf.WritePipe pipe_broken 0x41 0x1E 0 1234567890 true
                           connected_process)) = false /\
   forall env' vk' sc' fl' ts' d',
     exists rest,
       trace (Tsf.WritePipe env' vk' sc' fl' ts' d'
                (state (Tsf.WritePipe pipe_broken 0x41 0x1E 0 1234567890 true
                                      connected_process))) =
         Sys_CreateFileW (Tsf.pipeName env') (CreateFileW env') :: rest /\
       connect_attempts rest = 0%nat).
Proof.
  pose proof (send_connects_once_and_disconnects_on_failure
                pipe_up 0x41 0x1E 0 1234567890 true fresh_process) as Hfresh.
  pose proof (send_connects_once_and_disconnects_on_failure
                pipe_broken 0x41 0x1E 0 1234567890 true connected_process)
    as Hbroken.
  cbv zeta in Hfresh, Hbroken.
  destruct Hfresh as (_ & _ & Hconnect & _).
  destruct Hbroken as (_ & Hfail & _ & Hquiet & _ & _ & Hnext & _).
  split; [split; [reflexivity | exact (Hconnect eq_refl)]|].
  split; [reflexivity|]. split; [exact (proj1 (Hquiet eq_refl))|].
  split; [reflexivity|].
  split; [exact (Hfail eq_refl) | exact (Hnext eq_refl eq_refl)].
Defined.

(** * Further properties of the sources *)

(** ** Focus tracking *)

Section FocusTracking.
Context {E : WitnessdEngine}.
Import Tsf.

(** A focus update for the window already stored does nothing, whatever
    else changed: a new title in the same window is not picked up. *)
Theorem UpdateFocusInfo_same_window_is_ignored
  (env env' : FocusEnv) (p : Process) :
  GetForegroundWindow env' = GetForegroundWindow env ->
  let once := state (UpdateFocusInfo env p) in
  UpdateFocusInfo env' once = (tt, once, []).
Proof.
  intros H once. apply UpdateFocusInfo_unchanged.
  subst once. now rewrite UpdateFocusInfo_stores_handle.
Qed.

(** On a change to another window: the null window clears title and
    application path; any other window takes the title as read, and keeps
    the application path of the previous window when the owning process
    can not be opened or its image name can not be queried. *)
Theorem UpdateFocusInfo_on_window_change (env : FocusEnv) (p : Process) :
  GetForegroundWindow env <> currentFocusWindow_ (this p) ->
  let after := this (state (UpdateFocusInfo env p)) in
  (GetForegroundWindow env = nullptr ->
   currentWindowTitle_ after = [] /\ currentAppPath_ after = []) /\
  (GetForegroundWindow env <> nullptr ->
   currentWindowTitle_ after = GetWindowTextW env /\
   (OpenProcess env = nullptr \/ QueryFullProcessImageNameW env = None ->
    currentAppPath_ after = currentAppPath_ (this p)) /\
   (forall path, OpenProcess env <> nullptr ->
      QueryFullProcessImageNameW env = Some path ->
      currentAppPath_ after = path)).
Proof.
  intros Hne after.
  destruct (UpdateFocusInfo_changed env p Hne) as (_ & Ht & Hp).
  fold after in Ht, Hp. split.
  - intros H0. rewrite Ht, Hp, H0. now split.
  - intros H0. apply Z.eqb_neq in H0. rewrite Ht, Hp, H0.
    split; [reflexivity|]. split.
    + intros [Ho | Hq].
      * now rewrite Ho.
      * rewrite Hq. now destruct (OpenProcess env =? nullptr).
    + intros path Ho Hq. apply Z.eqb_neq in Ho. now rewrite Ho, Hq.
Qed.

Lemma filled_length (n : nat) (out : string) :
  String.length (filled n out) = n.
Proof.
  revert out; induction n as [|n IH]; intros out; [reflexivity|].
  cbn. destruct out; cbn; now rewrite IH.
Qed.

Lemma filled_exact (out : string) : filled (String.length out) out = out.
Proof.
  induction out as [|c out IH]; [reflexivity|]. cbn. now rewrite IH.
Qed.

(** [WideToUTF8] returns the empty string for the empty string and when
    the size query answers 0 or less; otherwise its result has exactly the
    queried size less the terminator, and is the converted text when the
    conversion wrote that many bytes. *)
Theorem WideToUTF8_size (env : FocusEnv) (wide : wstring) :
  let len := fst (WideCharToMultiByte env wide) in
  String.length (WideToUTF8 env wide) =
    (if (Nat.eqb (List.length wide) 0) || (len <=? 0) then 0%nat
     else Z.to_nat (len - 1)) /\
  (forall out, wide <> [] ->
     WideCharToMultiByte env wide =
       (Z.of_nat (String.length out) + 1, out) ->
     WideToUTF8 env wide = out).
Proof.
  intros len. subst len. unfold WideToUTF8. split.
  - destruct wide as [|c wide]; [reflexivity|].
    destruct (WideCharToMultiByte env (c :: wide)) as [len out]. cbn.
    destruct (len <=? 0); [reflexivity|]. apply filled_length.
  - intros out Hne H. destruct wide as [|c wide]; [congruence|].
    rewrite H.
    replace (Z.of_nat (String.length out) + 1 <=? 0) with false
      by (symmetry; apply Z.leb_gt; lia).
    replace (Z.of_nat (String.length out) + 1 - 1)
      with (Z.of_nat (String.length out)) by lia.
    rewrite Nat2Z.id. apply filled_exact.
Qed.

End FocusTracking.

(** ** Sinks and the lifecycle *)

Section CallFrames.
Context {E : WitnessdEngine}.
Import Tsf.
Variable P : Call -> bool.

Lemma only_ret {A} (a : A) : emits_only P (ret a).
Proof. intros p c []. Qed.

Lemma only_member {A} (g : WitnessdTextService -> A) :
  emits_only P (member g).
Proof. intros p c []. Qed.

Lemma only_assign (g : WitnessdTextService -> WitnessdTextService) :
  emits_only P (assign g).
Proof. intros p c []. Qed.

Lemma only_emit (c : Call) : P c = true -> emits_only P (emit c).
Proof. intros H p c' [<- | []]. exact H. Qed.

Lemma only_go_call {A} (c : Call) (k : engine -> A * engine) :
  P c = true -> emits_only P (go_call c k).
Proof.
  intros H p c'. unfold go_call, trace. destruct (k (go p)).
  intros [<- | []]. exact H.
Qed.

Lemma only_go_call_ (c : Call) (k : engine -> engine) :
  P c = true -> emits_only P (go_call_ c k).
Proof. intros H p c' [<- | []]. exact H. Qed.

Lemma only_bind {A B} (m : M Process A) (k : A -> M Process B) :
  emits_only P m -> (forall a, emits_only P (k a)) ->
  emits_only P (bind m k).
Proof.
  intros Hm Hk p c. unfold bind, trace.
  specialize (Hm p). unfold trace in Hm.
  destruct (m p) as [[a p1] t1].
  specialize (Hk a p1). unfold trace in Hk.
  destruct (k a p1) as [[b p2] t2]. cbn in *.
  rewrite in_app_iff. intros [H | H]; auto.
Qed.

End CallFrames.

Ltac only_step :=
  first
    [ apply only_ret | apply only_member | apply only_assign
    | apply only_emit; reflexivity
    | apply only_go_call; reflexivity
    | apply only_go_call_; reflexivity
    | apply only_bind; [|intros ?]
    | match goal with
      | |- Tsf.emits_only _ (if ?c then _ else _) => destruct c
      | |- Tsf.emits_only _ (match ?x with _ => _ end) => destruct x
      end ].

Ltac use_known_ifs :=
  repeat match goal with
         | H : ?c = true |- context [if ?c then _ else _] => rewrite H
         | H : ?c = false |- context [if ?c then _ else _] => rewrite H
         end.

Ltac case_if :=
  match goal with
  | |- context [if ?c then _ else _] => destruct c eqn:?
  end.

Ltac bools_to_props :=
  rewrite ?andb_false_iff, ?andb_true_iff, ?negb_true_iff, ?negb_false_iff,
    ?Z.eqb_eq, ?Z.eqb_neq in *.

Ltac split_ifs := repeat (cbn; use_known_ifs; cbn; try case_if).

Section SinksAndLifecycle.
Context {E : WitnessdEngine}.
Import Tsf.

Lemma SetupSinks_keeps_arguments (env : ActivateEnv) :
  keeps (fun p => (threadMgr_ (this p), clientId_ (this p),
                   activateFlags_ (this p), isEnabled_ (this p)))
        (SetupSinks env).
Proof.
  unfold SetupSinks, SetupKeystrokeSink, SetupThreadMgrEventSink,
    CleanupKeystrokeSink.
  repeat keeps_step.
Qed.

Lemma SetupSinks_only_sink_calls (env : ActivateEnv) :
  emits_only is_sink_call (SetupSinks env).
Proof.
  unfold SetupSinks, SetupKeystrokeSink, SetupThreadMgrEventSink,
    CleanupKeystrokeSink.
  repeat only_step.
Qed.

Lemma CleanupSinks_only_sink_calls (env : CleanupEnv) :
  emits_only is_sink_call (CleanupSinks env).
Proof.
  unfold CleanupSinks, CleanupKeystrokeSink, CleanupThreadMgrEventSink,
    CleanupTextEditSink.
  repeat only_step.
Qed.

Lemma UpdateFocusInfo_only_closes (env : FocusEnv) :
  emits_only (fun c => match c with Sys_CloseHandle _ => true | _ => false end)
             (UpdateFocusInfo env).
Proof. unfold UpdateFocusInfo. repeat only_step. Qed.

Lemma filter_nil_of_emits_only {A} (P Q : Call -> bool) (m : M Process A)
  (p : Process) :
  emits_only P m -> (forall c, P c = true -> Q c = false) ->
  filter Q (trace (m p)) = [].
Proof.
  intros Hm HPQ. apply filter_nil_of_all_false. intros c Hc.
  apply HPQ. now apply (Hm p).
Qed.

(** With a thread manager at hand, [SetupSinks] either registers both
    sinks, returns S_OK and holds the keystroke manager it was given, or
    fails; and when it fails after the keystroke manager was obtained, the
    service holds no keystroke manager afterwards, the key sink having been
    unadvised if it had been advised. *)
Theorem SetupSinks_registers_both_or_none (env : ActivateEnv) (p : Process) :
  threadMgr_ (this p) <> nullptr ->
  let r := SetupSinks env p in
  let clientId := clientId_ (this p) in
  (FAILED (result r) = false ->
   result r = S_OK /\
   keystrokeMgr_ (this (state r)) = snd (QueryInterface_ITfKeystrokeMgr env) /\
   trace r =
     [Tsf_AdviseKeyEventSink clientId; Tsf_AdviseSink (fst (AdviseSink env))]) /\
  (FAILED (result r) = true ->
   FAILED (fst (QueryInterface_ITfKeystrokeMgr env)) = false ->
   keystrokeMgr_ (this (state r)) = nullptr /\
   (FAILED (AdviseKeyEventSink env) = false ->
    snd (QueryInterface_ITfKeystrokeMgr env) <> nullptr ->
    exists calls,
      trace r = Tsf_AdviseKeyEventSink clientId :: calls ++
                [Tsf_UnadviseKeyEventSink clientId])).
Proof.
  intros Hmgr r clientId. subst r clientId. apply Z.eqb_neq in Hmgr.
  unfold SetupSinks, SetupKeystrokeSink, SetupThreadMgrEventSink,
    CleanupKeystrokeSink, member, assign.
  run_monad. destruct p as [[] ? ?]. cbn in *.
  destruct (QueryInterface_ITfKeystrokeMgr env) as [hr1 mgr].
  destruct (AdviseSink env) as [hr4 cookie].
  destruct cookie as [c|].
  all: split_ifs.
  all: split; intros; try discriminate; try congruence.
  all: try (split; [reflexivity|]); try (split; [reflexivity|]).
  all: try reflexivity.
  all: try (intros; try congruence).
  all: try (match goal with H : negb (?m =? nullptr) = false |- _ =>
              apply negb_false_iff, Z.eqb_eq in H end).
  all: try (split; [assumption || reflexivity|]; intros).
  all: try contradiction.
  all: try (now exists []).
  all: try (eexists [_]; reflexivity).
Qed.

(** When the sinks can not be set up for the thread manager it was given,
    [ActivateEx] returns the failure,
    starts no session and leaves the service not activated; the cleanup it
    attempts is a [Deactivate] that returns at once, so the thread manager,
    client id and flags just stored stay in the object. *)
Theorem ActivateEx_failure_leaves_arguments_stored
  (env : ActivateEnv) (pThreadMgr : ptr) (tfClientId : Z) (dwFlags : DWORD)
  (p : Process) :
  pThreadMgr <> nullptr ->
  IsActivated p = false ->
  let setup :=
    SetupSinks env (with_arguments pThreadMgr tfClientId dwFlags p) in
  FAILED (result setup) = true ->
  let r := ActivateEx env pThreadMgr tfClientId dwFlags p in
  result r = result setup /\
  IsActivated (state r) = false /\
  go (state r) = go p /\
  filter is_engine_call (trace r) = [] /\
  threadMgr_ (this (state r)) = pThreadMgr /\
  clientId_ (this (state r)) = tfClientId /\
  activateFlags_ (this (state r)) = dwFlags.
Proof.
  intros _ Ha setup Hf r.
  pose proof (ActivateEx_inactive env pThreadMgr tfClientId dwFlags p Ha) as H.
  cbv zeta in H. fold setup in H. rewrite Hf in H. fold r in H. rewrite H.
  cbn [result state trace fst snd].
  pose proof (SetupSinks_keeps env
                (with_arguments pThreadMgr tfClientId dwFlags p)) as K.
  rewrite lifecycle_view_with_arguments in K. unfold lifecycle_view in K.
  fold setup in K. injection K as Kact Kgo.
  pose proof (SetupSinks_keeps_arguments env
                (with_arguments pThreadMgr tfClientId dwFlags p)) as K'.
  cbv beta in K'. fold setup in K'.
  split; [reflexivity|].
  split; [unfold IsActivated in *; now rewrite Kact|]. split; [exact Kgo|].
  split.
  { apply (filter_nil_of_emits_only is_sink_call);
      [apply SetupSinks_only_sink_calls | now intros []]. }
  injection K' as -> -> -> _. destruct p as [[] ? ?]. repeat split.
Qed.

Lemma CleanupSinks_effect (env : CleanupEnv) (p : Process) :
  let r := CleanupSinks env p in
  let after := this (state r) in
  (keystrokeMgr_ after = nullptr /\ currentDocMgr_ after = nullptr /\
   currentContext_ after = nullptr) /\
  (threadMgr_ (this p) <> nullptr ->
   threadMgrEventSinkCookie_ after = TF_INVALID_COOKIE) /\
  (currentContext_ (this p) <> nullptr ->
   textEditSinkCookie_ after = TF_INVALID_COOKIE) /\
  (keystrokeMgr_ (this p) <> nullptr ->
   In (Tsf_UnadviseKeyEventSink (clientId_ (this p))) (trace r)) /\
  (g_hPipe (state r) = g_hPipe p /\ go (state r) = go p /\
   isEnabled_ after = isEnabled_ (this p) /\
   currentFocusWindow_ after = currentFocusWindow_ (this p) /\
   currentAppPath_ after = currentAppPath_ (this p) /\
   currentWindowTitle_ after = currentWindowTitle_ (this p)).
Proof.
  intros r after. subst after r.
  unfold CleanupSinks, CleanupKeystrokeSink, CleanupThreadMgrEventSink,
    CleanupTextEditSink, member, assign.
  run_monad. destruct p as [[] ? ?]. cbn in *.
  split_ifs.
  all: bools_to_props.
  all: repeat match goal with
              | |- _ /\ _ => split
              | |- _ -> _ => intros
              end.
  all: try reflexivity; try assumption; try tauto.
  all: try (symmetry; assumption).
  all: try (cbn; tauto).
Qed.

(** [Deactivate] on an activated service gives up the thread manager,
    the keystroke manager, the document manager and the context, resets the
    client id and invalidates the cookies of the sinks it could reach; a
    key sink that was registered is unadvised under the client id held
    before the reset.  The pipe handle, the enabled flag and the focus
    information survive deactivation. *)
Theorem Deactivate_releases_the_sinks (env : CleanupEnv) (p : Process) :
  IsActivated p = true ->
  let r := Deactivate env p in
  let after := this (state r) in
  (threadMgr_ after = nullptr /\ keystrokeMgr_ after = nullptr /\
   currentDocMgr_ after = nullptr /\ currentContext_ after = nullptr /\
   clientId_ after = 0 /\ isActivated_ after = false) /\
  (threadMgr_ (this p) <> nullptr ->
   threadMgrEventSinkCookie_ after = TF_INVALID_COOKIE) /\
  (currentContext_ (this p) <> nullptr ->
   textEditSinkCookie_ after = TF_INVALID_COOKIE) /\
  (keystrokeMgr_ (this p) <> nullptr ->
   In (Tsf_UnadviseKeyEventSink (clientId_ (this p))) (trace r)) /\
  (g_hPipe (state r) = g_hPipe p /\
   isEnabled_ after = isEnabled_ (this p) /\
   currentFocusWindow_ after = currentFocusWindow_ (this p) /\
   currentAppPath_ after = currentAppPath_ (this p) /\
   currentWindowTitle_ after = currentWindowTitle_ (this p)).
Proof.
  intros Ha r after. subst after r. unfold IsActivated in Ha.
  unfold Deactivate, member, assign, go_call.
  run_monad. rewrite Ha. cbn.
  destruct (WitnessdHasActiveSession (go p) =? 0); cbn;
    [|destruct (WitnessdEndSession (go p)) as [[evidence|] e1]; cbn].
  all: match goal with |- context [CleanupSinks ?e ?q] =>
         pose proof (CleanupSinks_effect e q) as K; cbv zeta in K;
         unfold state, trace in K;
         destruct (CleanupSinks e q) as [[[] p2] t2]
       end; cbn in *.
  all: destruct K as ((K1 & K2 & K3) & K4 & K5 & K6 & K7 & K8 & K9 & K10
                      & K11 & K12).
  all: destruct p2 as [[] ? ?]; cbn in *.
  all: split_ifs.
  all: repeat match goal with
              | |- _ /\ _ => split
              | |- _ -> _ => intros
              end.
  all: bools_to_props.
  all: try reflexivity; try assumption; auto.
  all: rewrite ?app_nil_r; cbn; intuition auto.
Qed.

End SinksAndLifecycle.

(** ** Session calls over the life of the service *)

Section SessionCalls.
Context {E : WitnessdEngine}.
Import Tsf.

Lemma sessions_filter (pending : bool) (t : list Call) :
  sessions pending (filter is_session_call t) = sessions pending t.
Proof.
  revert pending; induction t as [|c t IH]; intros pending; [reflexivity|].
  destruct c; cbn; rewrite ?IH; reflexivity.
Qed.

Lemma sessions_app (pending : bool) (t1 t2 : list Call) :
  sessions pending (t1 ++ t2) =
  match sessions pending t1 with
  | Some pending' => sessions pending' t2
  | None => None
  end.
Proof.
  revert pending; induction t1 as [|c t1 IH]; intros pending; [reflexivity|].
  destruct c; cbn; rewrite ?IH; try reflexivity.
  destruct pending; auto.
Qed.

Lemma Deactivate_session_calls (env : CleanupEnv) (p : Process) :
  filter is_session_call (trace (Deactivate env p)) =
  if IsActivated p && HasSession p then [Go_EndSession] else [].
Proof.
  destruct (IsActivated p) eqn:Ha;
    [|now rewrite (Deactivate_inactive env p Ha)].
  unfold IsActivated in Ha. unfold HasSession.
  unfold Deactivate, member, assign, go_call.
  run_monad. rewrite Ha. cbn.
  destruct (WitnessdHasActiveSession (go p) =? 0); cbn;
    [|destruct (WitnessdEndSession (go p)) as [[evidence|] e1]; cbn].
  all: match goal with |- context [CleanupSinks ?e ?q] =>
         pose proof (filter_nil_of_emits_only is_sink_call is_session_call
                       (CleanupSinks e) q (CleanupSinks_only_sink_calls e))
           as K;
         unfold trace in K;
         destruct (CleanupSinks e q) as [[[] p2] t2]
       end; cbn in *.
  all: destruct (negb (threadMgr_ (this p2) =? nullptr)); cbn.
  all: rewrite ?filter_app, K by (now intros []); reflexivity.
Qed.

Lemma ActivateEx_session_calls (env : ActivateEnv) (pThreadMgr : ptr)
  (tfClientId : Z) (dwFlags : DWORD) (p : Process) :
  let r := ActivateEx env pThreadMgr tfClientId dwFlags p in
  filter is_session_call (trace r) = [] /\
    lifecycle_view (state r) = lifecycle_view p \/
  (exists appId docId,
     filter is_session_call (trace r) = [Go_StartSession appId docId]) /\
    IsActivated p = false /\ IsActivated (state r) = true.
Proof.
  intros r. subst r. destruct (IsActivated p) eqn:Ha.
  { left. now rewrite ActivateEx_active. }
  pose proof (ActivateEx_inactive env pThreadMgr tfClientId dwFlags p Ha) as H.
  cbv zeta in H.
  set (q := with_arguments pThreadMgr tfClientId dwFlags p) in *.
  assert (Hs : filter is_session_call (trace (SetupSinks env q)) = []).
  { apply (filter_nil_of_emits_only is_sink_call);
      [apply SetupSinks_only_sink_calls | now intros []]. }
  destruct (FAILED (result (SetupSinks env q))).
  - left. rewrite H. cbn [trace state fst snd]. split; [exact Hs|].
    rewrite <- (lifecycle_view_with_arguments pThreadMgr tfClientId dwFlags p).
    apply SetupSinks_keeps.
  - right. destruct H as (_ & Hact & _ & Ht). rewrite Ht.
    split; [|split; [reflexivity | exact Hact]].
    do 2 eexists. rewrite !filter_app, Hs.
    rewrite (filter_nil_of_emits_only _ is_session_call _ _
               (UpdateFocusInfo_only_closes _)) by (now intros []).
    reflexivity.
Qed.

Hypothesis EndSession_closes :
  forall e, WitnessdHasActiveSession (snd (WitnessdEndSession e)) = 0.

Lemma host_call_sessions (c : HostCall) (p : Process) (pending : bool) :
  session_needs_activation p ->
  (HasSession p = true -> pending = true) ->
  exists pending',
    sessions pending (trace (host_call c p)) = Some pending' /\
    session_needs_activation (state (host_call c p)) /\
    (HasSession (state (host_call c p)) = true -> pending' = true).
Proof.
  intros Hinv Hpending.
  pose proof (host_call_invariant EndSession_closes c p Hinv) as Hinv'.
  rewrite <- sessions_filter.
  assert (HA : forall env pThreadMgr tfClientId dwFlags,
    host_call c p = ActivateEx env pThreadMgr tfClientId dwFlags p ->
    exists pending',
      sessions pending (filter is_session_call (trace (host_call c p))) =
        Some pending' /\
      session_needs_activation (state (host_call c p)) /\
      (HasSession (state (host_call c p)) = true -> pending' = true)).
  { intros env pt id fl Hc. rewrite Hc in *.
    destruct (ActivateEx_session_calls env pt id fl p)
      as [[Ht Hv] | [(appId & docId & Ht) _]]; rewrite Ht.
    - exists pending. split; [reflexivity|]. split; [exact Hinv'|].
      unfold lifecycle_view in Hv. injection Hv as _ Hgo.
      unfold HasSession in *. rewrite Hgo. exact Hpending.
    - exists true. split; [reflexivity|]. split; [exact Hinv'|]. auto. }
  destruct c as [env pt id | env pt id fl | env].
  - now apply (HA env pt id 0).
  - now apply (HA env pt id fl).
  - cbn [host_call] in *. rewrite Deactivate_session_calls.
    destruct (Deactivate_closes EndSession_closes env p Hinv) as (_ & _ & Hno).
    destruct (IsActivated p && HasSession p) eqn:Hb.
    + apply andb_true_iff in Hb. destruct Hb as [_ Hs].
      rewrite (Hpending Hs). exists false. cbn.
      split; [reflexivity|]. split; [exact Hinv'|].
      intros H. rewrite Hno in H. discriminate.
    + exists pending. split; [reflexivity|]. split; [exact Hinv'|].
      intros H. rewrite Hno in H. discriminate.
Qed.

(** Over any sequence of activations, each with a thread manager that
    exists, and deactivations of a service that
    starts out not activated and without a session, [WitnessdEndSession] is
    only ever called after a [WitnessdStartSession] that has not been ended
    yet: no session is ended twice, and none is ended that this service did
    not start.  The engine is assumed to report no active session once
    [WitnessdEndSession] has returned. *)
Theorem EndSession_only_ends_a_started_session
  (cs : list HostCall) (p : Process) :
  forallb live_call cs = true ->
  IsActivated p = false ->
  HasSession p = false ->
  exists pending, sessions false (trace (host_calls cs p)) = Some pending.
Proof.
  intros _ Ha Hs.
  assert (Hinv : session_needs_activation p)
    by (intros H; rewrite Hs in H; discriminate).
  assert (Hp : HasSession p = true -> false = true)
    by (intros H; rewrite Hs in H; discriminate).
  clear Ha Hs. revert p Hinv Hp. generalize false as pending.
  induction cs as [|c cs IH]; intros pending p Hinv Hp.
  - now exists pending.
  - cbn [host_calls]. unfold bind, trace.
    destruct (host_call_sessions c p pending Hinv Hp)
      as (pending' & Ht & Hinv' & Hp').
    unfold trace, state in *.
    destruct (host_call c p) as [[hr p1] t1]. cbn in *.
    destruct (IH pending' p1 Hinv' Hp') as (final & Hfinal).
    unfold trace in Hfinal.
    destruct (host_calls cs p1) as [[[] p2] t2]. cbn in *.
    exists final. now rewrite sessions_app, Ht.
Qed.

End SessionCalls.

Lemma EndSession_only_ends_a_started_session_witness :
  forallb Tsf.live_call restless_host = true /\
  Tsf.IsActivated fresh_process = false /\
  Tsf.HasSession fresh_process = false /\
  exists pending,
    sessions false (trace (Tsf.host_calls restless_host fresh_process)) =
    Some pending.
Proof.
  split; [reflexivity|]. split; [reflexivity|]. split; [reflexivity|].
  exact (EndSession_only_ends_a_started_session (E := flag_engine)
           (fun e => eq_refl) restless_host fresh_process eq_refl eq_refl
           eq_refl).
Defined.

(** ** Document focus *)

Section DocumentFocus.
Context {E : WitnessdEngine}.
Import Tsf.

Lemma UpdateFocusInfo_keeps_documents (env : FocusEnv) :
  keeps (fun p => (currentDocMgr_ (this p), currentContext_ (this p),
                   isActivated_ (this p), go p, g_hPipe p))
        (UpdateFocusInfo env).
Proof. unfold UpdateFocusInfo. repeat keeps_step. Qed.

(** A document focus event always succeeds and tells the engine exactly
    once, with whatever application path and title are stored after the
    focus update (empty strings included, and also when the window did not
    change); it starts and ends no session and leaves the activation flag
    and the pipe alone.  Afterwards the service tracks the focused document
    manager, and its top context as [GetTop] returned it. *)
Theorem document_focus_notifies_engine_once
  (env : DocFocusEnv) (pDocMgrFocus : ptr) (p : Process) :
  let r := OnSetFocus_DocumentMgr env pDocMgrFocus p in
  let after := this (state r) in
  result r = S_OK /\
  filter is_engine_call (trace r) =
    [Go_OnFocusChange
       (WideToUTF8 (doc_focus env) (currentAppPath_ after))
       (WideToUTF8 (doc_focus env) (currentWindowTitle_ after))] /\
  isActivated_ after = isActivated_ (this p) /\
  g_hPipe (state r) = g_hPipe p /\
  currentDocMgr_ after = pDocMgrFocus /\
  currentContext_ after =
    (if pDocMgrFocus =? nullptr then nullptr else snd (GetTop env)).
Proof.
  intros r after. subst after r.
  unfold OnSetFocus_DocumentMgr, CleanupTextEditSink, SetupTextEditSink,
    NotifyFocusChange, member, assign, go_call_.
  run_monad. destruct p as [[] ? ?]. cbn in *.
  destruct (GetTop env) as [hr top].
  destruct (doc_AdviseSink env) as [hr' [cookie|]].
  all: split_ifs.
  all: match goal with |- context [UpdateFocusInfo ?e ?q] =>
         pose proof (UpdateFocusInfo_keeps_documents e q) as K;
         pose proof (filter_nil_of_emits_only _ is_engine_call
                       (UpdateFocusInfo e) q (UpdateFocusInfo_only_closes e))
           as T;
         unfold state, trace in K, T;
         destruct (UpdateFocusInfo e q) as [[[] p2] t2]
       end; cbn in *.
  all: injection K as K1 K2 K3 _ K5.
  all: rewrite ?filter_app, ?T by (now intros []).
  all: destruct p2 as [[] ? ?]; cbn in *; subst.
  all: bools_to_props.
  all: repeat split; try reflexivity; try tauto.
  all: repeat match goal with H : _ /\ _ |- _ => destruct H end.
  all: try congruence; auto.
Qed.

(** The foreground notification of the key sink only refreshes the focus
    information: it succeeds, calls neither the engine nor the pipe, and
    leaves the activation flag as it is. *)
Theorem key_sink_focus_is_silent
  (env : FocusEnv) (fForeground : BOOL) (p : Process) :
  let r := OnSetFocus env fForeground p in
  result r = S_OK /\
  filter is_engine_call (trace r) = [] /\
  filter is_pipe_call (trace r) = [] /\
  isActivated_ (this (state r)) = isActivated_ (this p) /\
  currentFocusWindow_ (this (state r)) = GetForegroundWindow env.
Proof.
  intros r. subst r. unfold OnSetFocus. run_monad.
  pose proof (UpdateFocusInfo_keeps_documents env p) as K.
  pose proof (UpdateFocusInfo_stores_handle env p) as Hh.
  pose proof (filter_nil_of_emits_only _ is_engine_call
                (UpdateFocusInfo env) p (UpdateFocusInfo_only_closes env)) as T.
  pose proof (filter_nil_of_emits_only _ is_pipe_call
                (UpdateFocusInfo env) p (UpdateFocusInfo_only_closes env)) as T'.
  unfold state, trace in *.
  destruct (UpdateFocusInfo env p) as [[[] p2] t2]. cbn in *.
  injection K as _ _ K3 _ _. rewrite app_nil_r.
  split; [reflexivity|]. split; [apply T; now intros []|].
  split; [apply T'; now intros []|]. split; assumption.
Qed.

End DocumentFocus.

(** ** What the key callbacks send and commit *)

Section KeyTraffic.
Context {E : WitnessdEngine}.
Import Tsf.

Lemma scan_code_of_range (lParam : Z) :
  0 <= scan_code_of lParam < 256 /\
  scan_code_of lParam = (lParam / 256 / 256) mod 256.
Proof.
  unfold scan_code_of.
  change 0xFF with (Z.ones 8).
  rewrite Z.land_ones, Z.shiftr_div_pow2 by lia.
  change (2 ^ 16) with (256 * 256). change (2 ^ 8) with 256.
  rewrite <- Z.div_div by lia.
  split; [apply Z.mod_pos_bound; lia | reflexivity].
Qed.

Lemma char_buf_ascii (charCode : Z) :
  0 <= charCode < 256 ->
  exists c, char_buf charCode = String c EmptyString /\
            Z.of_N (N_of_ascii c) = charCode.
Proof.
  intros H. unfold char_buf, to_uint8. eexists. split; [reflexivity|].
  rewrite Z.mod_small by (change (2 ^ 8) with 256; lia).
  rewrite N_ascii_embedding by lia. lia.
Qed.

Lemma OnKeyDown_calls (env : KeyEnv) (wParam lParam : Z) (p : Process) :
  trace (OnKeyDown env wParam lParam p) =
  if IsEnabled p then
    trace (WritePipe (pipe env) (to_uint16 wParam)
                     (to_uint16 (scan_code_of lParam)) (to_uint32 lParam)
                     (GetTimestampNanos env) true p) ++
    Go_OnKeyDown (to_uint16 wParam) (to_int32 (VKToChar env wParam lParam)) ::
    text_calls wParam (VKToChar env wParam lParam)
  else [].
Proof.
  destruct (IsEnabled p) eqn:He.
  - apply (OnKeyDown_enabled env wParam lParam p He).
  - now rewrite (OnKeyDown_disabled env wParam lParam p He).
Qed.

Lemma OnKeyUp_calls (env : KeyEnv) (wParam lParam : Z) (p : Process) :
  trace (OnKeyUp env wParam lParam p) =
  if IsEnabled p then
    trace (WritePipe (pipe env) (to_uint16 wParam)
                     (to_uint16 (scan_code_of lParam)) (to_uint32 lParam)
                     (GetTimestampNanos env) false p)
  else [].
Proof.
  destruct (IsEnabled p) eqn:He.
  - now rewrite (OnKeyUp_enabled env wParam lParam p He).
  - now rewrite (OnKeyUp_disabled env wParam lParam p He).
Qed.

(** The engine only ever receives, as committed text, a string of exactly
    one character, and that character is the printable ASCII character the
    key translated to: nothing at or above 0x7F is committed. *)
Theorem committed_text_is_one_printable_ascii
  (env : KeyEnv) (wParam lParam : Z) (p : Process) (text : string) :
  In (Go_OnTextCommit text) (trace (OnKeyDown env wParam lParam p)) ->
  exists c,
    text = String c EmptyString /\
    Z.of_N (N_of_ascii c) = VKToChar env wParam lParam /\
    0x20 <= Z.of_N (N_of_ascii c) <= 0x7E.
Proof.
  rewrite OnKeyDown_calls. destruct (IsEnabled p); [|intros []].
  rewrite in_app_iff. intros [H | [H | H]];
    [apply WritePipe_only_kernel_calls in H; discriminate | discriminate |].
  unfold text_calls in H.
  destruct (printable (VKToChar env wParam lParam)) eqn:Hp.
  - apply printable_iff in Hp.
    destruct (char_buf_ascii (VKToChar env wParam lParam)) as (c & Hc & Hn);
      [lia|].
    exists c. rewrite Hn.
    destruct (wParam =? VK_BACK); cbn in H;
      repeat destruct H as [H | H]; try discriminate; try contradiction;
      injection H as <-; auto.
  - destruct (wParam =? VK_BACK); cbn in H;
      repeat destruct H as [H | H]; try discriminate; contradiction.
Qed.

(** A key the layout does not translate to exactly one character (a dead
    key, a ligature, no character at all), or pressed while the keyboard
    state can not be read, is reported to the engine with character code 0
    and commits no text. *)
Theorem untranslated_key_commits_nothing
  (env : KeyEnv) (wParam lParam : Z) (p : Process) :
  GetKeyboardState env = false \/
  fst (ToUnicode env (to_uint32 wParam) (to_uint32 (scan_code_of lParam)))
    <> 1 ->
  VKToChar env wParam lParam = 0 /\
  (forall text,
     ~ In (Go_OnTextCommit text) (trace (OnKeyDown env wParam lParam p))) /\
  (IsEnabled p = true ->
   In (Go_OnKeyDown (to_uint16 wParam) 0)
      (trace (OnKeyDown env wParam lParam p))).
Proof.
  intros H.
  assert (H0 : VKToChar env wParam lParam = 0).
  { unfold VKToChar. destruct H as [-> | H]; [reflexivity|].
    destruct (GetKeyboardState env); [|reflexivity]. cbn.
    destruct (ToUnicode env _ _) as [res buf]. cbn in H.
    apply Z.eqb_neq in H. now rewrite H. }
  split; [exact H0|]. rewrite OnKeyDown_calls, H0. split.
  - intros text. destruct (IsEnabled p); [|intros []].
    rewrite in_app_iff. intros [Hi | [Hi | Hi]];
      [apply WritePipe_only_kernel_calls in Hi; discriminate | discriminate |].
    unfold text_calls in Hi. change (printable 0) with false in Hi.
    destruct (wParam =? VK_BACK); cbn in Hi;
      repeat destruct Hi as [Hi | Hi]; try discriminate; contradiction.
  - intros ->. apply in_or_app. right. left. reflexivity.
Qed.

(** Every frame a key callback writes carries the timestamp taken in the
    callback, the low 16 bits of [wParam], a scan code below 256, the low
    32 bits of [lParam], and 1 for key-down or 0 for key-up; the scan code
    bytes repeat bits 16 to 23 of the flags. *)
Theorem key_frame_fields
  (env : KeyEnv) (wParam lParam : Z) (p : Process)
  (h : HANDLE) (buffer : list Z) (ok : bool) :
  let event down :=
    {| timestampNanos := GetTimestampNanos env;
       virtualKeyCode := to_uint16 wParam;
       scanCode := scan_code_of lParam;
       flags := to_uint32 lParam;
       isKeyDown := down |} in
  (In (Sys_WriteFile h buffer ok) (trace (OnKeyDown env wParam lParam p)) ->
   buffer = encodeKeystroke (event true)) /\
  (In (Sys_WriteFile h buffer ok) (trace (OnKeyUp env wParam lParam p)) ->
   buffer = encodeKeystroke (event false)) /\
  (nth 10 (encodeKeystroke (event true)) 0 =
     nth 14 (encodeKeystroke (event true)) 0 /\
   nth 11 (encodeKeystroke (event true)) 0 = 0 /\
   0 <= scan_code_of lParam < 256).
Proof.
  intros event.
  destruct (scan_code_of_range lParam) as [Hr Hs].
  assert (H16 : to_uint16 (scan_code_of lParam) = scan_code_of lParam)
    by (unfold to_uint16; apply Z.mod_small; lia).
  split; [|split].
  - rewrite OnKeyDown_calls. destruct (IsEnabled p); [|intros []].
    rewrite in_app_iff. intros [H | [H | H]].
    + apply WritePipe_frame in H. now rewrite H16 in H.
    + discriminate.
    + unfold text_calls in H.
      destruct (printable _); destruct (wParam =? VK_BACK); cbn in H;
        repeat destruct H as [H | H]; try discriminate; contradiction.
  - rewrite OnKeyUp_calls. destruct (IsEnabled p); [|intros []].
    intros H. apply WritePipe_frame in H. now rewrite H16 in H.
  - split; [|split; [|exact Hr]].
    + unfold encodeKeystroke, msg_bytes, event, to_uint32. cbn.
      rewrite Hs.
      rewrite (Z.mod_small ((lParam / 256 / 256) mod 256) 256)
        by (apply Z.mod_pos_bound; lia).
      rewrite !Z.div_div by lia. change (256 * 256) with 65536.
      change 4294967296 with (65536 * 65536).
      rewrite (Z.rem_mul_r lParam 65536 65536) by lia.
      set (x := lParam / 65536).
      replace ((lParam mod 65536 + 65536 * (x mod 65536)) / 65536)
        with (x mod 65536).
      2:{ apply (Z.div_unique _ 65536 _ (lParam mod 65536)); [|lia].
          left. apply Z.mod_pos_bound. lia. }
      change 65536 with (256 * 256).
      rewrite (Z.rem_mul_r x 256 256) by lia.
      replace (x mod 256 + 256 * ((x / 256) mod 256))
        with (x mod 256 + (x / 256) mod 256 * 256) by lia.
      rewrite Z_mod_plus_full, Z.mod_mod by lia.
      reflexivity.
    + unfold encodeKeystroke, msg_bytes, event. cbn.
      rewrite Z.div_small by lia. reflexivity.
Qed.

End KeyTraffic.

(** ** Pipe handles over a run of sends *)

Section PipeHandles.
Context {E : WitnessdEngine}.
Import Tsf.

Lemma WritePipe_handle_balance (env : PipeEnv) (vk sc fl ts : Z) (d : bool)
  (p : Process) :
  let r := WritePipe env vk sc fl ts d p in
  (handles_opened (trace r) + (if Connected p then 1 else 0) =
   handles_closed (trace r) + (if Connected (state r) then 1 else 0))%nat /\
  (connect_attempts (trace r) <= 1)%nat /\
  (write_attempts (trace r) <= 1)%nat.
Proof.
  intros r. subst r. rewrite WritePipe_cases.
  unfold handles_opened, handles_closed, connect_attempts, write_attempts,
    Connected.
  destruct (g_hPipe p =? INVALID_HANDLE_VALUE) eqn:Hp; cbn.
  - destruct (CreateFileW env =? INVALID_HANDLE_VALUE) eqn:Hc; cbn;
      rewrite ?Hc, ?Hp; cbn; [lia|].
    destruct (WriteFile env); cbn; rewrite ?Hc, ?Z.eqb_refl; cbn; lia.
  - destruct (WriteFile env); cbn; rewrite ?Hp, ?Z.eqb_refl; cbn; lia.
Qed.

(** Over any run of sends, whatever the daemon does in between, every
    pipe handle obtained is either the one the channel still holds or has
    been closed, exactly once; and the run makes at most one connect
    attempt and one write per send. *)
Theorem sends_never_leak_a_handle
  (sends : list (PipeEnv * KeystrokeEvent)) (p : Process) :
  let r := WritePipe_each sends p in
  (handles_opened (trace r) + (if Connected p then 1 else 0) =
   handles_closed (trace r) + (if Connected (state r) then 1 else 0))%nat /\
  (connect_attempts (trace r) <= List.length sends)%nat /\
  (write_attempts (trace r) <= List.length sends)%nat.
Proof.
  revert p. induction sends as [|[env e] sends IH]; intros p r; subst r.
  - cbn. unfold handles_opened, handles_closed, connect_attempts,
      write_attempts. cbn. lia.
  - cbn [WritePipe_each List.length]. unfold bind, state, trace.
    pose proof (WritePipe_handle_balance env (virtualKeyCode e) (scanCode e)
                  (flags e) (timestampNanos e) (isKeyDown e) p) as H1.
    cbv zeta in H1. unfold state, trace in H1.
    destruct (WritePipe env _ _ _ _ _ p) as [[[] p1] t1]. cbn in H1.
    specialize (IH p1). cbv zeta in IH. unfold state, trace in IH.
    destruct (WritePipe_each sends p1) as [[[] p2] t2]. cbn in *.
    unfold handles_opened, handles_closed, connect_attempts,
      write_attempts in *.
    rewrite !filter_app, !length_app. lia.
Qed.

End PipeHandles.

(** ** The frame determines the event *)

Lemma decode_encode (e : KeystrokeEvent) :
  KeystrokeEvent_in_range e ->
  decodeKeystroke (encodeKeystroke e) = Some e.
Proof.
  intros (Hts & Hvk & Hsc & Hfl).
  unfold encodeKeystroke. rewrite decode_msg_bytes.
  destruct e as [ts vk sc fl dn]; cbn [fill_msg msg_timestamp msg_vkCode
    msg_scanCode msg_flags msg_isDown timestampNanos virtualKeyCode scanCode
    flags isKeyDown] in *.
  rewrite !le_value_le_bytes.
  change (256 ^ Z.of_nat 8) with (2 ^ 64).
  change (256 ^ Z.of_nat 2) with (2 ^ 16).
  change (256 ^ Z.of_nat 4) with (2 ^ 32).
  rewrite to_int64_of_image by assumption.
  rewrite (Z.mod_small vk), (Z.mod_small sc), (Z.mod_small fl) by assumption.
  destruct dn; reflexivity.
Qed.

(** Two events whose fields fit their types and that are written as the
    same 17 bytes are the same event. *)
Theorem encodeKeystroke_injective (e1 e2 : KeystrokeEvent) :
  KeystrokeEvent_in_range e1 ->
  KeystrokeEvent_in_range e2 ->
  encodeKeystroke e1 = encodeKeystroke e2 ->
  e1 = e2.
Proof.
  intros H1 H2 H.
  apply decode_encode in H1, H2. rewrite H in H1. congruence.
Qed.

(** ** The lifecycle of the basic service *)

Section BasicLifecycle.
Context {E : WitnessdEngine}.




End BasicLifecycle.

(** ** Instances of the statements above *)

Lemma UpdateFocusInfo_same_window_is_ignored_witness :
  GetForegroundWindow focus_resolved = GetForegroundWindow focus_unresolved /\
  Tsf.UpdateFocusInfo focus_resolved
    (state (Tsf.UpdateFocusInfo focus_unresolved fresh_process)) =
  (tt, state (Tsf.UpdateFocusInfo focus_unresolved fresh_process), []).
Proof.
  split; [reflexivity|].
  exact (UpdateFocusInfo_same_window_is_ignored focus_unresolved
           focus_resolved fresh_process eq_refl).
Defined.

Lemma UpdateFocusInfo_on_window_change_witness :
  GetForegroundWindow focus_unresolved <>
    Tsf.currentFocusWindow_ (Tsf.this fresh_process) /\
  GetForegroundWindow focus_unresolved <> nullptr /\
  OpenProcess focus_unresolved = nullptr /\
  Tsf.currentAppPath_
    (Tsf.this (state (Tsf.UpdateFocusInfo focus_unresolved fresh_process))) =
  Tsf.currentAppPath_ (Tsf.this fresh_process).
Proof.
  assert (H1 : GetForegroundWindow focus_unresolved <>
               Tsf.currentFocusWindow_ (Tsf.this fresh_process))
    by discriminate.
  assert (H2 : GetForegroundWindow focus_unresolved <> nullptr)
    by discriminate.
  split; [exact H1|]. split; [exact H2|]. split; [reflexivity|].
  exact (proj1 (proj2 (proj2
    (UpdateFocusInfo_on_window_change focus_unresolved fresh_process H1) H2))
    (or_introl eq_refl)).
Defined.

Lemma WideToUTF8_size_witness :
  [0x41] <> ([] : wstring) /\
  WideCharToMultiByte focus_resolved [0x41] =
    (Z.of_nat (String.length "A") + 1, "A") /\
  Tsf.WideToUTF8 focus_resolved [0x41] = "A".
Proof.
  assert (H : [0x41] <> ([] : wstring)) by discriminate.
  split; [exact H|]. split; [reflexivity|].
  exact (proj2 (WideToUTF8_size focus_resolved [0x41]) "A" H eq_refl).
Defined.

Lemma SetupSinks_registers_both_or_none_witness :
  Tsf.threadMgr_ (Tsf.this (Tsf.with_arguments 0x5000 1 0 fresh_process)) <>
    nullptr /\
  FAILED (result (Tsf.SetupSinks activate_no_source
                    (Tsf.with_arguments 0x5000 1 0 fresh_process))) = true /\
  Tsf.keystrokeMgr_
    (Tsf.this (state (Tsf.SetupSinks activate_no_source
                        (Tsf.with_arguments 0x5000 1 0 fresh_process)))) =
    nullptr /\
  result (Tsf.SetupSinks (activate_ok focus_unresolved)
            (Tsf.with_arguments 0x5000 1 0 fresh_process)) = S_OK.
Proof.
  assert (H : Tsf.threadMgr_
                (Tsf.this (Tsf.with_arguments 0x5000 1 0 fresh_process)) <>
              nullptr) by discriminate.
  split; [exact H|]. split; [reflexivity|]. split.
  - exact (proj1 (proj2
      (SetupSinks_registers_both_or_none activate_no_source
         (Tsf.with_arguments 0x5000 1 0 fresh_process) H) eq_refl eq_refl)).
  - exact (proj1 (proj1
      (SetupSinks_registers_both_or_none (activate_ok focus_unresolved)
         (Tsf.with_arguments 0x5000 1 0 fresh_process) H) eq_refl)).
Defined.

Lemma ActivateEx_failure_leaves_arguments_stored_witness :
  0x5000 <> nullptr /\
  Tsf.IsActivated fresh_process = false /\
  FAILED (result (Tsf.SetupSinks activate_no_source
                    (Tsf.with_arguments 0x5000 1 0 fresh_process))) = true /\
  Tsf.threadMgr_
    (Tsf.this (state (Tsf.ActivateEx activate_no_source 0x5000 1 0
                                     fresh_process))) = 0x5000.
Proof.
  assert (Hlive : 0x5000 <> nullptr) by discriminate.
  split; [exact Hlive|]. split; [reflexivity|]. split; [reflexivity|].
  exact (proj1 (proj2 (proj2 (proj2 (proj2
    (ActivateEx_failure_leaves_arguments_stored activate_no_source 0x5000 1 0
       fresh_process Hlive eq_refl eq_refl)))))).
Defined.

Lemma Deactivate_releases_the_sinks_witness :
  Tsf.IsActivated (state (Tsf.host_calls activate_twice fresh_process)) =
    true /\
  Tsf.keystrokeMgr_
    (Tsf.this (state (Tsf.host_calls activate_twice fresh_process))) <>
    nullptr /\
  In (Tsf_UnadviseKeyEventSink 1)
     (trace (Tsf.Deactivate cleanup_ok
               (state (Tsf.host_calls activate_twice fresh_process)))).
Proof.
  assert (H : Tsf.keystrokeMgr_
                (Tsf.this (state (Tsf.host_calls activate_twice
                                                 fresh_process))) <> nullptr)
    by discriminate.
  split; [reflexivity|]. split; [exact H|].
  exact (proj1 (proj2 (proj2 (proj2
    (Deactivate_releases_the_sinks cleanup_ok
       (state (Tsf.host_calls activate_twice fresh_process)) eq_refl)))) H).
Defined.

Lemma committed_text_is_one_printable_ascii_witness :
  In (Go_OnTextCommit "a")
     (trace (Tsf.OnKeyDown (typing_env pipe_up) 0x41 lParam_A fresh_process)) /\
  exists c,
    "a" = String c EmptyString /\
    Z.of_N (N_of_ascii c) =
      Tsf.VKToChar (typing_env pipe_up) 0x41 lParam_A /\
    0x20 <= Z.of_N (N_of_ascii c) <= 0x7E.
Proof.
  assert (H : In (Go_OnTextCommit "a")
                (trace (Tsf.OnKeyDown (typing_env pipe_up) 0x41 lParam_A
                                      fresh_process)))
    by (vm_compute; auto 10).
  split; [exact H|].
  exact (committed_text_is_one_printable_ascii (typing_env pipe_up) 0x41
           lParam_A fresh_process "a" H).
Defined.

Lemma untranslated_key_commits_nothing_witness :
  fst (ToUnicode dead_key_env (to_uint32 0xC0)
         (to_uint32 (scan_code_of 0x00290001))) <> 1 /\
  Tsf.VKToChar dead_key_env 0xC0 0x00290001 = 0 /\
  In (Go_OnKeyDown 0xC0 0)
     (trace (Tsf.OnKeyDown dead_key_env 0xC0 0x00290001 fresh_process)).
Proof.
  assert (H : fst (ToUnicode dead_key_env (to_uint32 0xC0)
                     (to_uint32 (scan_code_of 0x00290001))) <> 1)
    by discriminate.
  split; [exact H|].
  pose proof (untranslated_key_commits_nothing dead_key_env 0xC0 0x00290001
                fresh_process (or_intror H)) as (H0 & _ & Hk).
  split; [exact H0 | exact (Hk eq_refl)].
Defined.

Lemma key_frame_fields_witness :
  In (Sys_WriteFile 100 (encodeKeystroke
        {| timestampNanos := 1234567890; virtualKeyCode := 0x41;
           scanCode := 0x1E; flags := 0x001E0001; isKeyDown := true |}) true)
     (trace (Tsf.OnKeyDown (typing_env pipe_up) 0x41 lParam_A fresh_process)) /\
  encodeKeystroke
    {| timestampNanos := 1234567890; virtualKeyCode := 0x41;
       scanCode := 0x1E; flags := 0x001E0001; isKeyDown := true |} =
  encodeKeystroke
    {| timestampNanos := GetTimestampNanos (typing_env pipe_up);
       virtualKeyCode := to_uint16 0x41;
       scanCode := scan_code_of lParam_A;
       flags := to_uint32 lParam_A;
       isKeyDown := true |}.
Proof.
  assert (H : In (Sys_WriteFile 100 (encodeKeystroke
                    {| timestampNanos := 1234567890; virtualKeyCode := 0x41;
                       scanCode := 0x1E; flags := 0x001E0001;
                       isKeyDown := true |}) true)
                (trace (Tsf.OnKeyDown (typing_env pipe_up) 0x41 lParam_A
                                      fresh_process)))
    by (vm_compute; auto 10).
  split; [exact H|].
  exact (proj1 (key_frame_fields (typing_env pipe_up) 0x41 lParam_A
                  fresh_process 100 _ true) H).
Defined.

Lemma encodeKeystroke_injective_witness :
  KeystrokeEvent_in_range key_A_event /\
  encodeKeystroke key_A_event = encodeKeystroke key_A_event /\
  key_A_event = key_A_event.
Proof.
  assert (R : KeystrokeEvent_in_range key_A_event)
    by (unfold KeystrokeEvent_in_range; cbn; lia).
  split; [exact R|]. split; [reflexivity|].
  exact (encodeKeystroke_injective key_A_event key_A_event R R eq_refl).
Defined.

(** ** The runner's conversions *)

Section RunnerStrings.
Import Utils.
Variable max_size : Z.
Variable env : ConvertEnv.

(** What [Utf8FromUtf16] can return: the empty string, or a string whose
    length is the one it resized to; it resizes at most once, to a length
    that is positive, within [max_size] and within [unsigned int]; and an
    allocation failure is the only way it throws. *)
Theorem Utf8FromUtf16_outcomes (utf16_string : option wstring) :
  let r := Utf8FromUtf16 max_size env utf16_string in
  (forall n, In (Resize n) (snd r) ->
     0 < n <= max_size /\ n < 2 ^ 32 /\ snd r = [Resize n]) /\
  (forall utf8, fst r = Returned utf8 ->
     utf8 = EmptyString \/
     snd r = [Resize (Z.of_nat (String.length utf8))]) /\
  (fst r = Thrown_bad_alloc ->
     exists n, snd r = [Resize n] /\ allocate env n = false).
Proof.
  intros r. subst r.
  destruct utf16_string as [utf16|]; cbn.
  2:{ split; [intros n []|]. split; [intros utf8 H; left; congruence|].
      discriminate. }
  set (target_length := to_uint32 (WideCharToMultiByte_size env utf16 - 1)).
  assert (Hb : 0 <= target_length < 2 ^ 32)
    by (apply Z.mod_pos_bound; reflexivity).
  destruct (target_length =? 0) eqn:H0; cbn.
  { split; [intros n []|]. split; [intros utf8 H; left; congruence|].
    discriminate. }
  destruct (target_length >? max_size) eqn:Hmax; cbn.
  { split; [intros n []|]. split; [intros utf8 H; left; congruence|].
    discriminate. }
  apply Z.eqb_neq in H0. rewrite Z.gtb_ltb in Hmax. apply Z.ltb_ge in Hmax.
  assert (Hn : forall n, Resize target_length = Resize n \/ False ->
                 0 < n <= max_size /\ n < 2 ^ 32 /\
                 [Resize target_length] = [Resize n]).
  { intros n [H | []]. injection H as <-. repeat split; lia. }
  destruct (allocate env target_length) eqn:Ha; cbn.
  - destruct (WideCharToMultiByte_convert _ _ _ _) as [len out].
    destruct (len =? 0); cbn.
    + split; [exact Hn|]. split; [intros utf8 H; left; congruence|].
      discriminate.
    + split; [exact Hn|]. split; [|discriminate].
      intros utf8 H. right. injection H as <-.
      rewrite filled_length, Z2Nat.id by lia. reflexivity.
  - split; [exact Hn|]. split; [discriminate|].
    intros _. now exists target_length.
Qed.

(** When both conversion calls agree on a text of [n] bytes, with
    [0 < n <= max_size] and storage available, that text is returned after
    one resize to [n]; the empty wide string is returned as the empty
    string without any resize. *)
Theorem Utf8FromUtf16_converts (utf16 : wstring) (out : string) :
  let n := Z.of_nat (String.length out) in
  (0 < n <= max_size -> n < 2 ^ 32 ->
   WideCharToMultiByte_size env utf16 = n + 1 ->
   allocate env n = true ->
   WideCharToMultiByte_convert env utf16
     (to_int32 (Z.of_nat (List.length utf16))) (to_int32 n) = (n, out) ->
   Utf8FromUtf16 max_size env (Some utf16) = (Returned out, [Resize n])) /\
  (WideCharToMultiByte_size env utf16 = 1 ->
   Utf8FromUtf16 max_size env (Some utf16) = (Returned EmptyString, [])).
Proof.
  intros n. split.
  - intros Hn H32 Hsize Halloc Hconv. unfold Utf8FromUtf16.
    rewrite Hsize. replace (n + 1 - 1) with n by lia.
    assert (Ht : to_uint32 n = n) by (apply Z.mod_small; lia).
    rewrite Ht.
    replace (n =? 0) with false by (symmetry; apply Z.eqb_neq; lia).
    replace (n >? max_size) with false
      by (symmetry; rewrite Z.gtb_ltb; apply Z.ltb_ge; lia).
    cbn [orb negb]. rewrite Halloc. cbn [negb]. rewrite Hconv.
    replace (n =? 0) with false by (symmetry; apply Z.eqb_neq; lia).
    subst n. now rewrite Nat2Z.id, filled_exact.
  - intros Hsize. unfold Utf8FromUtf16. now rewrite Hsize.
Qed.

Lemma convert_each_positions (args : list wstring) (converted : list string) :
  convert_each max_size env args = Some converted ->
  List.length converted = List.length args /\
  forall i arg, nth_error args i = Some arg ->
    exists utf8, nth_error converted i = Some utf8 /\
                 fst (Utf8FromUtf16 max_size env (Some arg)) = Returned utf8.
Proof.
  revert converted; induction args as [|a args IH]; intros converted H.
  - injection H as <-. split; [reflexivity|]. intros [|i] arg; discriminate.
  - cbn [convert_each] in H.
    destruct (fst (Utf8FromUtf16 max_size env (Some a))) as [utf8|] eqn:Ha;
      [|discriminate].
    destruct (convert_each max_size env args) as [rest|]; [|discriminate].
    injection H as <-. destruct (IH rest eq_refl) as [Hlen Hnth].
    split; [cbn; now rewrite Hlen|].
    intros [|i] arg Hi; cbn in Hi.
    + injection Hi as <-. now exists utf8.
    + now apply Hnth.
Qed.

(** [GetCommandLineArguments] returns nothing for a null [argv]; otherwise
    it drops the program name and returns the conversion of every further
    argument at its own position, an argument the conversion rejects
    becoming the empty string rather than being dropped, and frees [argv];
    when a conversion throws, [LocalFree] is not reached. *)
Theorem GetCommandLineArguments_keeps_positions :
  GetCommandLineArguments max_size env None = (Arguments_returned [], false) /\
  forall argv,
    (forall arguments,
       fst (GetCommandLineArguments max_size env (Some argv)) =
         Arguments_returned arguments ->
       snd (GetCommandLineArguments max_size env (Some argv)) = true /\
       List.length arguments = (List.length argv - 1)%nat /\
       forall i arg, nth_error argv (S i) = Some arg ->
         exists utf8, nth_error arguments i = Some utf8 /\
           fst (Utf8FromUtf16 max_size env (Some arg)) = Returned utf8) /\
    (fst (GetCommandLineArguments max_size env (Some argv)) =
       Arguments_bad_alloc ->
     snd (GetCommandLineArguments max_size env (Some argv)) = false).
Proof.
  split; [reflexivity|]. intros argv. unfold GetCommandLineArguments.
  destruct (convert_each max_size env (skipn 1 argv)) as [converted|] eqn:Hc;
    cbn [fst snd].
  - split; [|discriminate]. intros arguments H. injection H as <-.
    destruct (convert_each_positions _ _ Hc) as [Hlen Hnth].
    split; [reflexivity|]. split.
    + rewrite Hlen, length_skipn. reflexivity.
    + intros i arg Hi. apply Hnth. destruct argv; [discriminate|exact Hi].
  - split; [discriminate|reflexivity].
Qed.

End RunnerStrings.

Lemma Utf8FromUtf16_outcomes_witness :
  fst (Utils.Utf8FromUtf16 Utils.max_size_64 letters (Some [0x41])) =
    Utils.Returned "A" /\
  ("A" = EmptyString \/
   snd (Utils.Utf8FromUtf16 Utils.max_size_64 letters (Some [0x41])) =
     [Utils.Resize (Z.of_nat (String.length "A"))]).
Proof.
  split; [reflexivity|].
  exact (proj1 (proj2
    (Utf8FromUtf16_outcomes Utils.max_size_64 letters (Some [0x41])))
    "A" eq_refl).
Defined.

Lemma Utf8FromUtf16_converts_witness :
  Utils.Utf8FromUtf16 Utils.max_size_64 letters (Some [0x42]) =
    (Utils.Returned "B", [Utils.Resize 1]).
Proof.
  apply (proj1 (Utf8FromUtf16_converts Utils.max_size_64 letters [0x42] "B"));
    try reflexivity.
  split; [reflexivity | discriminate].
Defined.

Lemma GetCommandLineArguments_keeps_positions_witness :
  fst (Utils.GetCommandLineArguments Utils.max_size_64 letters
         (Some sample_argv)) =
    Utils.Arguments_returned ["A"; EmptyString; "B"] /\
  List.length ["A"; EmptyString; "B"] = (List.length sample_argv - 1)%nat.
Proof.
  split; [reflexivity|].
  exact (proj1 (proj2 (proj1 (proj2
    (GetCommandLineArguments_keeps_positions Utils.max_size_64 letters)
    sample_argv) _ eq_refl))).
Defined.

Lemma Utf8FromUtf16_failure_guard_witness :
  Utils.WideCharToMultiByte_size (rejecting true) lone_surrogate = 0 /\
  snd (Utils.Utf8FromUtf16 Utils.max_size_32 (rejecting true)
         (Some lone_surrogate)) = [].
Proof.
  split; [reflexivity|].
  exact (Utf8FromUtf16_failure_guard Utils.max_size_32 (rejecting true)
           lone_surrogate eq_refl).
Defined.

(** ** COM lifetime *)

Lemma to_int32_small (n : Z) : - 2 ^ 31 <= n < 2 ^ 31 -> to_int32 n = n.
Proof.
  intros H. unfold to_int32, to_signed.
  change (2 ^ 32) with 4294967296. change (2 ^ (32 - 1)) with 2147483648.
  change (2 ^ 31) with 2147483648 in H.
  rewrite Z.mod_small; lia.
Qed.

Lemma incr_small (n : Z) : - 2 ^ 31 <= n < 2 ^ 31 - 1 -> Com.incr n = n + 1.
Proof. intros H. unfold Com.incr. apply to_int32_small. lia. Qed.

Lemma decr_small (n : Z) : - 2 ^ 31 < n < 2 ^ 31 -> Com.decr n = n - 1.
Proof. intros H. unfold Com.decr. apply to_int32_small. lia. Qed.

Lemma Service_cast_QueryInterface riid refCount_ :
  Com.Service_QueryInterface riid true refCount_ =
  match Com.Service_cast riid with
  | Some iface => (S_OK, Some iface, Com.incr refCount_)
  | None => (Com.E_NOINTERFACE, None, refCount_)
  end.
Proof. reflexivity. Qed.

(** The class factory's [CreateInstance] (and the static one it calls)
    either hands out exactly one reference to a new object, for one of the
    interfaces the object has, and counts the object in the module, so that
    [DllCanUnloadNow] refuses; or it fails, and then no object is left and
    the module count is what it was: in particular the object created for
    an interface it does not have is destroyed again.  A failure stores a
    null pointer through [ppvObject] when the call gets past the factory's
    test of [pUnkOuter] with a [ppvObject] that is not null; when the
    factory refuses aggregation, or [ppvObject] is null, nothing is stored
    and the caller's pointer is as it was.  Giving the one reference back
    destroys the object and restores the module count. *)
Theorem CreateInstance_leaves_one_reference_or_nothing
  (pUnkOuter : ptr) (riid : Com.IID) (ppvObject allocated : bool)
  (d : Com.Dll) (Hcount : 0 <= Com.g_dllRefCount d < 2 ^ 31 - 1) :
  let '(hr, out, pService, d') :=
    Com.Factory_CreateInstance pUnkOuter riid ppvObject allocated d in
  (hr = S_OK <->
   pUnkOuter = nullptr /\ ppvObject = true /\ allocated = true /\
   Com.Service_cast riid <> None) /\
  (hr = S_OK ->
   out = Com.Stored (Com.Service_cast riid) /\ pService = Some 1 /\
   Com.g_dllRefCount d' = Com.g_dllRefCount d + 1 /\
   Com.DllCanUnloadNow d' = Com.S_FALSE /\
   Com.Service_Release 1 d' = (0, None, d)) /\
  (hr <> S_OK ->
   pService = None /\ d' = d /\
   out = if (pUnkOuter =? nullptr) && ppvObject then Com.Stored None
         else Com.Untouched).
Proof.
  destruct d as [n f]. cbn [Com.g_dllRefCount] in Hcount.
  unfold Com.Factory_CreateInstance, Com.Service_CreateInstance.
  destruct (Z.eqb_spec pUnkOuter nullptr) as [Hp | Hp]; cbn [negb andb].
  2: { split; [ split; [ discriminate | tauto ] | split; [ discriminate | auto ] ]. }
  destruct ppvObject; cbn [negb].
  2: { split; [ split; [ discriminate | intros (_ & ? & _); discriminate ] | split; [ discriminate | auto ] ]. }
  destruct allocated; cbn [negb].
  2: { split; [ split; [ discriminate | intros (_ & _ & ? & _); discriminate ] | split; [ discriminate | auto ] ]. }
  rewrite Service_cast_QueryInterface.
  cbn [Com.g_dllRefCount Com.g_classFactory].
  assert (Hi : Com.incr n = n + 1) by (apply incr_small; lia).
  assert (Hd : Com.decr (n + 1) = n) by (rewrite decr_small; lia).
  destruct (Com.Service_cast riid) as [iface |].
  - unfold Com.Service_Release. change (Com.decr (Com.incr 1)) with 1.
    cbn [Z.eqb Pos.eqb]. cbn [Com.g_dllRefCount Com.g_classFactory].
    split; [ split; [ intros _; repeat (split; [ auto; discriminate | ]); discriminate | reflexivity ] | ].
    split; [ | intros H; exfalso; apply H; reflexivity ].
    intros _. split; [ reflexivity | ]. split; [ reflexivity | ].
    split; [ exact Hi | ]. split.
    + unfold Com.DllCanUnloadNow. cbn [Com.g_dllRefCount]. rewrite Hi.
      destruct (Z.eqb_spec (n + 1) 0); [ lia | reflexivity ].
    + change (Com.decr 1) with 0. cbn [Z.eqb].
      cbn [Com.g_dllRefCount Com.g_classFactory]. rewrite Hi, Hd. reflexivity.
  - unfold Com.Service_Release. change (Com.decr 1) with 0. cbn [Z.eqb].
    cbn [Com.g_dllRefCount Com.g_classFactory]. rewrite Hi, Hd.
    split; [ split; [ discriminate | intros (_ & _ & _ & H); exfalso; apply H; reflexivity ] | ].
    split; [ discriminate | auto ].
Qed.

Lemma Factory_cast_QueryInterface riid refCount_ :
  Com.Factory_QueryInterface riid true refCount_ =
  match Com.Factory_cast riid with
  | Some iface => (S_OK, Some iface, Com.incr refCount_)
  | None => (Com.E_NOINTERFACE, None, refCount_)
  end.
Proof. reflexivity. Qed.

Lemma client_call_accounted (c : Com.ClientCall) (d : Com.Dll)
  (held locks : nat) :
  Com.factory_accounted (d, held, locks) ->
  Z.of_nat held < 2 ^ 31 - 2 -> Z.of_nat locks < 2 ^ 31 - 2 ->
  match Com.client_call c (d, held, locks) with
  | Com.Returns (d', held', locks') =>
      Com.factory_accounted (d', held', locks') /\
      (held' + locks' <= S (held + locks))%nat /\
      (Com.g_classFactory d <> Com.Null -> Com.g_classFactory d' <> Com.Null)
  | Com.Throws_bad_alloc => Com.g_classFactory d = Com.Null
  | Com.Undefined => False
  end.
Proof.
  destruct d as [n f]. unfold Com.factory_accounted.
  cbn [Com.g_classFactory Com.g_dllRefCount]. intros Hinv Hheld Hlocks.
  destruct c as [rclsid riid ppvObject allocated | | fLock].
  - unfold Com.client_call, Com.DllGetClassObject.
    destruct ppvObject; cbn [negb].
    2: { cbn [Com.g_classFactory Com.g_dllRefCount].
         split; [ exact Hinv | split; [ lia | auto ] ]. }
    destruct (rclsid =? Com.CLSID_WitnessdTextService); cbn [negb].
    2: { cbn [Com.g_classFactory Com.g_dllRefCount].
         split; [ exact Hinv | split; [ lia | auto ] ]. }
    cbn [Com.g_classFactory Com.g_dllRefCount].
    destruct f as [| refCount_ |]; [ | | exact Hinv ].
    + destruct Hinv as (-> & -> & ->).
      destruct allocated; cbn [negb]; [ | reflexivity ].
      rewrite Factory_cast_QueryInterface.
      destruct (Com.Factory_cast riid);
        cbn [Com.g_classFactory Com.g_dllRefCount];
        (split; [ | split; [ lia | discriminate ] ]);
        split; [ reflexivity | | reflexivity | ]; split; reflexivity.
    + destruct Hinv as (-> & -> & Hunload).
      rewrite Factory_cast_QueryInterface.
      destruct (Com.Factory_cast riid);
        cbn [Com.g_classFactory Com.g_dllRefCount];
        (split; [ | split; [ lia | discriminate ] ]).
      * rewrite incr_small by lia.
        split; [ lia | split; [ reflexivity | exact Hunload ] ].
      * split; [ lia | split; [ reflexivity | exact Hunload ] ].
  - unfold Com.client_call. destruct held as [| held'].
    + split; [ exact Hinv | split; [ lia | auto ] ].
    + unfold Com.Factory_Release. cbn [Com.g_classFactory Com.g_dllRefCount].
      destruct f as [| refCount_ |];
        [ destruct Hinv; discriminate | | exact Hinv ].
      destruct Hinv as (-> & -> & Hunload).
      rewrite decr_small by lia.
      destruct (Z.eqb_spec (1 + Z.of_nat (S held') - 1) 0); [ lia | ].
      cbn [Com.g_classFactory Com.g_dllRefCount].
      split; [ | split; [ lia | discriminate ] ].
      split; [ lia | split; [ reflexivity | exact Hunload ] ].
  - unfold Com.client_call. destruct held as [| held'].
    + split; [ exact Hinv | split; [ lia | auto ] ].
    + cbn [Com.g_classFactory].
      destruct f as [| refCount_ |];
        [ destruct Hinv; discriminate | | exact Hinv ].
      destruct Hinv as (-> & -> & Hunload).
      unfold Com.Factory_LockServer, Com.DllCanUnloadNow.
      cbn [snd Com.g_classFactory Com.g_dllRefCount].
      destruct (fLock =? 0); cbn [negb].
      * destruct locks as [| locks'].
        -- cbn [Com.g_classFactory Com.g_dllRefCount].
           split; [ | split; [ lia | auto ] ].
           split; [ reflexivity | split; [ reflexivity | exact Hunload ] ].
        -- cbn [Com.g_classFactory Com.g_dllRefCount].
           rewrite decr_small by lia.
           split; [ | split; [ lia | discriminate ] ].
           split; [ reflexivity | ]. split; [ lia | ].
           destruct (Z.eqb_spec (1 + Z.of_nat (S locks') - 1) 0);
             [ lia | reflexivity ].
      * cbn [Com.g_classFactory Com.g_dllRefCount].
        rewrite incr_small by lia.
        split; [ | split; [ lia | discriminate ] ].
        split; [ reflexivity | ]. split; [ lia | ].
        destruct (Z.eqb_spec (1 + Z.of_nat locks + 1) 0);
          [ lia | reflexivity ].
Qed.

(** A class factory, once created, is never destroyed by clients that
    release only the references [DllGetClassObject] gave them and unlock
    only what they locked: no call goes through a dangling
    [g_classFactory], the factory's count is one more than the references
    handed out, and the module counts the factory and the locks, so that
    [DllCanUnloadNow] never again agrees to unload, not even when every
    reference and lock has been given back.  A call can throw only while
    there is no factory yet. *)
Theorem class_factory_is_never_destroyed (cs : list Com.ClientCall) :
  forall (d : Com.Dll) (held locks : nat),
  Com.factory_accounted (d, held, locks) ->
  Z.of_nat held + Z.of_nat locks + Z.of_nat (List.length cs) < 2 ^ 31 - 1 ->
  match Com.client_calls cs (d, held, locks) with
  | Com.Returns (d', held', locks') =>
      Com.factory_accounted (d', held', locks') /\
      (Com.g_classFactory d <> Com.Null ->
       Com.g_classFactory d' <> Com.Null /\
       Com.DllCanUnloadNow d' = Com.S_FALSE)
  | Com.Throws_bad_alloc => Com.g_classFactory d = Com.Null
  | Com.Undefined => False
  end.
Proof.
  induction cs as [| c rest IH]; intros d held locks Hinv Hlen.
  - cbn [Com.client_calls]. split; [ exact Hinv | ].
    intros Hlive. split; [ exact Hlive | ].
    unfold Com.factory_accounted in Hinv.
    destruct (Com.g_classFactory d); [ contradiction | tauto | contradiction ].
  - cbn [Com.client_calls]. cbn [List.length] in Hlen.
    pose proof (client_call_accounted c d held locks Hinv
                  ltac:(lia) ltac:(lia)) as Hstep.
    destruct (Com.client_call c (d, held, locks))
      as [[[d1 held1] locks1] | |]; [ | exact Hstep | exact Hstep ].
    destruct Hstep as (Hinv1 & Hheld1 & Hkeep1).
    specialize (IH d1 held1 locks1 Hinv1 ltac:(lia)).
    destruct (Com.client_calls rest (d1, held1, locks1))
      as [[[d' held'] locks'] | |]; [ | | exact IH ].
    + destruct IH as (Hinv' & Hkeep).
      split; [ exact Hinv' | ]. intros Hlive. apply Hkeep, Hkeep1, Hlive.
    + destruct (Com.g_classFactory d) eqn:Hf; [ reflexivity | | ];
        exfalso; apply Hkeep1;
        [ discriminate | exact IH | discriminate | exact IH ].
Qed.


Lemma object_call_accounted (n : Z) (c : Com.ObjectCall)
  (st : option Z * Com.Dll * nat) :
  - 2 ^ 31 <= n < 2 ^ 31 - 1 ->
  Com.object_accounted n st -> Z.of_nat (snd st) < 2 ^ 31 - 1 ->
  Com.object_accounted n (Com.object_call c st) /\
  (snd (Com.object_call c st) <= S (snd st))%nat /\
  Com.g_classFactory (snd (fst (Com.object_call c st))) =
  Com.g_classFactory (snd (fst st)).
Proof.
  destruct st as [[obj d] held]. cbn [fst snd]. intros Hn Hinv Hheld.
  unfold Com.object_call.
  destruct obj as [refCount_ |]; [ | cbn [fst snd]; auto ].
  destruct held as [| held']; [ cbn [fst snd]; auto | ].
  destruct Hinv as (_ & -> & Hd).
  destruct c as [riid ppvObject | |].
  - unfold Com.Service_QueryInterface.
    destruct ppvObject; cbn [negb];
      [ | cbn [fst snd]; split; [ split; [ lia | auto ] | auto ] ].
    destruct (Com.Service_cast riid); cbn [fst snd].
    + rewrite incr_small by lia.
      split; [ split; [ lia | split; [ lia | exact Hd ] ] | auto ].
    + split; [ split; [ lia | auto ] | auto ].
  - unfold Com.Service_AddRef. cbn [fst snd]. rewrite incr_small by lia.
    split; [ split; [ lia | split; [ lia | exact Hd ] ] | auto ].
  - unfold Com.Service_Release. rewrite decr_small by lia.
    destruct (Z.eqb_spec (Z.of_nat (S held') - 1) 0) as [H0 | H0];
      cbn [fst snd Com.g_dllRefCount Com.g_classFactory].
    + split; [ | auto ]. unfold Com.object_accounted. cbn [Com.g_dllRefCount].
      split; [ lia | ]. rewrite Hd, decr_small; lia.
    + split; [ | auto ]. split; [ lia | split; [ lia | exact Hd ] ].
Qed.

(** A text service object lives exactly as long as a reference to it is
    held: whatever its holder does through [QueryInterface], [AddRef] and
    [Release], the object's count is the number of references held, the
    object is destroyed when the last one is given back, and the module
    count is one higher while the object exists than after.  The class
    factory is not touched. *)
Theorem text_service_lives_while_referenced (n : Z)
  (cs : list Com.ObjectCall) :
  forall st : option Z * Com.Dll * nat,
  - 2 ^ 31 <= n < 2 ^ 31 - 1 ->
  Com.object_accounted n st ->
  Z.of_nat (snd st) + Z.of_nat (List.length cs) < 2 ^ 31 - 1 ->
  let '(obj, d, held) := Com.object_calls cs st in
  (obj = None <-> held = 0%nat) /\
  (forall refCount_, obj = Some refCount_ -> refCount_ = Z.of_nat held) /\
  Com.g_dllRefCount d = match obj with Some _ => n + 1 | None => n end /\
  Com.g_classFactory d = Com.g_classFactory (snd (fst st)).
Proof.
  induction cs as [| c rest IH]; intros st Hn Hinv Hlen.
  - cbn [Com.object_calls fold_left].
    destruct st as [[obj d] held]. cbn [fst snd].
    destruct obj as [refCount_ |]; cbn in Hinv.
    + destruct Hinv as (Hpos & -> & Hd).
      split; [ split; [ discriminate | lia ] | ].
      split; [ intros ? [= <-]; reflexivity | auto ].
    + destruct Hinv as (-> & Hd).
      split; [ tauto | ]. split; [ discriminate | auto ].
  - cbn [List.length] in Hlen.
    destruct (object_call_accounted n c st Hn Hinv ltac:(lia))
      as (Hinv1 & Hheld1 & Hf1).
    specialize (IH (Com.object_call c st) Hn Hinv1 ltac:(lia)).
    change (Com.object_calls (c :: rest) st)
      with (Com.object_calls rest (Com.object_call c st)).
    destruct (Com.object_calls rest (Com.object_call c st)) as [[obj d] held].
    rewrite Hf1 in IH. exact IH.
Qed.

(** ** Registration *)

Lemma FAILED_iff (hr : HRESULT) : Registration.FAILED hr = true <-> hr < 0.
Proof. unfold Registration.FAILED. apply Z.ltb_lt. Qed.

Lemma SUCCEEDED_not_FAILED (hr : HRESULT) :
  Registration.SUCCEEDED hr = negb (Registration.FAILED hr).
Proof.
  unfold Registration.SUCCEEDED, Registration.FAILED.
  destruct (Z.leb_spec 0 hr), (Z.ltb_spec hr 0); try reflexivity; lia.
Qed.

Ltac created_paths_cases :=
  let p := fresh "p" in
  let Hp := fresh "Hp" in
  intros p Hp; unfold Registration.created_paths in Hp;
  cbn [flat_map app snd] in Hp;
  repeat (destruct Hp as [<- | Hp]; [ auto | ]); contradiction.

Section RegistrationTraces.

Import Registration.

Variable com : ComEnv.
Variable text : TextEnv.
Variable un : UnregisterEnv.

Lemma RegisterCOMServer_balanced :
  let tr := snd (RegisterCOMServer com) in
  closed_keys tr = rev (opened_keys tr) /\ obtained tr = [] /\
  released tr = [].
Proof.
  unfold RegisterCOMServer.
  destruct (com_GetModuleFileNameW com); [ | cbn; auto ].
  destruct (RegCreateKeyExW com keyPath); [ | cbn; auto ].
  destruct (RegCreateKeyExW com inprocPath); cbn; auto.
Qed.

Lemma RegisterTextService_balanced :
  let tr := snd (RegisterTextService text) in
  closed_keys tr = [] /\ opened_keys tr = [] /\ released tr = obtained tr.
Proof.
  unfold RegisterTextService.
  destruct (text_GetModuleFileNameW text); [ | cbn; auto ].
  cbv zeta. rewrite (SUCCEEDED_not_FAILED (CoCreate_category text)).
  destruct (FAILED (CoCreate_profiles text)) eqn:H1.
  { cbn. rewrite SUCCEEDED_not_FAILED, H1. cbn. auto. }
  destruct (FAILED (Register text)) eqn:H2.
  { cbn. rewrite SUCCEEDED_not_FAILED, H1. cbn. auto. }
  destruct (FAILED (AddLanguageProfile text)) eqn:H3.
  { cbn. rewrite SUCCEEDED_not_FAILED, H1. cbn. auto. }
  destruct (FAILED (CoCreate_category text)) eqn:H4;
    cbn; rewrite !SUCCEEDED_not_FAILED, H1, H4; cbn; auto.
Qed.

Lemma UnregisterTextService_balanced :
  let tr := snd (UnregisterTextService un) in
  closed_keys tr = [] /\ opened_keys tr = [] /\ released tr = obtained tr.
Proof.
  unfold UnregisterTextService. cbv zeta.
  destruct (SUCCEEDED (un_CoCreate_profiles un)) eqn:H1;
    destruct (SUCCEEDED (un_CoCreate_category un)) eqn:H2;
    cbn; rewrite ?H1, ?H2; cbn; auto.
Qed.

Lemma opened_keys_app tr1 tr2 :
  opened_keys (tr1 ++ tr2) = opened_keys tr1 ++ opened_keys tr2.
Proof. apply flat_map_app. Qed.

Lemma closed_keys_app tr1 tr2 :
  closed_keys (tr1 ++ tr2) = closed_keys tr1 ++ closed_keys tr2.
Proof. apply flat_map_app. Qed.

Lemma obtained_app tr1 tr2 :
  obtained (tr1 ++ tr2) = obtained tr1 ++ obtained tr2.
Proof. apply flat_map_app. Qed.

Lemma released_app tr1 tr2 :
  released (tr1 ++ tr2) = released tr1 ++ released tr2.
Proof. apply flat_map_app. Qed.

(** Registering and unregistering give back what they take: whatever the
    registry and the profile objects answer, every key handle
    [RegCreateKeyExW] gave is closed, the inner key first, and every
    interface [CoCreateInstance] gave is released, once and in the order
    obtained; no handle is closed and no interface released that was not
    given. *)
Theorem registration_gives_back_keys_and_interfaces :
  let reg := snd (DllRegisterServer com text) in
  let unreg := snd (DllUnregisterServer un) in
  (closed_keys reg = rev (opened_keys reg) /\ released reg = obtained reg) /\
  (closed_keys unreg = rev (opened_keys unreg) /\
   released unreg = obtained unreg).
Proof.
  cbv zeta.
  destruct RegisterCOMServer_balanced as (Hc1 & Hc2 & Hc3).
  destruct RegisterTextService_balanced as (Ht1 & Ht2 & Ht3).
  destruct UnregisterTextService_balanced as (Hu1 & Hu2 & Hu3).
  cbv zeta in *. split.
  - unfold DllRegisterServer.
    destruct (RegisterCOMServer com) as [hr tr]. cbn [snd] in *.
    destruct (FAILED hr).
    { cbn [snd]. rewrite Hc2, Hc3. auto. }
    destruct (RegisterTextService text) as [hr' tr']. cbn [snd] in *.
    destruct (FAILED hr'); cbn [snd];
      rewrite ?closed_keys_app, ?opened_keys_app, ?released_app,
        ?obtained_app, Hc1, Hc2, Hc3, Ht1, Ht2, Ht3; cbn;
      rewrite ?app_nil_r; auto.
  - unfold DllUnregisterServer. cbn [snd].
    rewrite closed_keys_app, opened_keys_app, released_app, obtained_app,
      Hu1, Hu2, Hu3. cbn. rewrite app_nil_r. auto.
Qed.

Lemma RegisterCOMServer_result :
  let r := RegisterCOMServer com in
  (fst r = S_OK \/ fst r = E_FAIL \/
   com_GetModuleFileNameW com = None /\ fst r = com_last_error com /\
   snd r = []) /\
  (forall p, In p (created_paths (snd r)) -> p = keyPath \/ p = inprocPath) /\
  (forall c, In c (snd r) ->
   is_profile_registration c = false /\ c <> Reg_SHDeleteKey keyPath) /\
  (fst r = S_OK -> forall dllPath, com_GetModuleFileNameW com = Some dllPath ->
   exists hKey hInprocKey,
     RegCreateKeyExW com keyPath = Some hKey /\
     RegCreateKeyExW com inprocPath = Some hInprocKey /\
     snd r = [Reg_CreateKey keyPath (Some hKey);
              Reg_SetValue hKey None "Witnessd Text Service";
              Reg_CreateKey inprocPath (Some hInprocKey);
              Reg_SetValue hInprocKey None dllPath;
              Reg_SetValue hInprocKey (Some "ThreadingModel") "Apartment";
              Reg_CloseKey hInprocKey; Reg_CloseKey hKey]).
Proof.
  unfold RegisterCOMServer.
  destruct (com_GetModuleFileNameW com) as [dllPath |].
  2: { cbn. split; [ auto | ]. split; [ tauto | ]. split; [ tauto | ].
       intros _ ? [=]. }
  destruct (RegCreateKeyExW com keyPath) as [hKey |].
  2: { cbn [fst snd]. split; [ auto | ]. split; [ created_paths_cases | ].
       split; [ | intros [=] ].
       intros c [<- | []]. split; [ reflexivity | discriminate ]. }
  destruct (RegCreateKeyExW com inprocPath) as [hInprocKey |]; cbn [fst snd app].
  - split; [ auto | ]. split; [ created_paths_cases | ]. split.
    + intros c Hc. cbn in Hc.
      repeat (destruct Hc as [<- | Hc]; [ split; [ reflexivity | discriminate ] | ]).
      contradiction.
    + intros _ ? [= <-]. exists hKey, hInprocKey. auto.
  - split; [ auto | ]. split; [ created_paths_cases | ]. split; [ | intros [=] ].
    intros c Hc. cbn in Hc.
    repeat (destruct Hc as [<- | Hc]; [ split; [ reflexivity | discriminate ] | ]).
    contradiction.
Qed.

Lemma RegisterTextService_result :
  let r := RegisterTextService text in
  (fst r = S_OK \/ fst r < 0 \/
   text_GetModuleFileNameW text = None /\ fst r = text_last_error text) /\
  created_paths (snd r) = [] /\
  (forall c, In c (snd r) -> c <> Reg_SHDeleteKey keyPath) /\
  (fst r = S_OK -> forall dllPath, text_GetModuleFileNameW text = Some dllPath ->
   exists hr1 hr2 tr,
     0 <= hr1 /\ 0 <= hr2 /\
     snd r = [Co_CreateInstance CLSID_TF_InputProcessorProfiles
                (CoCreate_profiles text);
              Profiles_Register hr1;
              Profiles_AddLanguageProfile "Witnessd Authorship Witness"
                dllPath hr2;
              Profiles_Release] ++ tr).
Proof.
  unfold RegisterTextService.
  destruct (text_GetModuleFileNameW text) as [dllPath |].
  2: { cbn. split; [ auto | ]. split; [ reflexivity | ]. split; [ tauto | ].
       intros _ ? [=]. }
  cbv zeta.
  assert (Hno : forall tr : list RegCall,
             Forall (fun c => c <> Reg_SHDeleteKey keyPath) tr ->
             forall c, In c tr -> c <> Reg_SHDeleteKey keyPath)
    by (intros tr Htr; apply Forall_forall; exact Htr).
  destruct (FAILED (CoCreate_profiles text)) eqn:H1.
  { apply FAILED_iff in H1. cbn [fst snd]. split; [ auto | ].
    split; [ reflexivity | ]. split; [ | unfold S_OK; lia ].
    apply Hno. repeat constructor; discriminate. }
  destruct (FAILED (Register text)) eqn:H2.
  { apply FAILED_iff in H2. cbn [fst snd app]. split; [ auto | ].
    split; [ reflexivity | ]. split; [ | unfold S_OK; lia ].
    apply Hno. repeat constructor; discriminate. }
  destruct (FAILED (AddLanguageProfile text)) eqn:H3.
  { apply FAILED_iff in H3. cbn [fst snd app]. split; [ auto | ].
    split; [ reflexivity | ]. split; [ | unfold S_OK; lia ].
    apply Hno. repeat constructor; discriminate. }
  assert (H2' : 0 <= Register text)
    by (unfold FAILED in H2; apply Z.ltb_ge in H2; exact H2).
  assert (H3' : 0 <= AddLanguageProfile text)
    by (unfold FAILED in H3; apply Z.ltb_ge in H3; exact H3).
  destruct (SUCCEEDED (CoCreate_category text)); cbn [fst snd app].
  - split; [ auto | ]. split; [ reflexivity | ]. split.
    + apply Hno. repeat constructor; discriminate.
    + intros _ ? [= <-]. eexists _, _, _.
      split; [ exact H2' | split; [ exact H3' | reflexivity ] ].
  - split; [ auto | ]. split; [ reflexivity | ]. split.
    + apply Hno. repeat constructor; discriminate.
    + intros _ ? [= <-]. eexists _, _, _.
      split; [ exact H2' | split; [ exact H3' | reflexivity ] ].
Qed.

(** [DllRegisterServer] answers [S_OK] or a failure code.  When the class
    was registered and the text service then is not, the last thing it
    does is delete the class key, under which every key it created lies.
    When registering the class fails, nothing is registered with TSF, and
    nothing is deleted: a class key created before the failure stays.
    When it answers [S_OK] and the module's path was found, both keys were
    created and the three values written, the module's path among them. *)
Theorem DllRegisterServer_registers_all_or_deletes_the_class_key :
  let r := DllRegisterServer com text in
  (fst r = S_OK \/ fst r < 0) /\
  (fst r < 0 -> 0 <= fst (RegisterCOMServer com) ->
   (exists tr, snd r = tr ++ [Reg_SHDeleteKey keyPath] /\
               ~ In (Reg_SHDeleteKey keyPath) tr) /\
   forall p, In p (created_paths (snd r)) -> String.prefix keyPath p = true) /\
  (fst (RegisterCOMServer com) < 0 ->
   fst r = fst (RegisterCOMServer com) /\
   filter is_profile_registration (snd r) = [] /\
   ~ In (Reg_SHDeleteKey keyPath) (snd r)) /\
  (fst r = S_OK ->
   forall dllPath, com_GetModuleFileNameW com = Some dllPath ->
   exists hKey hInprocKey tr,
     snd r = [Reg_CreateKey keyPath (Some hKey);
              Reg_SetValue hKey None "Witnessd Text Service";
              Reg_CreateKey inprocPath (Some hInprocKey);
              Reg_SetValue hInprocKey None dllPath;
              Reg_SetValue hInprocKey (Some "ThreadingModel") "Apartment";
              Reg_CloseKey hInprocKey; Reg_CloseKey hKey] ++ tr).
Proof.
  cbv zeta.
  destruct RegisterCOMServer_result as (Hc1 & Hc2 & Hc3 & Hc4).
  destruct RegisterTextService_result as (Ht1 & Ht2 & Ht3 & _).
  cbv zeta in *. unfold DllRegisterServer.
  destruct (RegisterCOMServer com) as [hr tr]. cbn [fst snd] in *.
  destruct (FAILED hr) eqn:Hf.
  - apply FAILED_iff in Hf. cbn [fst snd].
    split; [ auto | ]. split; [ lia | ]. split.
    + intros _. split; [ reflexivity | ]. split.
      * apply filter_nil_of_all_false. intros c Hc. apply (Hc3 c Hc).
      * intros Hin. apply (Hc3 _ Hin). reflexivity.
    + intros ->. unfold S_OK in Hf. lia.
  - unfold FAILED in Hf. apply Z.ltb_ge in Hf.
    destruct (RegisterTextService text) as [hr' tr']. cbn [fst snd] in *.
    assert (Hpaths : forall tail p,
              created_paths tail = [] ->
              In p (created_paths (tr ++ tr' ++ tail)) ->
              String.prefix keyPath p = true).
    { intros tail p Htail Hp. unfold created_paths in *.
      rewrite !flat_map_app, Ht2, Htail, !app_nil_r in Hp.
      destruct (Hc2 p Hp) as [-> | ->]; vm_compute; reflexivity. }
    destruct (FAILED hr') eqn:Hf'.
    + apply FAILED_iff in Hf'. cbn [fst snd UnregisterCOMServer].
      split; [ auto | ]. split; [ | split; [ lia | intros ->; unfold S_OK in Hf'; lia ] ].
      intros _ _. split.
      * exists (tr ++ tr'). split; [ rewrite app_assoc; reflexivity | ].
        intros Hin. apply in_app_or in Hin. destruct Hin as [Hin | Hin].
        -- apply (Hc3 _ Hin). reflexivity.
        -- apply (Ht3 _ Hin). reflexivity.
      * intros p. apply Hpaths. reflexivity.
    + cbn [fst snd]. split; [ auto | ]. split; [ unfold S_OK; lia | ].
      split; [ lia | ].
      intros _ dllPath Hpath.
      destruct Hc1 as [Hok | [Hfail | (Hnone & _)]].
      * destruct (Hc4 Hok dllPath Hpath) as (hKey & hInprocKey & _ & _ & ->).
        exists hKey, hInprocKey, tr'. reflexivity.
      * exfalso. rewrite Hfail in Hf. vm_compute in Hf. apply Hf. reflexivity.
      * congruence.
Qed.

Lemma no_delete_of_filter (tr : list RegCall) :
  filter is_delete tr = [] -> forall p, ~ In (Reg_SHDeleteKey p) tr.
Proof.
  intros Hnil p Hin.
  assert (Hf : In (Reg_SHDeleteKey p) (filter is_delete tr))
    by (apply filter_In; split; [ exact Hin | reflexivity ]).
  rewrite Hnil in Hf. exact Hf.
Qed.

Lemma DllRegisterServer_reports_profile_failure :
  com_GetModuleFileNameW com <> None ->
  text_GetModuleFileNameW text <> None ->
  RegCreateKeyExW com keyPath <> None ->
  RegCreateKeyExW com inprocPath <> None ->
  0 <= CoCreate_profiles text -> 0 <= Register text ->
  AddLanguageProfile text < 0 ->
  fst (DllRegisterServer com text) = AddLanguageProfile text.
Proof.
  intros Hp1 Hp2 Hk1 Hk2 H1 H2 H3.
  unfold DllRegisterServer, RegisterCOMServer, RegisterTextService.
  destruct (com_GetModuleFileNameW com); [ | contradiction ].
  destruct (text_GetModuleFileNameW text); [ | contradiction ].
  destruct (RegCreateKeyExW com keyPath); [ | contradiction ].
  destruct (RegCreateKeyExW com inprocPath); [ | contradiction ].
  cbv zeta. change (FAILED S_OK) with false. cbv iota beta.
  replace (FAILED (CoCreate_profiles text)) with false
    by (symmetry; apply Z.ltb_ge; exact H1).
  replace (FAILED (Register text)) with false
    by (symmetry; apply Z.ltb_ge; exact H2).
  rewrite (proj2 (FAILED_iff _) H3). cbv iota beta.
  rewrite (proj2 (FAILED_iff _) H3). reflexivity.
Qed.

(** The basic service's [DllRegisterServer] gives back its keys and
    interfaces as well, but it never deletes a key: what it wrote before a
    failure stays.  It answers [S_OK], a failure code, or the code of the
    last error when the module's path is not found.  And its answer does
    not depend on the language profile: where the complete service reports
    the failure of [AddLanguageProfile], the basic one answers [S_OK]. *)
Theorem Basic_DllRegisterServer_keeps_what_it_wrote :
  let r := Basic_DllRegisterServer com text in
  (closed_keys (snd r) = rev (opened_keys (snd r)) /\
   released (snd r) = obtained (snd r)) /\
  (forall p, ~ In (Reg_SHDeleteKey p) (snd r)) /\
  (fst r = S_OK \/ fst r < 0 \/
   com_GetModuleFileNameW com = None /\ fst r = com_last_error com) /\
  (com_GetModuleFileNameW com <> None ->
   text_GetModuleFileNameW text <> None ->
   RegCreateKeyExW com keyPath <> None ->
   RegCreateKeyExW com inprocPath <> None ->
   0 <= CoCreate_profiles text -> 0 <= Register text ->
   AddLanguageProfile text < 0 ->
   fst r = S_OK /\
   fst (DllRegisterServer com text) = AddLanguageProfile text).
Proof.
  cbv zeta. pose proof DllRegisterServer_reports_profile_failure as Hcomplete.
  set (complete := fst (DllRegisterServer com text)) in *. clearbody complete.
  unfold Basic_DllRegisterServer.
  destruct (com_GetModuleFileNameW com) as [dllPath |].
  2: { cbn. split; [ auto | ]. split; [ tauto | ]. split; [ auto | ].
       intros H. exfalso. apply H. reflexivity. }
  destruct (RegCreateKeyExW com keyPath) as [hKey |].
  2: { cbn [fst snd]. split; [ cbn; auto | ].
       split; [ apply no_delete_of_filter; reflexivity | ].
       split; [ right; left; vm_compute; reflexivity | ].
       intros _ _ H. exfalso. apply H. reflexivity. }
  destruct (RegCreateKeyExW com inprocPath) as [hInprocKey |].
  2: { cbn [fst snd]. split; [ cbn; auto | ].
       split; [ apply no_delete_of_filter; reflexivity | ].
       split; [ right; left; vm_compute; reflexivity | ].
       intros _ _ _ H. exfalso. apply H. reflexivity. }
  cbv zeta. rewrite (SUCCEEDED_not_FAILED (CoCreate_category text)).
  destruct (FAILED (CoCreate_profiles text)) eqn:H1.
  { pose proof (proj1 (FAILED_iff _) H1). cbn [fst snd].
    split; [ cbn; rewrite SUCCEEDED_not_FAILED, H1; cbn; auto | ].
    split; [ apply no_delete_of_filter; reflexivity | ].
    split; [ auto | ]. intros; lia. }
  destruct (FAILED (Register text)) eqn:H2.
  { pose proof (proj1 (FAILED_iff _) H2). cbn [fst snd].
    split; [ cbn; rewrite SUCCEEDED_not_FAILED, H1; cbn; auto | ].
    split; [ apply no_delete_of_filter; reflexivity | ].
    split; [ auto | ]. intros; lia. }
  destruct (FAILED (CoCreate_category text)) eqn:H4; cbn [negb fst snd].
  - split; [ cbn; rewrite !SUCCEEDED_not_FAILED, H1, H4; cbn; auto | ].
    split; [ apply no_delete_of_filter; reflexivity | ].
    split; [ auto | ]. intros ? ? ? ? ? ? ?.
    split; [ reflexivity | apply Hcomplete; assumption ].
  - split; [ cbn; rewrite !SUCCEEDED_not_FAILED, H1, H4; cbn; auto | ].
    split; [ apply no_delete_of_filter; reflexivity | ].
    split; [ auto | ]. intros ? ? ? ? ? ? ?.
    split; [ reflexivity | apply Hcomplete; assumption ].
Qed.

(** Unregistering always answers [S_OK] and always ends by deleting the
    class key, whatever [CoCreateInstance] says.  The profile is
    unregistered exactly when the profile manager could be obtained.  The
    complete service also takes back the keyboard category when it can get
    the category manager; the basic service, which registered the category
    too, never does.  The basic service gives back what it obtained as
    well. *)
Theorem unregistration_ends_by_deleting_the_class_key :
  let c := DllUnregisterServer un in
  let b := Basic_DllUnregisterServer un in
  (fst c = S_OK /\ fst b = S_OK) /\
  ((exists tr, snd c = tr ++ [Reg_SHDeleteKey keyPath] /\
               filter is_delete tr = []) /\
   (exists tr, snd b = tr ++ [Reg_SHDeleteKey keyPath] /\
               filter is_delete tr = [])) /\
  ((In Profiles_Unregister (snd c) <-> 0 <= un_CoCreate_profiles un) /\
   (In Profiles_Unregister (snd b) <-> 0 <= un_CoCreate_profiles un)) /\
  ((In CategoryMgr_UnregisterCategory (snd c) <->
    0 <= un_CoCreate_category un) /\
   ~ In CategoryMgr_UnregisterCategory (snd b)) /\
  released (snd b) = obtained (snd b).
Proof.
  cbv zeta.
  unfold DllUnregisterServer, Basic_DllUnregisterServer,
    UnregisterTextService, UnregisterCOMServer, SUCCEEDED.
  cbv zeta. cbn [fst snd].
  destruct (Z.leb_spec 0 (un_CoCreate_profiles un)) as [H1 | H1];
    destruct (Z.leb_spec 0 (un_CoCreate_category un)) as [H2 | H2];
    (split; [ split; reflexivity | ]);
    (split; [ split; eexists; (split; [ reflexivity | reflexivity ]) | ]);
    (split; [ split; (split; [ intros Hin; cbn in Hin | intros Hle; cbn ]);
              first [ lia | intuition discriminate | auto 10 ] | ]);
    (split; [ split; [ split; [ intros Hin; cbn in Hin | intros Hle; cbn ];
                       first [ lia | intuition discriminate | auto 10 ]
                     | cbn; intuition discriminate ] | ]);
    cbn; unfold SUCCEEDED;
    destruct (Z.leb_spec 0 (un_CoCreate_profiles un));
    try lia; reflexivity.
Qed.

End RegistrationTraces.

(** ** Instances for the COM and registration statements *)

Lemma class_factory_is_never_destroyed_witness :
  Com.factory_accounted (Com.loaded, 0%nat, 0%nat) /\
  match Com.client_calls class_object_client (Com.loaded, 0%nat, 0%nat) with
  | Com.Returns (d', held', locks') =>
      Com.factory_accounted (d', held', locks') /\ held' = 0%nat /\
      locks' = 0%nat /\ Com.DllCanUnloadNow d' = Com.S_FALSE
  | _ => False
  end.
Proof.
  assert (Hinv : Com.factory_accounted (Com.loaded, 0%nat, 0%nat))
    by (split; [ reflexivity | split; reflexivity ]).
  split; [ exact Hinv | ].
  pose proof (class_factory_is_never_destroyed class_object_client
                Com.loaded 0%nat 0%nat Hinv
                ltac:(vm_compute; reflexivity)) as H.
  destruct (Com.client_calls class_object_client (Com.loaded, 0%nat, 0%nat))
    as [[[d' held'] locks'] | |] eqn:Hrun;
    [ | vm_compute in Hrun; discriminate Hrun | exact H ].
  split; [ exact (proj1 H) | ].
  vm_compute in Hrun. injection Hrun as <- <- <-.
  split; [ reflexivity | split; reflexivity ].
Defined.

Lemma text_service_lives_while_referenced_witness :
  Com.object_accounted 0 (Some 1, Com.mkDll 1 Com.Null, 1%nat) /\
  Com.object_calls object_client (Some 1, Com.mkDll 1 Com.Null, 1%nat) =
  (None, Com.loaded, 0%nat).
Proof.
  split; [ split; [ lia | split; reflexivity ] | ].
  pose proof (text_service_lives_while_referenced 0 object_client
                (Some 1, Com.mkDll 1 Com.Null, 1%nat)
                ltac:(lia) ltac:(split; [ lia | split; reflexivity ])
                ltac:(vm_compute; reflexivity)) as H.
  vm_compute. reflexivity.
Defined.

Lemma DllRegisterServer_registers_all_or_deletes_the_class_key_witness :
  let r := Registration.DllRegisterServer registry_ok profile_refused in
  fst r < 0 /\ 0 <= fst (Registration.RegisterCOMServer registry_ok) /\
  exists tr,
    snd r = tr ++ [Registration.Reg_SHDeleteKey Registration.keyPath] /\
    ~ In (Registration.Reg_SHDeleteKey Registration.keyPath) tr.
Proof.
  assert (H1 : fst (Registration.DllRegisterServer registry_ok
                      profile_refused) < 0) by (vm_compute; reflexivity).
  assert (H2 : 0 <= fst (Registration.RegisterCOMServer registry_ok))
    by (vm_compute; discriminate).
  split; [ exact H1 | ]. split; [ exact H2 | ].
  exact (proj1 (proj1 (proj2
    (DllRegisterServer_registers_all_or_deletes_the_class_key
       registry_ok profile_refused)) H1 H2)).
Defined.

Lemma Basic_DllRegisterServer_keeps_what_it_wrote_witness :
  Registration.AddLanguageProfile profile_refused < 0 /\
  fst (Registration.Basic_DllRegisterServer registry_ok profile_refused)
  = S_OK /\
  fst (Registration.DllRegisterServer registry_ok profile_refused)
  = Registration.AddLanguageProfile profile_refused.
Proof.
  assert (H : Registration.AddLanguageProfile profile_refused < 0)
    by (vm_compute; reflexivity).
  split; [ exact H | ].
  exact (proj2 (proj2 (proj2
    (Basic_DllRegisterServer_keeps_what_it_wrote registry_ok
       profile_refused)))
    ltac:(discriminate) ltac:(discriminate) ltac:(discriminate)
    ltac:(discriminate) ltac:(vm_compute; discriminate)
    ltac:(vm_compute; discriminate) H).
Defined.

Lemma CreateInstance_leaves_one_reference_or_nothing_witness :
  0 <= Com.g_dllRefCount Com.loaded < 2 ^ 31 - 1 /\
  Com.Factory_CreateInstance nullptr (Com.IID_other 7) true true Com.loaded =
  (Com.E_NOINTERFACE, Com.Stored None, None, Com.loaded) /\
  Com.Factory_CreateInstance 0x6000 Com.IID_IUnknown true true Com.loaded =
  (Com.CLASS_E_NOAGGREGATION, Com.Untouched, None, Com.loaded).
Proof.
  assert (H : 0 <= Com.g_dllRefCount Com.loaded < 2 ^ 31 - 1)
    by (unfold Com.loaded; cbn [Com.g_dllRefCount]; lia).
  split; [ exact H | ]. split.
  - pose proof (CreateInstance_leaves_one_reference_or_nothing nullptr
                  (Com.IID_other 7) true true Com.loaded H) as T.
    destruct (Com.Factory_CreateInstance nullptr (Com.IID_other 7) true true
                Com.loaded) as [[[hr out] pService] d'] eqn:Hrun.
    destruct T as (_ & _ & T).
    assert (Hhr : hr = Com.E_NOINTERFACE)
      by (vm_compute in Hrun; injection Hrun as <- _ _ _; reflexivity).
    destruct (T ltac:(rewrite Hhr; discriminate)) as (-> & -> & ->).
    rewrite Hhr. reflexivity.
  - pose proof (CreateInstance_leaves_one_reference_or_nothing 0x6000
                  Com.IID_IUnknown true true Com.loaded H) as T.
    destruct (Com.Factory_CreateInstance 0x6000 Com.IID_IUnknown true true
                Com.loaded) as [[[hr out] pService] d'] eqn:Hrun.
    destruct T as (_ & _ & T).
    assert (Hhr : hr = Com.CLASS_E_NOAGGREGATION)
      by (vm_compute in Hrun; injection Hrun as <- _ _ _; reflexivity).
    destruct (T ltac:(rewrite Hhr; discriminate)) as (-> & -> & ->).
    rewrite Hhr. reflexivity.
Defined.
